(** * SimpleDistGradAggregator: the distributed gradient aggregator of CNTK

    A shallow embedding of [SimpleDistGradAggregator<ElemType>] (both source
    variants: the one with the compile-time profile switch and the one that
    adds [AsyncAggregateGradHeader]) and of the [IDistGradAggregator]
    interface it implements, followed by the properties of the
    specification.

    One rank runs the member functions below.  A member function becomes a
    function from the object's state (and the pointees of its arguments) to
    the new state, an error, or a blocked rank; what the communication
    fabric delivers to this rank is read from a [Fabric].  A cluster closes
    the loop: the fabric of a rank is computed from what its peers hand to
    their own calls ([fabric_of], [run_pipeline]). *)

From stdpp Require Import gmap list strings.
From Stdlib Require Import NArith ZArith Lia.

Local Open Scope N_scope.

(** ** size_t arithmetic *)

Definition SIZE_MOD : N := 2 ^ 64.

Definition size_add (a b : N) : N := (a + b) mod SIZE_MOD.
Definition size_mul (a b : N) : N := (a * b) mod SIZE_MOD.
(** [a - b] on size_t: wraps below zero. *)
Definition size_sub (a b : N) : N := (a + SIZE_MOD - b mod SIZE_MOD) mod SIZE_MOD.

(** [(size_t) -1], the index that stands for the packed buffer. *)
Definition NONE : N := SIZE_MOD - 1.

(** ** Exceptions and results *)

Inductive Exn : Type :=
| LogicError (msg : string)
| RuntimeError (msg : string)
(** undefined behaviour of the source: an index past the end of a vector,
    a null pointer dereferenced *)
| Fault (what : string)
(** the rank blocks forever in a wait that no peer will ever complete *)
| Deadlock (what : string).

Inductive result (A : Type) : Type :=
| Ok (a : A)
| Throw (e : Exn).
Arguments Ok {A} a.
Arguments Throw {A} e.

Definition bind {A B : Type} (r : result A) (k : A → result B) : result B :=
  match r with
  | Ok a => k a
  | Throw e => Throw e
  end.

Notation "'do' x <- e ; k" := (bind e (fun x => k))
  (at level 10, x pattern, e at level 100, k at level 200).

Definition at_index {A : Type} (what : string) (l : list A) (i : N) : result A :=
  match l !! N.to_nat i with
  | Some x => Ok x
  | None => Throw (Fault what)
  end.

Definition deref {A : Type} (what : string) (p : option A) : result A :=
  match p with
  | Some x => Ok x
  | None => Throw (Fault what)
  end.

Lemma bind_Ok {A B : Type} (r : result A) (k : A → result B) (b : B) :
  bind r k = Ok b → ∃ a, r = Ok a ∧ k a = Ok b.
Proof. destruct r as [a|e]; simpl; [eauto | discriminate]. Qed.

Lemma at_index_Ok {A : Type} what (l : list A) i x :
  at_index what l i = Ok x ↔ l !! N.to_nat i = Some x.
Proof.
  unfold at_index. destruct (l !! N.to_nat i); split; intros H; congruence.
Qed.

(** ** Reduction operators *)

Inductive MPI_Op : Type := MPI_SUM | MPI_MAX | MPI_MIN | MPI_PROD.

Global Instance MPI_Op_eq_dec : EqDecision MPI_Op.
Proof. solve_decision. Defined.

Definition CPUDEVICE : Z := (-1)%Z.

Inductive MatrixType : Type := UNDETERMINED | DENSE | SPARSE.

Global Instance MatrixType_eq_dec : EqDecision MatrixType.
Proof. solve_decision. Defined.

(** A [Matrix<ElemType>*] compares by address. *)
Abbreviation MatrixPtr := N (only parsing).

(** ** The facades the aggregator consumes *)

(** What the aggregator reads of its [MPIWrapper]. *)
Record MPIWrapper : Type := {
  NumNodesInUse : N;
  CurrentNodeRank : N;
  MainNodeRank : N;
  UseGpuGdr : bool
}.

Definition IsMainNode (mpi : MPIWrapper) : bool :=
  CurrentNodeRank mpi =? MainNodeRank mpi.

(** What the aggregator reads of its [NcclComm]. *)
Record NcclComm : Type := { IsSupported : bool }.

(** The captures of the lambda handed to [std::async]: the pending future
    stands for this deferred call of [AggregateGradientsImpl] on the
    buffered gradients (named by the keys of [m_bufferedGradients]) and on
    the buffered header. *)
Record AsyncTask : Type := {
  task_deviceId : Z;
  task_newGradients : list MatrixPtr;
  task_showSyncPerfStats : bool
}.

(** ** threadsafe_queue *)

(** [threadsafe_queue<T>] guards a [std::queue<T>] by a mutex that every
    member function holds while it reads or writes the queue
    ([wait_and_pop] lets go of it while it sleeps), so the calls of the
    threads take effect one after the other: the object is the queue it
    guards, front first. *)
Module threadsafe_queue.
Section queue.
Context {T : Type}.

Definition push (data_queue : list T) (new_value : T) : list T :=
  data_queue ++ [new_value].

(** [wait_and_pop] sleeps while the queue is empty; a caller that no
    [push] wakes stays blocked. *)
Definition wait_and_pop (data_queue : list T) (value : T) : result (list T * T) :=
  match data_queue with
  | [] => Throw (Deadlock "data_cond.wait")
  | front :: rest => Ok (rest, front)
  end.

(** [try_pop] answers whether it popped, and leaves [value] as it was
    when it did not. *)
Definition try_pop (data_queue : list T) (value : T) : bool * list T * T :=
  match data_queue with
  | [] => (false, data_queue, value)
  | front :: rest => (true, rest, front)
  end.

Definition empty (data_queue : list T) : bool :=
  match data_queue with
  | [] => true
  | _ :: _ => false
  end.

(** [n] calls of [try_pop] in a row on the same [value]: what each call
    answered and left in [value], and the queue after the last. *)
Fixpoint try_pops (n : nat) (data_queue : list T) (value : T)
  : list (bool * T) * list T :=
  match n with
  | O => ([], data_queue)
  | S n' =>
    let '(popped, data_queue, value) := try_pop data_queue value in
    let '(answers, data_queue) := try_pops n' data_queue value in
    ((popped, value) :: answers, data_queue)
  end.

End queue.
End threadsafe_queue.

Section Aggregator.

(** The template parameter, and the double of the header. *)
Variable ElemType : Type.
Variable sizeofElemType : N.
(** what a reduction operator makes of two elements *)
Variable reduce : MPI_Op → ElemType → ElemType → ElemType.
(** the element [SetValue(0)] stores *)
Variable zero : ElemType.

Variable Double : Type.
Variable dadd : Double → Double → Double.
Variable dzero : Double.

(** ** Matrix *)

(** Modelled from the spec: [Matrix<ElemType>] is an external collaborator
    (Matrix.h is not among the sources); the aggregator uses the attributes
    and operations listed in the specification. [Data] is the column-major
    element buffer. *)
Record Matrix : Type := {
  GetNumRows : N;
  GetNumCols : N;
  GetDeviceId : Z;
  GetMatrixType : MatrixType;
  Data : list ElemType
}.

Definition GetNumElements (m : Matrix) : N := size_mul (GetNumRows m) (GetNumCols m).

(** [new Matrix<ElemType>(rows, cols, deviceId)]: a dense matrix of zeros. *)
Definition new_Matrix (rows cols : N) (deviceId : Z) : Matrix :=
  {| GetNumRows := rows; GetNumCols := cols; GetDeviceId := deviceId;
     GetMatrixType := DENSE;
     Data := replicate (N.to_nat (size_mul rows cols)) zero |}.

Definition with_Data (m : Matrix) (d : list ElemType) : Matrix :=
  {| GetNumRows := GetNumRows m; GetNumCols := GetNumCols m;
     GetDeviceId := GetDeviceId m; GetMatrixType := GetMatrixType m;
     Data := d |}.

(** [m->SetValue(0)] *)
Definition SetValue0 (m : Matrix) : Matrix :=
  with_Data m (replicate (length (Data m)) zero).

(** [buffer->ColumnSlice(offset, n).AssignValuesOf(src->Reshaped(1, n))] on
    a buffer of one row: the slice must lie inside the buffer and the source
    must have [n] elements. *)
Definition AssignColumnSlice (buffer : Matrix) (offset n : N) (src : list ElemType)
  : result Matrix :=
  if (N.to_nat offset + N.to_nat n <=? length (Data buffer))%nat
     && (length src =? N.to_nat n)%nat
  then Ok (with_Data buffer
             (take (N.to_nat offset) (Data buffer) ++ src ++
              drop (N.to_nat offset + N.to_nat n) (Data buffer)))
  else Throw (LogicError "ColumnSlice: out of range").

(** [buffer->ColumnSlice(offset, n)], read. *)
Definition ColumnSlice (buffer : Matrix) (offset n : N) : result (list ElemType) :=
  if (N.to_nat offset + N.to_nat n <=? length (Data buffer))%nat
  then Ok (take (N.to_nat n) (drop (N.to_nat offset) (Data buffer)))
  else Throw (LogicError "ColumnSlice: out of range").

(** ** DistGradHeader *)

(** Modelled from the spec: DistGradHeader.h is not among the sources. The
    statistics header is the fixed-layout struct of the data model; the
    sample counters are 64-bit and wrap. *)
Record DistGradHeader : Type := {
  numSamples : N;
  numSamplesWithLabel : N;
  criterion : Double;
  numEvalNode : Z;
  evalErrors : list (Double * N)
}.

(** Modelled from the spec: [DistGradHeader::Create(numEvalNodes)]; the
    fresh storage is taken to hold zeros. *)
Definition Create (numEvalNodes : Z) : DistGradHeader :=
  {| numSamples := 0; numSamplesWithLabel := 0; criterion := dzero;
     numEvalNode := numEvalNodes;
     evalErrors := replicate (Z.to_nat numEvalNodes) (dzero, 0) |}.

(** Modelled from the spec: [Clear()] zeroes every numeric field. *)
Definition Clear (h : DistGradHeader) : DistGradHeader :=
  {| numSamples := 0; numSamplesWithLabel := 0; criterion := dzero;
     numEvalNode := numEvalNode h;
     evalErrors := map (λ _, (dzero, 0)) (evalErrors h) |}.

(** Modelled from the spec: [this->Aggregate(other, resetOther)] combines
    two headers elementwise by addition over all numeric fields; the result
    is the new content of [this]. What the flag does to [other] is not read
    by the aggregator: a receive slot is overwritten by the next receive
    before it is read again. *)
Definition Aggregate (this other : DistGradHeader) (resetOther : bool) : DistGradHeader :=
  {| numSamples := size_add (numSamples this) (numSamples other);
     numSamplesWithLabel := size_add (numSamplesWithLabel this) (numSamplesWithLabel other);
     criterion := dadd (criterion this) (criterion other);
     numEvalNode := numEvalNode this;
     evalErrors := zip_with (λ a b, (dadd a.1 b.1, size_add a.2 b.2))
                     (evalErrors this) (evalErrors other) |}.

(** ** The communication fabric seen from one rank *)

(** Modelled from the spec: the MPI and NCCL facades are external
    collaborators. During one run of the pipeline a rank observes of its
    peers: the header (with its tag) a peer hands to [Isend], the buffer a
    peer hands to its [k]-th all-reduce request, the order in which the
    posted receives complete, and the header a rank broadcasts as the
    root. *)
Record Fabric : Type := {
  peer_send : N → option (Z * DistGradHeader);
  peer_buffer : N → nat → list ElemType;
  completion_order : list nat;
  bcast_header : N → option DistGradHeader
}.

(** The calls a rank makes on the facades, in program order. *)
Inductive Call : Type :=
| call_Irecv (slot : nat) (source : N) (tag : Z)
| call_Isend (h : DistGradHeader) (dest : N) (tag : Z)
| call_AllReduce (buf : list ElemType) (op : MPI_Op)
| call_Iallreduce (buf : list ElemType) (op : MPI_Op)
| call_NcclAllReduce (bufs : list (list ElemType)) (op : MPI_Op)
| call_Waitany (idx : option nat)
| call_Bcast (h : DistGradHeader) (root : N)
| call_Wait
| call_NcclSync.

(** The buffers a trace hands to all-reduce requests, in order. *)
Fixpoint reduce_requests (t : list Call) : list (list ElemType) :=
  match t with
  | [] => []
  | call_AllReduce b _ :: t' => b :: reduce_requests t'
  | call_Iallreduce b _ :: t' => b :: reduce_requests t'
  | call_NcclAllReduce bs _ :: t' => bs ++ reduce_requests t'
  | _ :: t' => reduce_requests t'
  end.

(** Elementwise reduction of the buffers of all ranks, in rank order. *)
Definition reduce_buffers (op : MPI_Op) (bufs : list (list ElemType)) : list ElemType :=
  match bufs with
  | [] => []
  | b :: rest => fold_left (zip_with (reduce op)) rest b
  end.

(** What the ranks contribute to the [k]-th all-reduce of this rank: its
    own buffer at its own rank, the peers' buffers elsewhere. *)
Definition contributions (mpi : MPIWrapper) (f : Fabric) (k : nat) (own : list ElemType)
  : list (list ElemType) :=
  map (λ s, if N.of_nat s =? CurrentNodeRank mpi then own else peer_buffer f (N.of_nat s) k)
      (seq 0 (N.to_nat (NumNodesInUse mpi))).

(** Modelled from the spec: an all-reduce leaves on every rank the same
    elementwise reduction of the per-rank inputs. *)
Definition all_reduce (mpi : MPIWrapper) (f : Fabric) (k : nat) (own : list ElemType)
    (op : MPI_Op) : list ElemType :=
  reduce_buffers op (contributions mpi f k own).

(** ** The aggregator object *)

(** Modelled from the spec: a [GPUDataTransferer] (GPUDataTransferer.h is
    not among the sources) with the copy towards the host and the copy
    towards the device it has in flight. A copy lands when it is waited
    for. The device-side destination is named by the entry of
    [m_gradientIndexToAggregate] it belongs to. *)
Record GPUDataTransferer : Type := {
  fetch_in_flight : option (list ElemType);
  assign_in_flight : option (N * list ElemType)
}.

(** The data members of [SimpleDistGradAggregator<ElemType>]; of the
    page-locked allocator the model keeps whether it is present. *)
Record SimpleDistGradAggregator : Type := {
  m_mpi : MPIWrapper;
  m_allocator : bool;
  m_intermediateCPUBuffers : list (list ElemType);
  m_gpuDataTransferers : list GPUDataTransferer;
  m_intermediateDistributedCPUBuffer1 : option (list ElemType);
  m_intermediateDistributedCPUBuffer2 : option (list ElemType);
  m_recvHeaders : list DistGradHeader;
  m_useAsyncAggregation : bool;
  m_pendingAsyncAggregation : option AsyncTask;
  m_bufferedGradients : gmap N Matrix;
  m_bufferedGradHeader : option DistGradHeader;
  m_packThresholdSizeInBytes : N;
  m_aggregationBuffer : option Matrix;
  m_packedGradientsIndex : list N;
  m_gradientIndexToAggregate : list N;
  m_syncStatsTrace : Z;
  m_iterationCount : N;
  m_initialized : bool;
  m_nccl : option NcclComm
}.

(** The constructor. *)
Definition new_SimpleDistGradAggregator (mpi : MPIWrapper) (useAsyncAggregation : bool)
    (deviceId : Z) (syncStatsTrace : Z) (packThresholdSizeInBytes : N)
  : SimpleDistGradAggregator :=
  {| m_mpi := mpi; m_allocator := false; m_intermediateCPUBuffers := [];
     m_gpuDataTransferers := [];
     m_intermediateDistributedCPUBuffer1 := None;
     m_intermediateDistributedCPUBuffer2 := None;
     m_recvHeaders := []; m_useAsyncAggregation := useAsyncAggregation;
     m_pendingAsyncAggregation := None; m_bufferedGradients := ∅;
     m_bufferedGradHeader := None;
     m_packThresholdSizeInBytes := packThresholdSizeInBytes;
     m_aggregationBuffer := None; m_packedGradientsIndex := [];
     m_gradientIndexToAggregate := []; m_syncStatsTrace := syncStatsTrace;
     m_iterationCount := 0; m_initialized := false; m_nccl := None |}.

(** Assignments to single members. *)
Definition set_allocator (v : bool) (a : SimpleDistGradAggregator)
  : SimpleDistGradAggregator :=
  {| m_mpi := m_mpi a;
     m_allocator := v;
     m_intermediateCPUBuffers := m_intermediateCPUBuffers a;
     m_gpuDataTransferers := m_gpuDataTransferers a;
     m_intermediateDistributedCPUBuffer1 := m_intermediateDistributedCPUBuffer1 a;
     m_intermediateDistributedCPUBuffer2 := m_intermediateDistributedCPUBuffer2 a;
     m_recvHeaders := m_recvHeaders a;
     m_useAsyncAggregation := m_useAsyncAggregation a;
     m_pendingAsyncAggregation := m_pendingAsyncAggregation a;
     m_bufferedGradients := m_bufferedGradients a;
     m_bufferedGradHeader := m_bufferedGradHeader a;
     m_packThresholdSizeInBytes := m_packThresholdSizeInBytes a;
     m_aggregationBuffer := m_aggregationBuffer a;
     m_packedGradientsIndex := m_packedGradientsIndex a;
     m_gradientIndexToAggregate := m_gradientIndexToAggregate a;
     m_syncStatsTrace := m_syncStatsTrace a;
     m_iterationCount := m_iterationCount a;
     m_initialized := m_initialized a;
     m_nccl := m_nccl a |}.

Definition set_intermediateCPUBuffers (v : list (list ElemType)) (a : SimpleDistGradAggregator)
  : SimpleDistGradAggregator :=
  {| m_mpi := m_mpi a;
     m_allocator := m_allocator a;
     m_intermediateCPUBuffers := v;
     m_gpuDataTransferers := m_gpuDataTransferers a;
     m_intermediateDistributedCPUBuffer1 := m_intermediateDistributedCPUBuffer1 a;
     m_intermediateDistributedCPUBuffer2 := m_intermediateDistributedCPUBuffer2 a;
     m_recvHeaders := m_recvHeaders a;
     m_useAsyncAggregation := m_useAsyncAggregation a;
     m_pendingAsyncAggregation := m_pendingAsyncAggregation a;
     m_bufferedGradients := m_bufferedGradients a;
     m_bufferedGradHeader := m_bufferedGradHeader a;
     m_packThresholdSizeInBytes := m_packThresholdSizeInBytes a;
     m_aggregationBuffer := m_aggregationBuffer a;
     m_packedGradientsIndex := m_packedGradientsIndex a;
     m_gradientIndexToAggregate := m_gradientIndexToAggregate a;
     m_syncStatsTrace := m_syncStatsTrace a;
     m_iterationCount := m_iterationCount a;
     m_initialized := m_initialized a;
     m_nccl := m_nccl a |}.

Definition set_gpuDataTransferers (v : list GPUDataTransferer) (a : SimpleDistGradAggregator)
  : SimpleDistGradAggregator :=
  {| m_mpi := m_mpi a;
     m_allocator := m_allocator a;
     m_intermediateCPUBuffers := m_intermediateCPUBuffers a;
     m_gpuDataTransferers := v;
     m_intermediateDistributedCPUBuffer1 := m_intermediateDistributedCPUBuffer1 a;
     m_intermediateDistributedCPUBuffer2 := m_intermediateDistributedCPUBuffer2 a;
     m_recvHeaders := m_recvHeaders a;
     m_useAsyncAggregation := m_useAsyncAggregation a;
     m_pendingAsyncAggregation := m_pendingAsyncAggregation a;
     m_bufferedGradients := m_bufferedGradients a;
     m_bufferedGradHeader := m_bufferedGradHeader a;
     m_packThresholdSizeInBytes := m_packThresholdSizeInBytes a;
     m_aggregationBuffer := m_aggregationBuffer a;
     m_packedGradientsIndex := m_packedGradientsIndex a;
     m_gradientIndexToAggregate := m_gradientIndexToAggregate a;
     m_syncStatsTrace := m_syncStatsTrace a;
     m_iterationCount := m_iterationCount a;
     m_initialized := m_initialized a;
     m_nccl := m_nccl a |}.

Definition set_intermediateDistributedCPUBuffer1 (v : option (list ElemType)) (a : SimpleDistGradAggregator)
  : SimpleDistGradAggregator :=
  {| m_mpi := m_mpi a;
     m_allocator := m_allocator a;
     m_intermediateCPUBuffers := m_intermediateCPUBuffers a;
     m_gpuDataTransferers := m_gpuDataTransferers a;
     m_intermediateDistributedCPUBuffer1 := v;
     m_intermediateDistributedCPUBuffer2 := m_intermediateDistributedCPUBuffer2 a;
     m_recvHeaders := m_recvHeaders a;
     m_useAsyncAggregation := m_useAsyncAggregation a;
     m_pendingAsyncAggregation := m_pendingAsyncAggregation a;
     m_bufferedGradients := m_bufferedGradients a;
     m_bufferedGradHeader := m_bufferedGradHeader a;
     m_packThresholdSizeInBytes := m_packThresholdSizeInBytes a;
     m_aggregationBuffer := m_aggregationBuffer a;
     m_packedGradientsIndex := m_packedGradientsIndex a;
     m_gradientIndexToAggregate := m_gradientIndexToAggregate a;
     m_syncStatsTrace := m_syncStatsTrace a;
     m_iterationCount := m_iterationCount a;
     m_initialized := m_initialized a;
     m_nccl := m_nccl a |}.

Definition set_intermediateDistributedCPUBuffer2 (v : option (list ElemType)) (a : SimpleDistGradAggregator)
  : SimpleDistGradAggregator :=
  {| m_mpi := m_mpi a;
     m_allocator := m_allocator a;
     m_intermediateCPUBuffers := m_intermediateCPUBuffers a;
     m_gpuDataTransferers := m_gpuDataTransferers a;
     m_intermediateDistributedCPUBuffer1 := m_intermediateDistributedCPUBuffer1 a;
     m_intermediateDistributedCPUBuffer2 := v;
     m_recvHeaders := m_recvHeaders a;
     m_useAsyncAggregation := m_useAsyncAggregation a;
     m_pendingAsyncAggregation := m_pendingAsyncAggregation a;
     m_bufferedGradients := m_bufferedGradients a;
     m_bufferedGradHeader := m_bufferedGradHeader a;
     m_packThresholdSizeInBytes := m_packThresholdSizeInBytes a;
     m_aggregationBuffer := m_aggregationBuffer a;
     m_packedGradientsIndex := m_packedGradientsIndex a;
     m_gradientIndexToAggregate := m_gradientIndexToAggregate a;
     m_syncStatsTrace := m_syncStatsTrace a;
     m_iterationCount := m_iterationCount a;
     m_initialized := m_initialized a;
     m_nccl := m_nccl a |}.

Definition set_recvHeaders (v : list DistGradHeader) (a : SimpleDistGradAggregator)
  : SimpleDistGradAggregator :=
  {| m_mpi := m_mpi a;
     m_allocator := m_allocator a;
     m_intermediateCPUBuffers := m_intermediateCPUBuffers a;
     m_gpuDataTransferers := m_gpuDataTransferers a;
     m_intermediateDistributedCPUBuffer1 := m_intermediateDistributedCPUBuffer1 a;
     m_intermediateDistributedCPUBuffer2 := m_intermediateDistributedCPUBuffer2 a;
     m_recvHeaders := v;
     m_useAsyncAggregation := m_useAsyncAggregation a;
     m_pendingAsyncAggregation := m_pendingAsyncAggregation a;
     m_bufferedGradients := m_bufferedGradients a;
     m_bufferedGradHeader := m_bufferedGradHeader a;
     m_packThresholdSizeInBytes := m_packThresholdSizeInBytes a;
     m_aggregationBuffer := m_aggregationBuffer a;
     m_packedGradientsIndex := m_packedGradientsIndex a;
     m_gradientIndexToAggregate := m_gradientIndexToAggregate a;
     m_syncStatsTrace := m_syncStatsTrace a;
     m_iterationCount := m_iterationCount a;
     m_initialized := m_initialized a;
     m_nccl := m_nccl a |}.

Definition set_pendingAsyncAggregation (v : option AsyncTask) (a : SimpleDistGradAggregator)
  : SimpleDistGradAggregator :=
  {| m_mpi := m_mpi a;
     m_allocator := m_allocator a;
     m_intermediateCPUBuffers := m_intermediateCPUBuffers a;
     m_gpuDataTransferers := m_gpuDataTransferers a;
     m_intermediateDistributedCPUBuffer1 := m_intermediateDistributedCPUBuffer1 a;
     m_intermediateDistributedCPUBuffer2 := m_intermediateDistributedCPUBuffer2 a;
     m_recvHeaders := m_recvHeaders a;
     m_useAsyncAggregation := m_useAsyncAggregation a;
     m_pendingAsyncAggregation := v;
     m_bufferedGradients := m_bufferedGradients a;
     m_bufferedGradHeader := m_bufferedGradHeader a;
     m_packThresholdSizeInBytes := m_packThresholdSizeInBytes a;
     m_aggregationBuffer := m_aggregationBuffer a;
     m_packedGradientsIndex := m_packedGradientsIndex a;
     m_gradientIndexToAggregate := m_gradientIndexToAggregate a;
     m_syncStatsTrace := m_syncStatsTrace a;
     m_iterationCount := m_iterationCount a;
     m_initialized := m_initialized a;
     m_nccl := m_nccl a |}.

Definition set_bufferedGradients (v : gmap N Matrix) (a : SimpleDistGradAggregator)
  : SimpleDistGradAggregator :=
  {| m_mpi := m_mpi a;
     m_allocator := m_allocator a;
     m_intermediateCPUBuffers := m_intermediateCPUBuffers a;
     m_gpuDataTransferers := m_gpuDataTransferers a;
     m_intermediateDistributedCPUBuffer1 := m_intermediateDistributedCPUBuffer1 a;
     m_intermediateDistributedCPUBuffer2 := m_intermediateDistributedCPUBuffer2 a;
     m_recvHeaders := m_recvHeaders a;
     m_useAsyncAggregation := m_useAsyncAggregation a;
     m_pendingAsyncAggregation := m_pendingAsyncAggregation a;
     m_bufferedGradients := v;
     m_bufferedGradHeader := m_bufferedGradHeader a;
     m_packThresholdSizeInBytes := m_packThresholdSizeInBytes a;
     m_aggregationBuffer := m_aggregationBuffer a;
     m_packedGradientsIndex := m_packedGradientsIndex a;
     m_gradientIndexToAggregate := m_gradientIndexToAggregate a;
     m_syncStatsTrace := m_syncStatsTrace a;
     m_iterationCount := m_iterationCount a;
     m_initialized := m_initialized a;
     m_nccl := m_nccl a |}.

Definition set_bufferedGradHeader (v : option DistGradHeader) (a : SimpleDistGradAggregator)
  : SimpleDistGradAggregator :=
  {| m_mpi := m_mpi a;
     m_allocator := m_allocator a;
     m_intermediateCPUBuffers := m_intermediateCPUBuffers a;
     m_gpuDataTransferers := m_gpuDataTransferers a;
     m_intermediateDistributedCPUBuffer1 := m_intermediateDistributedCPUBuffer1 a;
     m_intermediateDistributedCPUBuffer2 := m_intermediateDistributedCPUBuffer2 a;
     m_recvHeaders := m_recvHeaders a;
     m_useAsyncAggregation := m_useAsyncAggregation a;
     m_pendingAsyncAggregation := m_pendingAsyncAggregation a;
     m_bufferedGradients := m_bufferedGradients a;
     m_bufferedGradHeader := v;
     m_packThresholdSizeInBytes := m_packThresholdSizeInBytes a;
     m_aggregationBuffer := m_aggregationBuffer a;
     m_packedGradientsIndex := m_packedGradientsIndex a;
     m_gradientIndexToAggregate := m_gradientIndexToAggregate a;
     m_syncStatsTrace := m_syncStatsTrace a;
     m_iterationCount := m_iterationCount a;
     m_initialized := m_initialized a;
     m_nccl := m_nccl a |}.

Definition set_aggregationBuffer (v : option Matrix) (a : SimpleDistGradAggregator)
  : SimpleDistGradAggregator :=
  {| m_mpi := m_mpi a;
     m_allocator := m_allocator a;
     m_intermediateCPUBuffers := m_intermediateCPUBuffers a;
     m_gpuDataTransferers := m_gpuDataTransferers a;
     m_intermediateDistributedCPUBuffer1 := m_intermediateDistributedCPUBuffer1 a;
     m_intermediateDistributedCPUBuffer2 := m_intermediateDistributedCPUBuffer2 a;
     m_recvHeaders := m_recvHeaders a;
     m_useAsyncAggregation := m_useAsyncAggregation a;
     m_pendingAsyncAggregation := m_pendingAsyncAggregation a;
     m_bufferedGradients := m_bufferedGradients a;
     m_bufferedGradHeader := m_bufferedGradHeader a;
     m_packThresholdSizeInBytes := m_packThresholdSizeInBytes a;
     m_aggregationBuffer := v;
     m_packedGradientsIndex := m_packedGradientsIndex a;
     m_gradientIndexToAggregate := m_gradientIndexToAggregate a;
     m_syncStatsTrace := m_syncStatsTrace a;
     m_iterationCount := m_iterationCount a;
     m_initialized := m_initialized a;
     m_nccl := m_nccl a |}.

Definition set_packedGradientsIndex (v : list N) (a : SimpleDistGradAggregator)
  : SimpleDistGradAggregator :=
  {| m_mpi := m_mpi a;
     m_allocator := m_allocator a;
     m_intermediateCPUBuffers := m_intermediateCPUBuffers a;
     m_gpuDataTransferers := m_gpuDataTransferers a;
     m_intermediateDistributedCPUBuffer1 := m_intermediateDistributedCPUBuffer1 a;
     m_intermediateDistributedCPUBuffer2 := m_intermediateDistributedCPUBuffer2 a;
     m_recvHeaders := m_recvHeaders a;
     m_useAsyncAggregation := m_useAsyncAggregation a;
     m_pendingAsyncAggregation := m_pendingAsyncAggregation a;
     m_bufferedGradients := m_bufferedGradients a;
     m_bufferedGradHeader := m_bufferedGradHeader a;
     m_packThresholdSizeInBytes := m_packThresholdSizeInBytes a;
     m_aggregationBuffer := m_aggregationBuffer a;
     m_packedGradientsIndex := v;
     m_gradientIndexToAggregate := m_gradientIndexToAggregate a;
     m_syncStatsTrace := m_syncStatsTrace a;
     m_iterationCount := m_iterationCount a;
     m_initialized := m_initialized a;
     m_nccl := m_nccl a |}.

Definition set_gradientIndexToAggregate (v : list N) (a : SimpleDistGradAggregator)
  : SimpleDistGradAggregator :=
  {| m_mpi := m_mpi a;
     m_allocator := m_allocator a;
     m_intermediateCPUBuffers := m_intermediateCPUBuffers a;
     m_gpuDataTransferers := m_gpuDataTransferers a;
     m_intermediateDistributedCPUBuffer1 := m_intermediateDistributedCPUBuffer1 a;
     m_intermediateDistributedCPUBuffer2 := m_intermediateDistributedCPUBuffer2 a;
     m_recvHeaders := m_recvHeaders a;
     m_useAsyncAggregation := m_useAsyncAggregation a;
     m_pendingAsyncAggregation := m_pendingAsyncAggregation a;
     m_bufferedGradients := m_bufferedGradients a;
     m_bufferedGradHeader := m_bufferedGradHeader a;
     m_packThresholdSizeInBytes := m_packThresholdSizeInBytes a;
     m_aggregationBuffer := m_aggregationBuffer a;
     m_packedGradientsIndex := m_packedGradientsIndex a;
     m_gradientIndexToAggregate := v;
     m_syncStatsTrace := m_syncStatsTrace a;
     m_iterationCount := m_iterationCount a;
     m_initialized := m_initialized a;
     m_nccl := m_nccl a |}.

Definition set_iterationCount (v : N) (a : SimpleDistGradAggregator)
  : SimpleDistGradAggregator :=
  {| m_mpi := m_mpi a;
     m_allocator := m_allocator a;
     m_intermediateCPUBuffers := m_intermediateCPUBuffers a;
     m_gpuDataTransferers := m_gpuDataTransferers a;
     m_intermediateDistributedCPUBuffer1 := m_intermediateDistributedCPUBuffer1 a;
     m_intermediateDistributedCPUBuffer2 := m_intermediateDistributedCPUBuffer2 a;
     m_recvHeaders := m_recvHeaders a;
     m_useAsyncAggregation := m_useAsyncAggregation a;
     m_pendingAsyncAggregation := m_pendingAsyncAggregation a;
     m_bufferedGradients := m_bufferedGradients a;
     m_bufferedGradHeader := m_bufferedGradHeader a;
     m_packThresholdSizeInBytes := m_packThresholdSizeInBytes a;
     m_aggregationBuffer := m_aggregationBuffer a;
     m_packedGradientsIndex := m_packedGradientsIndex a;
     m_gradientIndexToAggregate := m_gradientIndexToAggregate a;
     m_syncStatsTrace := m_syncStatsTrace a;
     m_iterationCount := v;
     m_initialized := m_initialized a;
     m_nccl := m_nccl a |}.

Definition set_initialized (v : bool) (a : SimpleDistGradAggregator)
  : SimpleDistGradAggregator :=
  {| m_mpi := m_mpi a;
     m_allocator := m_allocator a;
     m_intermediateCPUBuffers := m_intermediateCPUBuffers a;
     m_gpuDataTransferers := m_gpuDataTransferers a;
     m_intermediateDistributedCPUBuffer1 := m_intermediateDistributedCPUBuffer1 a;
     m_intermediateDistributedCPUBuffer2 := m_intermediateDistributedCPUBuffer2 a;
     m_recvHeaders := m_recvHeaders a;
     m_useAsyncAggregation := m_useAsyncAggregation a;
     m_pendingAsyncAggregation := m_pendingAsyncAggregation a;
     m_bufferedGradients := m_bufferedGradients a;
     m_bufferedGradHeader := m_bufferedGradHeader a;
     m_packThresholdSizeInBytes := m_packThresholdSizeInBytes a;
     m_aggregationBuffer := m_aggregationBuffer a;
     m_packedGradientsIndex := m_packedGradientsIndex a;
     m_gradientIndexToAggregate := m_gradientIndexToAggregate a;
     m_syncStatsTrace := m_syncStatsTrace a;
     m_iterationCount := m_iterationCount a;
     m_initialized := v;
     m_nccl := m_nccl a |}.

Definition set_nccl (v : option NcclComm) (a : SimpleDistGradAggregator)
  : SimpleDistGradAggregator :=
  {| m_mpi := m_mpi a;
     m_allocator := m_allocator a;
     m_intermediateCPUBuffers := m_intermediateCPUBuffers a;
     m_gpuDataTransferers := m_gpuDataTransferers a;
     m_intermediateDistributedCPUBuffer1 := m_intermediateDistributedCPUBuffer1 a;
     m_intermediateDistributedCPUBuffer2 := m_intermediateDistributedCPUBuffer2 a;
     m_recvHeaders := m_recvHeaders a;
     m_useAsyncAggregation := m_useAsyncAggregation a;
     m_pendingAsyncAggregation := m_pendingAsyncAggregation a;
     m_bufferedGradients := m_bufferedGradients a;
     m_bufferedGradHeader := m_bufferedGradHeader a;
     m_packThresholdSizeInBytes := m_packThresholdSizeInBytes a;
     m_aggregationBuffer := m_aggregationBuffer a;
     m_packedGradientsIndex := m_packedGradientsIndex a;
     m_gradientIndexToAggregate := m_gradientIndexToAggregate a;
     m_syncStatsTrace := m_syncStatsTrace a;
     m_iterationCount := m_iterationCount a;
     m_initialized := m_initialized a;
     m_nccl := v |}.

(** Reading a member after assignments. *)
Ltac members :=
  cbn [m_mpi m_allocator m_intermediateCPUBuffers m_gpuDataTransferers
       m_intermediateDistributedCPUBuffer1 m_intermediateDistributedCPUBuffer2
       m_recvHeaders m_useAsyncAggregation m_pendingAsyncAggregation
       m_bufferedGradients m_bufferedGradHeader m_packThresholdSizeInBytes
       m_aggregationBuffer m_packedGradientsIndex m_gradientIndexToAggregate
       m_syncStatsTrace m_iterationCount m_initialized m_nccl
       set_allocator set_intermediateCPUBuffers set_gpuDataTransferers
       set_intermediateDistributedCPUBuffer1 set_intermediateDistributedCPUBuffer2
       set_recvHeaders set_pendingAsyncAggregation set_bufferedGradients
       set_bufferedGradHeader set_aggregationBuffer set_packedGradientsIndex
       set_gradientIndexToAggregate set_iterationCount set_initialized set_nccl
       fst snd] in *.

(** [NumProc()] and [MyRank()] of the interface. *)
Definition NumProc (a : SimpleDistGradAggregator) : N := NumNodesInUse (m_mpi a).
Definition MyRank (a : SimpleDistGradAggregator) : N := CurrentNodeRank (m_mpi a).

(** ** ShouldCopyDataToCPU *)

Definition ShouldCopyDataToCPU (a : SimpleDistGradAggregator) (deviceId : Z) : result bool :=
  if (deviceId =? CPUDEVICE)%Z then Ok false
  else
    do nccl <- deref "m_nccl" (m_nccl a);
    if IsSupported nccl || UseGpuGdr (m_mpi a) then Ok false else Ok true.

(** ** ResetState *)

(** The classification loop of the first call: position [i] goes to the
    packed list or to the list of gradients aggregated on their own; a
    sparse gradient is refused; in async mode the gradient gets its shadow. *)
Fixpoint ResetState_classify (a : SimpleDistGradAggregator) (deviceId : Z)
    (gradients : list (MatrixPtr * Matrix)) (i : N) (packedGradientsSizeInElements : N)
  : result (SimpleDistGradAggregator * N) :=
  match gradients with
  | [] => Ok (a, packedGradientsSizeInElements)
  | (p, g) :: rest =>
    let '(a, packedGradientsSizeInElements) :=
      if negb (m_useAsyncAggregation a)
         && (size_mul sizeofElemType (GetNumElements g) <=? m_packThresholdSizeInBytes a)
      then (set_packedGradientsIndex (m_packedGradientsIndex a ++ [i]) a,
            size_add packedGradientsSizeInElements (GetNumElements g))
      else (set_gradientIndexToAggregate (m_gradientIndexToAggregate a ++ [i]) a,
            packedGradientsSizeInElements) in
    if bool_decide (GetMatrixType g ≠ DENSE)
    then Throw (RuntimeError
                  "Gradient aggregation for sparse gradient matrices is currently unsupported!")
    else
      let a :=
        if m_useAsyncAggregation a
        then set_bufferedGradients
               (<[p := new_Matrix (GetNumRows g) (GetNumCols g) deviceId]>
                  (m_bufferedGradients a)) a
        else a in
      ResetState_classify a deviceId rest (i + 1) packedGradientsSizeInElements
  end.

(** A transferer and a staging buffer for each entry of
    [m_gradientIndexToAggregate]. *)
Fixpoint ResetState_staging (a : SimpleDistGradAggregator)
    (gradients : list (MatrixPtr * Matrix)) (entries : list N)
    (packedGradientsSizeInElements : N) : result SimpleDistGradAggregator :=
  match entries with
  | [] => Ok a
  | i :: rest =>
    do n <- (if i =? NONE then Ok packedGradientsSizeInElements
             else do g <- at_index "gradients[i]" gradients i; Ok (GetNumElements g.2));
    ResetState_staging
      (set_intermediateCPUBuffers
         (m_intermediateCPUBuffers a ++ [replicate (N.to_nat n) zero])
         (set_gpuDataTransferers
            (m_gpuDataTransferers a ++
             [{| fetch_in_flight := None; assign_in_flight := None |}]) a))
      gradients rest packedGradientsSizeInElements
  end.

(** Packing matrices into a contiguous buffer if not doing async
    aggregation. [buffer_alloc_ok] tells whether
    [new (std::nothrow) Matrix] for the packed buffer succeeds. Without a
    buffer every gradient is aggregated on its own; with it the first entry
    is reserved for the buffer. *)
Definition ResetState_buffer (buffer_alloc_ok : bool) (a : SimpleDistGradAggregator)
    (deviceId : Z) (gradients : list (MatrixPtr * Matrix))
    (packedGradientsSizeInElements : N) : SimpleDistGradAggregator * N :=
  let a := set_aggregationBuffer None a in
  let a :=
    if (0 <? packedGradientsSizeInElements) && buffer_alloc_ok
    then set_aggregationBuffer
           (Some (new_Matrix 1 packedGradientsSizeInElements deviceId)) a
    else a in
  match m_aggregationBuffer a with
  | None =>
    (set_gradientIndexToAggregate
       (map N.of_nat (seq 0 (length gradients)))
       (set_packedGradientsIndex [] a), 0)
  | Some _ =>
    (set_gradientIndexToAggregate (NONE :: m_gradientIndexToAggregate a) a,
     packedGradientsSizeInElements)
  end.

(** The buffered header of the async mode and the receive headers of the
    main node. *)
Definition ResetState_headers (a : SimpleDistGradAggregator) (numEvalNodes : Z)
  : SimpleDistGradAggregator :=
  let a :=
    if m_useAsyncAggregation a
    then set_bufferedGradHeader (Some (Clear (Create numEvalNodes))) a
    else a in
  if IsMainNode (m_mpi a)
  then set_recvHeaders
         (m_recvHeaders a ++
          replicate (N.to_nat (size_sub (NumProc a) 1)) (Create numEvalNodes)) a
  else a.

Definition ResetState (buffer_alloc_ok : bool) (a : SimpleDistGradAggregator)
    (gradients : list (MatrixPtr * Matrix)) (numEvalNodes : Z) (resetState : bool)
  : result SimpleDistGradAggregator :=
  if negb (m_initialized a) then
    (* when called the first time let's setup the intermediateCPU buffers *)
    let a := set_initialized true a in
    do g0 <- at_index "gradients[0]" gradients 0;
    let deviceId := GetDeviceId g0.2 in
    do copy <- ShouldCopyDataToCPU a deviceId;
    let a := if copy && negb (m_allocator a) then set_allocator true a else a in
    do r <- ResetState_classify a deviceId gradients 0 0;
    let r := ResetState_buffer buffer_alloc_ok r.1 deviceId gradients r.2 in
    do copy <- ShouldCopyDataToCPU r.1 deviceId;
    do a <- (if copy
             then ResetState_staging r.1 gradients (m_gradientIndexToAggregate r.1) r.2
             else Ok r.1);
    Ok (ResetState_headers a numEvalNodes)
  else if resetState then
    (* make sure there is no pending async aggregation *)
    if m_useAsyncAggregation a && bool_decide (is_Some (m_pendingAsyncAggregation a))
    then Throw (LogicError
                  "Unexpected pending async gradient aggregation found when resetting aggregator state!")
    else if m_useAsyncAggregation a then
      (* zero out the buffered gradients if resetting state *)
      do bg <- foldl (λ r pg,
                 do bg <- r;
                 do b <- deref "m_bufferedGradients[gradients[i]]" (bg !! pg.1);
                 Ok (<[pg.1 := SetValue0 b]> bg))
               (Ok (m_bufferedGradients a)) gradients;
      do h <- deref "m_bufferedGradHeader" (m_bufferedGradHeader a);
      Ok (set_bufferedGradHeader (Some (Clear h)) (set_bufferedGradients bg a))
    else Ok a
  else Ok a.

(** ** AggregateGradientsImpl *)

(** The gradients of the pipeline are distinct matrices (one for each
    learnable parameter), so the vector of pointers is modelled by the
    vector of its pointees. A buffer handed to a facade comes with the
    element count of its matrix, and the model's buffers carry their own
    length. *)

(** The matrix an entry of [m_gradientIndexToAggregate] stands for. *)
Definition load_entry (a : SimpleDistGradAggregator) (gradients : list Matrix) (i : N)
  : result Matrix :=
  if i =? NONE then deref "m_aggregationBuffer" (m_aggregationBuffer a)
  else at_index "gradients[i]" gradients i.

(** Writing the element buffer of that matrix. *)
Definition store_entry (a : SimpleDistGradAggregator) (gradients : list Matrix) (i : N)
    (d : list ElemType) : result (SimpleDistGradAggregator * list Matrix) :=
  if i =? NONE then
    do b <- deref "m_aggregationBuffer" (m_aggregationBuffer a);
    Ok (set_aggregationBuffer (Some (with_Data b d)) a, gradients)
  else
    do g <- at_index "gradients[i]" gradients i;
    Ok (a, <[N.to_nat i := with_Data g d]> gradients).

(** Copy all gradient data into the contiguous buffer. *)
Fixpoint pack_gradients (a : SimpleDistGradAggregator) (gradients : list Matrix)
    (packed : list N) (offset : N) : result SimpleDistGradAggregator :=
  match packed with
  | [] => Ok a
  | i :: rest =>
    do g <- at_index "gradients[i]" gradients i;
    do b <- deref "m_aggregationBuffer" (m_aggregationBuffer a);
    do b' <- AssignColumnSlice b offset (GetNumElements g) (Data g);
    pack_gradients (set_aggregationBuffer (Some b') a) gradients rest
      (size_add offset (GetNumElements g))
  end.

(** Copy data back to the packed gradients from the contiguous buffer. *)
Fixpoint unpack_gradients (a : SimpleDistGradAggregator) (gradients : list Matrix)
    (packed : list N) (offset : N) : result (list Matrix) :=
  match packed with
  | [] => Ok gradients
  | i :: rest =>
    do g <- at_index "gradients[i]" gradients i;
    do b <- deref "m_aggregationBuffer" (m_aggregationBuffer a);
    do d <- ColumnSlice b offset (GetNumElements g);
    unpack_gradients a (<[N.to_nat i := with_Data g d]> gradients) rest
      (size_add offset (GetNumElements g))
  end.

(** A size_t handed to an [int] parameter. *)
Definition to_int (n : N) : Z :=
  let z := (Z.of_N n mod 2 ^ 32)%Z in
  if (z <? 2 ^ 31)%Z then z else (z - 2 ^ 32)%Z.

(** A posted receive: the source rank and the tag it waits for. *)
Definition RecvRequest : Type := option (N * Z).

(** Initiate receive of the header on the main node: one [Irecv] for each
    peer, into the receive header of its slot. *)
Definition post_receives (a : SimpleDistGradAggregator) (tag : Z) (trace : list Call)
  : result (list RecvRequest * list Call) :=
  let n := N.to_nat (size_sub (NumProc a) 1) in
  foldl (λ (r : result (list RecvRequest * list Call)) (j : nat),
           do st <- r;
           let source := if MyRank a <=? N.of_nat j then N.of_nat j + 1 else N.of_nat j in
           do _ <- at_index "m_recvHeaders[j]" (m_recvHeaders a) (N.of_nat j);
           Ok (<[j := Some (source, tag)]> st.1, st.2 ++ [call_Irecv j source tag]))
        (Ok (replicate n None, trace)) (seq 0 n).

(** Modelled from the spec: a posted receive can complete when its source
    has handed a header with the same tag to [Isend]. *)
Definition deliverable (f : Fabric) (r : RecvRequest) : option DistGradHeader :=
  match r with
  | Some (source, tag) =>
    match peer_send f source with
    | Some (tag', h) => if (tag' =? tag)%Z then Some h else None
    | None => None
    end
  | None => None
  end.

Fixpoint first_ready (f : Fabric) (requests : list RecvRequest) (candidates : list nat)
  : option (nat * DistGradHeader) :=
  match candidates with
  | [] => None
  | j :: rest =>
    match requests !! j ≫= deliverable f with
    | Some h => Some (j, h)
    | None => first_ready f requests rest
    end
  end.

(** Modelled from the spec: [Waitany] answers MPI_UNDEFINED when no request
    is active; otherwise it completes one receive that can complete, the
    earliest in the completion order of the fabric; when none ever can, the
    rank stays blocked. *)
Definition Waitany (f : Fabric) (requests : list RecvRequest)
  : result (option (nat * DistGradHeader)) :=
  if forallb (λ r : RecvRequest, negb (bool_decide (is_Some r))) requests then Ok None
  else
    match first_ready f requests (completion_order f ++ seq 0 (length requests)) with
    | Some w => Ok (Some w)
    | None => Throw (Deadlock "MPI_Waitany")
    end.

(** On the main node wait for the headers to arrive and aggregate. The
    loop counts the headers received up to [NumProc() - 1]; [fuel] is what
    is left to receive. *)
Fixpoint wait_headers (fuel : nat) (f : Fabric) (a : SimpleDistGradAggregator)
    (requests : list RecvRequest) (headerCPU : DistGradHeader) (trace : list Call)
  : result (SimpleDistGradAggregator * DistGradHeader * list Call) :=
  match fuel with
  | O => Ok (a, headerCPU, trace)
  | S fuel' =>
    do w <- Waitany f requests;
    match w with
    | None => Ok (a, headerCPU, trace ++ [call_Waitany None])
    | Some (idx, h) =>
      let a := set_recvHeaders (<[idx := h]> (m_recvHeaders a)) a in
      do other <- at_index "m_recvHeaders[idx]" (m_recvHeaders a) (N.of_nat idx);
      wait_headers fuel' f a (<[idx := None]> requests)
        (Aggregate headerCPU other true) (trace ++ [call_Waitany (Some idx)])
    end
  end.

(** Modelled from the spec: [Bcast] leaves the root's header on every rank;
    a rank whose root never broadcasts stays blocked. *)
Definition Bcast (f : Fabric) (a : SimpleDistGradAggregator) (headerCPU : DistGradHeader)
  : result DistGradHeader :=
  if IsMainNode (m_mpi a) then Ok headerCPU
  else match bcast_header f (MainNodeRank (m_mpi a)) with
       | Some h => Ok h
       | None => Throw (Deadlock "MPI_Bcast")
       end.

(** The number of the next all-reduce request of this rank. *)
Definition next_request (trace : list Call) : nat := length (reduce_requests trace).

(** *** The staged pipeline (non-GDR, GPU, non-NCCL) *)

(** The local variables of the branch. [gpuCopyBuffer] points to the
    packed buffer ([NONE]) or to a gradient. *)
Record Staged : Type := {
  st_agg : SimpleDistGradAggregator;
  st_trace : list Call;
  gpuToCpuIndex : nat;
  allReduceIndex : nat;
  currentGradientIndex : N;
  nextGradientIndex : N;
  gpuCopyBuffer : N
}.

(** [m_gpuDataTransferers[k]->WaitForCopyGPUToCPUAsync()] *)
Definition WaitForCopyGPUToCPUAsync (a : SimpleDistGradAggregator) (k : nat)
  : result SimpleDistGradAggregator :=
  do t <- at_index "m_gpuDataTransferers[k]" (m_gpuDataTransferers a) (N.of_nat k);
  match fetch_in_flight t with
  | None => Ok a
  | Some d =>
    Ok (set_intermediateCPUBuffers (<[k := d]> (m_intermediateCPUBuffers a))
          (set_gpuDataTransferers
             (<[k := {| fetch_in_flight := None; assign_in_flight := assign_in_flight t |}]>
                (m_gpuDataTransferers a)) a))
  end.

(** [m_gpuDataTransferers[k]->WaitForCopyCPUToGPUAsync()] *)
Definition WaitForCopyCPUToGPUAsync (a : SimpleDistGradAggregator) (gradients : list Matrix)
    (k : nat) : result (SimpleDistGradAggregator * list Matrix) :=
  do t <- at_index "m_gpuDataTransferers[k]" (m_gpuDataTransferers a) (N.of_nat k);
  match assign_in_flight t with
  | None => Ok (a, gradients)
  | Some (entry, d) =>
    store_entry
      (set_gpuDataTransferers
         (<[k := {| fetch_in_flight := fetch_in_flight t; assign_in_flight := None |}]>
            (m_gpuDataTransferers a)) a)
      gradients entry d
  end.

(** Before the loop: the first gradient is copied to the host with a
    synchronous [cudaMemcpy]. *)
Definition staged_first (a : SimpleDistGradAggregator) (gradients : list Matrix)
    (trace : list Call) : result Staged :=
  do current <- at_index "m_gradientIndexToAggregate[0]" (m_gradientIndexToAggregate a) 0;
  do src <- load_entry a gradients current;
  do _ <- at_index "m_intermediateCPUBuffers[0]" (m_intermediateCPUBuffers a) 0;
  Ok {| st_agg := set_intermediateCPUBuffers
                    (<[0%nat := Data src]> (m_intermediateCPUBuffers a)) a;
        st_trace := trace; gpuToCpuIndex := 1; allReduceIndex := 0;
        currentGradientIndex := current; nextGradientIndex := 0;
        gpuCopyBuffer := current |}.

(** Get the next gradient, and start its copy to the host. *)
Definition staged_fetch (gradients : list Matrix) (numGradientIndex : nat)
    (s : Staged) (i : nat) : result (SimpleDistGradAggregator * N * N) :=
  let a := st_agg s in
  if (i <? numGradientIndex)%nat then
    do next <- at_index "m_gradientIndexToAggregate[i]"
                 (m_gradientIndexToAggregate a) (N.of_nat i);
    let copy := if next =? NONE then gpuCopyBuffer s else next in
    do src <- load_entry a gradients copy;
    do t <- at_index "m_gpuDataTransferers[gpuToCpuIndex]"
              (m_gpuDataTransferers a) (N.of_nat (gpuToCpuIndex s));
    do _ <- at_index "m_intermediateCPUBuffers[gpuToCpuIndex]"
              (m_intermediateCPUBuffers a) (N.of_nat (gpuToCpuIndex s));
    Ok (set_gpuDataTransferers
          (<[gpuToCpuIndex s :=
               {| fetch_in_flight := Some (Data src);
                  assign_in_flight := assign_in_flight t |}]>
             (m_gpuDataTransferers a)) a, next, copy)
  else Ok (a, nextGradientIndex s, gpuCopyBuffer s).

(** The body of [for (size_t i = 1; i <= numGradientIndex; i++)]. *)
Definition staged_step (f : Fabric) (gradients : list Matrix) (numGradientIndex : nat)
    (s : Staged) (i : nat) : result Staged :=
  (* get next gradient, async D-to-H copy *)
  do r <- staged_fetch gradients numGradientIndex s i;
  let '(a, next, copy) := r in
  (* wait for previous copy *)
  do a <- WaitForCopyGPUToCPUAsync a (allReduceIndex s);
  (* allreduce *)
  do reductionBuffer <- at_index "m_intermediateCPUBuffers[allReduceIndex]"
                          (m_intermediateCPUBuffers a) (N.of_nat (allReduceIndex s));
  do _ <- load_entry a gradients (currentGradientIndex s);
  let reduced := all_reduce (m_mpi a) f (next_request (st_trace s)) reductionBuffer MPI_SUM in
  let trace := st_trace s ++ [call_AllReduce reductionBuffer MPI_SUM] in
  let a := set_intermediateCPUBuffers
             (<[allReduceIndex s := reduced]> (m_intermediateCPUBuffers a)) a in
  (* create async H-to-G copy *)
  let cpuToGpuIndex := allReduceIndex s in
  do t <- at_index "m_gpuDataTransferers[cpuToGpuIndex]"
            (m_gpuDataTransferers a) (N.of_nat cpuToGpuIndex);
  let a := set_gpuDataTransferers
             (<[cpuToGpuIndex :=
                  {| fetch_in_flight := fetch_in_flight t;
                     assign_in_flight := Some (currentGradientIndex s, reduced) |}]>
                (m_gpuDataTransferers a)) a in
  Ok {| st_agg := a; st_trace := trace;
        gpuToCpuIndex := S (gpuToCpuIndex s); allReduceIndex := gpuToCpuIndex s;
        currentGradientIndex := next; nextGradientIndex := next;
        gpuCopyBuffer := copy |}.

Definition staged_pipeline (f : Fabric) (a : SimpleDistGradAggregator)
    (gradients : list Matrix) (trace : list Call) : result Staged :=
  let numGradientIndex := length (m_gradientIndexToAggregate a) in
  foldl (λ r i, do s <- r; staged_step f gradients numGradientIndex s i)
        (staged_first a gradients trace) (seq 1 numGradientIndex).

(** *** The branch "non-NCCL, using CPU, using GDR" *)

(** An [MPI_Request] of [allReduceRequests]: the entry an [Iallreduce]
    reduces in place and the reduction that lands when the request is
    waited for; [None] for a request no operation was started on. *)
Definition AllReduceRequest : Type := option (N * list ElemType).

Record Direct : Type := {
  di_agg : SimpleDistGradAggregator;
  di_gradients : list Matrix;
  di_trace : list Call;
  allReduceRequests : list AllReduceRequest;
  di_allReduceIndex : nat
}.

(** The body of [for (size_t i : m_gradientIndexToAggregate)]. *)
Definition direct_step (f : Fabric) (deviceId : Z) (s : Direct) (i : N) : result Direct :=
  let a := di_agg s in
  do m <- load_entry a (di_gradients s) i;
  let reductionBuffer := Data m in
  let reduced := all_reduce (m_mpi a) f (next_request (di_trace s)) reductionBuffer MPI_SUM in
  if negb (UseGpuGdr (m_mpi a)) then
    (* CPU *)
    Ok {| di_agg := a; di_gradients := di_gradients s;
          di_trace := di_trace s ++ [call_Iallreduce reductionBuffer MPI_SUM];
          allReduceRequests := allReduceRequests s ++ [Some (i, reduced)];
          di_allReduceIndex := S (di_allReduceIndex s) |}
  else if negb (deviceId =? CPUDEVICE)%Z then
    (* GDR && GPU *)
    do r <- store_entry a (di_gradients s) i reduced;
    Ok {| di_agg := r.1; di_gradients := r.2;
          di_trace := di_trace s ++ [call_AllReduce reductionBuffer MPI_SUM];
          allReduceRequests := allReduceRequests s ++ [None];
          di_allReduceIndex := di_allReduceIndex s |}
  else
    Ok {| di_agg := a; di_gradients := di_gradients s; di_trace := di_trace s;
          allReduceRequests := allReduceRequests s ++ [None];
          di_allReduceIndex := di_allReduceIndex s |}.

Definition direct_pipeline (f : Fabric) (deviceId : Z) (a : SimpleDistGradAggregator)
    (gradients : list Matrix) (trace : list Call) : result Direct :=
  foldl (λ r i, do s <- r; direct_step f deviceId s i)
        (Ok {| di_agg := a; di_gradients := gradients; di_trace := trace;
               allReduceRequests := []; di_allReduceIndex := 0 |})
        (m_gradientIndexToAggregate a).

(** [m_mpi->Wait(&allReduceRequests[i], ...)] *)
Definition Wait_allreduce (s : Direct) (i : nat) : result Direct :=
  do r <- at_index "allReduceRequests[i]" (allReduceRequests s) (N.of_nat i);
  match r with
  | None => Throw (Fault "MPI_Wait on a request that was never started")
  | Some (entry, d) =>
    do r <- store_entry (di_agg s) (di_gradients s) entry d;
    Ok {| di_agg := r.1; di_gradients := r.2; di_trace := di_trace s ++ [call_Wait];
          allReduceRequests := <[i := None]> (allReduceRequests s);
          di_allReduceIndex := di_allReduceIndex s |}
  end.

(** *** The NCCL branch *)

(** Modelled from the spec: [m_nccl->AllReduce(ncclReduceGradients)] submits
    all the tensors as one batched all-reduce; each is reduced in place. *)
Definition nccl_step (f : Fabric) (trace : list Call)
    (s : SimpleDistGradAggregator * list Matrix * list (list ElemType)) (i : N)
  : result (SimpleDistGradAggregator * list Matrix * list (list ElemType)) :=
  let '(a, gradients, bufs) := s in
  do m <- load_entry a gradients i;
  let reduced := all_reduce (m_mpi a) f (next_request trace + length bufs) (Data m) MPI_SUM in
  do r <- store_entry a gradients i reduced;
  Ok (r.1, r.2, bufs ++ [Data m]).

Definition nccl_pipeline (f : Fabric) (a : SimpleDistGradAggregator)
    (gradients : list Matrix) (trace : list Call)
  : result (SimpleDistGradAggregator * list Matrix * list Call) :=
  do r <- foldl (λ r i, do s <- r; nccl_step f trace s i)
            (Ok (a, gradients, [])) (m_gradientIndexToAggregate a);
  let '(a, gradients, bufs) := r in
  Ok (a, gradients, trace ++ [call_NcclAllReduce bufs MPI_SUM]).

(** *** The pipeline *)

(** The state of the pipeline between its two halves. *)
Record Reduced : Type := {
  rd_agg : SimpleDistGradAggregator;
  rd_gradients : list Matrix;
  rd_trace : list Call;
  rd_allReduceRequests : list AllReduceRequest;
  rd_allReduceIndex : nat
}.

(** The choice of the transport and the reduction it drives. *)
Definition reduce_gradients (f : Fabric) (a : SimpleDistGradAggregator)
    (gradients : list Matrix) (deviceId : Z) (trace : list Call) : result Reduced :=
  let numGradientIndex := length (m_gradientIndexToAggregate a) in
  if (0 <? numGradientIndex)%nat then
    do nccl <- deref "m_nccl" (m_nccl a);
    if negb (UseGpuGdr (m_mpi a)) && negb (deviceId =? CPUDEVICE)%Z && negb (IsSupported nccl)
    then
      do s <- staged_pipeline f a gradients trace;
      Ok {| rd_agg := st_agg s; rd_gradients := gradients; rd_trace := st_trace s;
            rd_allReduceRequests := []; rd_allReduceIndex := allReduceIndex s |}
    else if negb (IsSupported nccl) then
      do s <- direct_pipeline f deviceId a gradients trace;
      Ok {| rd_agg := di_agg s; rd_gradients := di_gradients s; rd_trace := di_trace s;
            rd_allReduceRequests := allReduceRequests s;
            rd_allReduceIndex := di_allReduceIndex s |}
    else
      do r <- nccl_pipeline f a gradients trace;
      Ok {| rd_agg := r.1.1; rd_gradients := r.1.2; rd_trace := r.2;
            rd_allReduceRequests := []; rd_allReduceIndex := 0 |}
  else
    Ok {| rd_agg := a; rd_gradients := gradients; rd_trace := trace;
          rd_allReduceRequests := []; rd_allReduceIndex := 0 |}.

(** The waits after the broadcast of the header: the NCCL stream, the
    copies back to the device, or the non-blocking all-reduces. *)
Definition finish_transfers (deviceId : Z) (s : Reduced)
  : result (SimpleDistGradAggregator * list Matrix * list Call) :=
  do nccl <- deref "m_nccl" (m_nccl (rd_agg s));
  if IsSupported nccl then
    Ok (rd_agg s, rd_gradients s, rd_trace s ++ [call_NcclSync])
  else if negb (UseGpuGdr (m_mpi (rd_agg s))) && negb (deviceId =? CPUDEVICE)%Z then
    do r <- foldl (λ (r : result (SimpleDistGradAggregator * list Matrix)) (i : nat),
                     do p <- r; WaitForCopyCPUToGPUAsync p.1 p.2 i)
              (Ok (rd_agg s, rd_gradients s)) (seq 0 (rd_allReduceIndex s));
    Ok (r.1, r.2, rd_trace s)
  else if negb (UseGpuGdr (m_mpi (rd_agg s))) then
    do d <- foldl (λ r i, do d <- r; Wait_allreduce d i)
              (Ok {| di_agg := rd_agg s; di_gradients := rd_gradients s;
                     di_trace := rd_trace s;
                     allReduceRequests := rd_allReduceRequests s;
                     di_allReduceIndex := rd_allReduceIndex s |})
              (seq 0 (rd_allReduceIndex s));
    Ok (di_agg d, di_gradients d, di_trace d)
  else Ok (rd_agg s, rd_gradients s, rd_trace s).

(** The first half: zero the gradients of a node that processed no
    samples, pack, post the header exchange, reduce. The debug assertions
    on the header of such a node are not part of the behaviour. *)
Definition pipeline_reduce (f : Fabric) (a : SimpleDistGradAggregator)
    (gradients : list Matrix) (headerCPU : DistGradHeader)
  : result (Z * list RecvRequest * Reduced) :=
  do g0 <- at_index "gradients[0]" gradients 0;
  let deviceId := GetDeviceId g0 in
  let numGradMatrices := N.of_nat (length gradients) in
  let gradients :=
    if numSamples headerCPU =? 0 then map SetValue0 gradients else gradients in
  do a <- pack_gradients a gradients (m_packedGradientsIndex a) 0;
  (* we use a tag of 'numGradMatrices' for the pre-aggregation header *)
  let tag := to_int numGradMatrices in
  do r <- (if IsMainNode (m_mpi a) then post_receives a tag []
           else Ok (replicate (N.to_nat (size_sub (NumProc a) 1)) None, []));
  let '(recvHeaderRequests, trace) := r in
  let trace :=
    if negb (IsMainNode (m_mpi a))
    then trace ++ [call_Isend headerCPU (MainNodeRank (m_mpi a)) tag] else trace in
  do s <- reduce_gradients f a gradients deviceId trace;
  Ok (deviceId, recvHeaderRequests, s).

(** The second half: the header rendezvous, the waits, the unpacking. *)
Definition pipeline_finish (f : Fabric) (headerCPU : DistGradHeader)
    (st : Z * list RecvRequest * Reduced)
  : result (SimpleDistGradAggregator * list Matrix * DistGradHeader * list Call) :=
  let '(deviceId, recvHeaderRequests, s) := st in
  let a := rd_agg s in
  do r <- (if IsMainNode (m_mpi a)
           then wait_headers (N.to_nat (size_sub (NumProc a) 1)) f a
                  recvHeaderRequests headerCPU (rd_trace s)
           else Ok (a, headerCPU, rd_trace s));
  let '(a, aggregated, trace) := r in
  do headerCPU <- Bcast f a aggregated;
  let trace := trace ++ [call_Bcast aggregated (MainNodeRank (m_mpi a))] in
  do r <- finish_transfers deviceId
            {| rd_agg := a; rd_gradients := rd_gradients s; rd_trace := trace;
               rd_allReduceRequests := rd_allReduceRequests s;
               rd_allReduceIndex := rd_allReduceIndex s |};
  let '(a, gradients, trace) := r in
  do gradients <- unpack_gradients a gradients (m_packedGradientsIndex a) 0;
  let trace := if negb (IsMainNode (m_mpi a)) then trace ++ [call_Wait] else trace in
  Ok (a, gradients, headerCPU, trace).

Definition AggregateGradientsImpl (f : Fabric) (a : SimpleDistGradAggregator)
    (gradients : list Matrix) (headerCPU : DistGradHeader) (showSyncPerfStats : bool)
  : result (SimpleDistGradAggregator * list Matrix * DistGradHeader * list Call) :=
  do st <- pipeline_reduce f a gradients headerCPU;
  pipeline_finish f headerCPU st.

(** ** AggregateGradients *)

(** What the surroundings decide during a call: the fabric of the pipeline
    run the call executes, whether the NCCL communicator built on first use
    is supported, and whether the packed buffer can be allocated. *)
Record Env : Type := {
  env_fabric : Fabric;
  env_nccl_supported : bool;
  env_buffer_alloc_ok : bool
}.

(** What a call leaves behind: the value returned, the object, the
    pointees of the arguments, and the calls made on the facades. *)
Record Returned : Type := {
  ret_value : bool;
  ret_agg : SimpleDistGradAggregator;
  ret_gradients : list (MatrixPtr * Matrix);
  ret_header : DistGradHeader;
  ret_trace : list Call
}.

(** [m_pendingAsyncAggregation.get()]: the task launched by the previous
    call runs [AggregateGradientsImpl] on the buffered gradients and header.
    Nothing else touches them while the future is valid, so the task is
    run where it is joined. *)
Definition get_pending (f : Fabric) (a : SimpleDistGradAggregator) (task : AsyncTask)
  : result (SimpleDistGradAggregator * list Call) :=
  do grads <- foldr (λ p (r : result (list Matrix)),
                       do ms <- r;
                       do m <- deref "newGradients[i]" (m_bufferedGradients a !! p);
                       Ok (m :: ms))
                (Ok []) (task_newGradients task);
  do h <- deref "newGradHeader" (m_bufferedGradHeader a);
  do r <- AggregateGradientsImpl f a grads h (task_showSyncPerfStats task);
  let '(a, grads, h, trace) := r in
  Ok (set_pendingAsyncAggregation None
        (set_bufferedGradHeader (Some h)
           (set_bufferedGradients
              (foldl (λ bg pm, <[pm.1 := pm.2]> bg) (m_bufferedGradients a)
                 (zip (task_newGradients task) grads)) a)),
      trace).

(** Swap the gradient matrix contents with the buffered matrices. *)
Definition swap_buffered (a : SimpleDistGradAggregator) (gradients : list (MatrixPtr * Matrix))
  : result (SimpleDistGradAggregator * list (MatrixPtr * Matrix) * list MatrixPtr) :=
  foldl (λ (r : result (SimpleDistGradAggregator * list (MatrixPtr * Matrix) * list MatrixPtr))
           (pg : MatrixPtr * Matrix),
           do s <- r;
           let '(a, swapped, newGradients) := s in
           match m_bufferedGradients a !! pg.1 with
           | None =>
             Throw (LogicError
                      "No buffered gradient matrix found corresponding to a gradient matrix to be aggregated!")
           | Some b =>
             if negb (GetNumCols b =? GetNumCols pg.2)
                || negb (GetNumRows b =? GetNumRows pg.2)
                || negb (GetDeviceId b =? GetDeviceId pg.2)%Z
             then Throw (LogicError
                           "No buffered gradient matrix found corresponding to a gradient matrix to be aggregated!")
             else Ok (set_bufferedGradients (<[pg.1 := pg.2]> (m_bufferedGradients a)) a,
                      swapped ++ [(pg.1, b)], newGradients ++ [pg.1])
           end)
        (Ok (a, [], [])) gradients.

(** The call up to the choice between the two modes: the NCCL
    communicator is built on first use, the state is reset, the iteration
    is counted. *)
Definition AggregateGradients_prologue (env : Env) (a : SimpleDistGradAggregator)
    (gradients : list (MatrixPtr * Matrix)) (headerCPU : DistGradHeader) (resetState : bool)
  : result (SimpleDistGradAggregator * bool) :=
  (* initialize NCCL *)
  let a :=
    match m_nccl a with
    | None => set_nccl (Some {| IsSupported := env_nccl_supported env |}) a
    | Some _ => a
    end in
  do a <- ResetState (env_buffer_alloc_ok env) a gradients (numEvalNode headerCPU) resetState;
  let showSyncPerfStats :=
    (0 <? m_syncStatsTrace a)%Z
    && (m_iterationCount a mod Z.to_N (m_syncStatsTrace a) =? 0) in
  Ok (set_iterationCount (size_add (m_iterationCount a) 1) a, showSyncPerfStats).

Definition AggregateGradients (env : Env) (a : SimpleDistGradAggregator)
    (gradients : list (MatrixPtr * Matrix)) (headerCPU : DistGradHeader) (resetState : bool)
  : result Returned :=
  if NumNodesInUse (m_mpi a) =? 1 then
    (* no need to aggregate anything *)
    Ok {| ret_value := negb (numSamples headerCPU =? 0); ret_agg := a;
          ret_gradients := gradients; ret_header := headerCPU; ret_trace := [] |}
  else
    do r <- AggregateGradients_prologue env a gradients headerCPU resetState;
    let '(a, showSyncPerfStats) := r in
    if m_useAsyncAggregation a then
      (* wait for the pending gradient aggregation to finish *)
      do r <- match m_pendingAsyncAggregation a with
              | Some task => get_pending (env_fabric env) a task
              | None => Ok (a, [])
              end;
      let '(a, trace) := r in
      do r <- swap_buffered a gradients;
      let '(a, gradients, newGradients) := r in
      (* swap the grad header contents with the buffered grad header *)
      do buffered <- deref "m_bufferedGradHeader" (m_bufferedGradHeader a);
      let a := set_bufferedGradHeader (Some headerCPU) a in
      let headerCPU := buffered in
      (* initiate aggregation only if any samples were processed in previous iteration *)
      if resetState || negb (numSamples headerCPU =? 0) then
        do g0 <- at_index "gradients[0]" gradients 0;
        let task := {| task_deviceId := GetDeviceId g0.2;
                       task_newGradients := newGradients;
                       task_showSyncPerfStats := showSyncPerfStats |} in
        Ok {| ret_value := true;
              ret_agg := set_pendingAsyncAggregation (Some task) a;
              ret_gradients := gradients; ret_header := headerCPU; ret_trace := trace |}
      else
        Ok {| ret_value := false; ret_agg := a; ret_gradients := gradients;
              ret_header := headerCPU; ret_trace := trace |}
    else
      do r <- AggregateGradientsImpl (env_fabric env) a (gradients.*2) headerCPU
                showSyncPerfStats;
      let '(a, reduced, headerCPU, trace) := r in
      Ok {| ret_value := negb (numSamples headerCPU =? 0); ret_agg := a;
            ret_gradients := zip (gradients.*1) reduced;
            ret_header := headerCPU; ret_trace := trace |}.

(** ** AsyncAggregateGradHeader (the variant with per-node aggregation) *)

Definition AsyncAggregateGradHeaderImpl (f : Fabric) (a : SimpleDistGradAggregator)
    (headerCPU : DistGradHeader)
  : result (SimpleDistGradAggregator * DistGradHeader * list Call) :=
  let numHeaderSample := to_int (numSamples headerCPU) in
  do r <- (if IsMainNode (m_mpi a) then post_receives a numHeaderSample []
           else Ok (replicate (N.to_nat (size_sub (NumProc a) 1)) None, []));
  let '(recvHeaderRequests, trace) := r in
  let trace :=
    if negb (IsMainNode (m_mpi a))
    then trace ++ [call_Isend headerCPU (MainNodeRank (m_mpi a)) numHeaderSample]
    else trace in
  do r <- (if IsMainNode (m_mpi a)
           then wait_headers (N.to_nat (size_sub (NumProc a) 1)) f a
                  recvHeaderRequests headerCPU trace
           else Ok (a, headerCPU, trace));
  let '(a, aggregated, trace) := r in
  do headerCPU <- Bcast f a aggregated;
  let trace := trace ++ [call_Bcast aggregated (MainNodeRank (m_mpi a))] in
  let trace := if negb (IsMainNode (m_mpi a)) then trace ++ [call_Wait] else trace in
  Ok (a, headerCPU, trace).

Definition AsyncAggregateGradHeader (env : Env) (a : SimpleDistGradAggregator)
    (headerCPU : DistGradHeader)
  : result (bool * SimpleDistGradAggregator * DistGradHeader * list Call) :=
  if NumNodesInUse (m_mpi a) =? 1 then
    Ok (negb (numSamples headerCPU =? 0), a, headerCPU, [])
  else
    let a :=
      match m_nccl a with
      | None => set_nccl (Some {| IsSupported := env_nccl_supported env |}) a
      | Some _ => a
      end in
    let a :=
      if IsMainNode (m_mpi a)
      then set_recvHeaders
             (m_recvHeaders a ++
              replicate (N.to_nat (size_sub (NumProc a) 1))
                (Create (numEvalNode headerCPU))) a
      else a in
    do r <- AsyncAggregateGradHeaderImpl (env_fabric env) a headerCPU;
    let '(a, headerCPU, trace) := r in
    Ok (negb (numSamples headerCPU =? 0), a, headerCPU, trace).

(** ** DistributedInit and DistributedAllReduce *)

Definition DistributedInit (env : Env) (a : SimpleDistGradAggregator) (deviceId : Z)
    (bufferSize : N) : result SimpleDistGradAggregator :=
  if NumNodesInUse (m_mpi a) =? 1 then Ok a
  else
    let a :=
      match m_nccl a with
      | None => set_nccl (Some {| IsSupported := env_nccl_supported env |}) a
      | Some _ => a
      end in
    do copy <- ShouldCopyDataToCPU a deviceId;
    if copy then
      let a := if negb (m_allocator a) then set_allocator true a else a in
      Ok (set_intermediateDistributedCPUBuffer2
            (Some (replicate (N.to_nat bufferSize) zero))
            (set_intermediateDistributedCPUBuffer1
               (Some (replicate (N.to_nat bufferSize) zero)) a))
    else Ok a.

(** How far a call of [DistributedAllReduce] got: the object, the matrix,
    the calls made, and the exception that ended it, if any. *)
Record Distributed : Type := {
  dr_agg : SimpleDistGradAggregator;
  dr_matrix : Matrix;
  dr_trace : list Call;
  dr_thrown : option Exn
}.

(** [m_mpi->AllReduce(buffer, count)] leaves the operator to its default,
    the sum. *)
Definition DistributedAllReduce (f : Fabric) (a : SimpleDistGradAggregator)
    (distributedMatrix : Matrix) (op : MPI_Op) : Distributed :=
  let deviceId := GetDeviceId distributedMatrix in
  let distributedMatrixBuffer := Data distributedMatrix in
  let stop a m t e := {| dr_agg := a; dr_matrix := m; dr_trace := t; dr_thrown := e |} in
  match m_nccl a with
  | None => stop a distributedMatrix [] (Some (Fault "m_nccl"))
  | Some nccl =>
    let gdr := UseGpuGdr (m_mpi a) in
    let cpu := (deviceId =? CPUDEVICE)%Z in
    (* the reduction *)
    let reduction :=
      if negb gdr && negb cpu && negb (IsSupported nccl) then
        (* non-GDR && GPU && non-NCCL: need to copy data from GPU to CPU *)
        match m_intermediateDistributedCPUBuffer1 a with
        | None => stop a distributedMatrix [] (Some (Fault "m_intermediateDistributedCPUBuffer1"))
        | Some _ =>
          let reduced := all_reduce (m_mpi a) f 0 distributedMatrixBuffer op in
          stop (set_intermediateDistributedCPUBuffer1 (Some reduced) a)
               (with_Data distributedMatrix reduced)
               [call_AllReduce distributedMatrixBuffer op] None
        end
      else if negb (IsSupported nccl) then
        if negb gdr then
          (* CPU: the reduction lands at the wait below *)
          stop a distributedMatrix [call_Iallreduce distributedMatrixBuffer op] None
        else if negb cpu then
          (* GDR && GPU *)
          stop a (with_Data distributedMatrix
                    (all_reduce (m_mpi a) f 0 distributedMatrixBuffer MPI_SUM))
               [call_AllReduce distributedMatrixBuffer MPI_SUM] None
        else stop a distributedMatrix []
               (Some (LogicError "LogicError in SimpleDistGradAggregator::DistributedAllReduce"))
      else
        (* NCCL *)
        stop a (with_Data distributedMatrix
                  (all_reduce (m_mpi a) f 0 distributedMatrixBuffer op))
             [call_NcclAllReduce [distributedMatrixBuffer] op] None in
    match dr_thrown reduction with
    | Some _ => reduction
    | None =>
      (* the waits *)
      if IsSupported nccl then
        stop (dr_agg reduction) (dr_matrix reduction)
             (dr_trace reduction ++ [call_NcclSync]) None
      else if negb gdr && negb cpu then reduction
      else if negb gdr then
        stop (dr_agg reduction)
             (with_Data distributedMatrix
                (all_reduce (m_mpi a) f 0 distributedMatrixBuffer op))
             (dr_trace reduction ++ [call_Wait]) None
      else stop (dr_agg reduction) (dr_matrix reduction) (dr_trace reduction)
             (Some (LogicError "LogicError in SimpleDistGradAggregator::DistributedAllReduce"))
    end
  end.

(** ** A cluster *)

(** A rank as it enters the pipeline: its aggregator, the gradients and
    the header handed to [AggregateGradientsImpl]. *)
Record Node : Type := {
  node_agg : SimpleDistGradAggregator;
  node_gradients : list Matrix;
  node_header : DistGradHeader
}.

(** A fabric that delivers nothing. The first half of the pipeline never
    waits for a peer, and what it hands to the facades does not depend on
    what the fabric delivers ([pipeline_reduce_Ok]). *)
Definition silent : Fabric :=
  {| peer_send := λ _, None; peer_buffer := λ _ _, [];
     completion_order := []; bcast_header := λ _, None |}.

Fixpoint first_send (t : list Call) : option (Z * DistGradHeader) :=
  match t with
  | [] => None
  | call_Isend h _ tag :: _ => Some (tag, h)
  | _ :: t' => first_send t'
  end.

(** The calls of the first half of the pipeline of a node. *)
Definition posted (n : Node) : list Call :=
  match pipeline_reduce silent (node_agg n) (node_gradients n) (node_header n) with
  | Ok (_, _, s) => rd_trace s
  | Throw _ => []
  end.

(** The fabric the ranks of a cluster make for each other, before the
    broadcast. [order] is the order in which the receives of the main rank
    complete. *)
Definition exchange (order : list nat) (nodes : list Node) : Fabric :=
  {| peer_send := λ s, nodes !! N.to_nat s ≫= λ n, first_send (posted n);
     peer_buffer := λ s k,
       default [] (nodes !! N.to_nat s ≫= λ n, reduce_requests (posted n) !! k);
     completion_order := order;
     bcast_header := λ _, None |}.

(** The header a node broadcasts when it is the root. *)
Definition broadcast (f : Fabric) (n : Node) : option DistGradHeader :=
  if IsMainNode (m_mpi (node_agg n)) then
    match AggregateGradientsImpl f (node_agg n) (node_gradients n) (node_header n) false with
    | Ok (_, _, h, _) => Some h
    | Throw _ => None
    end
  else None.

Definition fabric_of (order : list nat) (nodes : list Node) : Fabric :=
  {| peer_send := peer_send (exchange order nodes);
     peer_buffer := peer_buffer (exchange order nodes);
     completion_order := order;
     bcast_header := λ root, nodes !! N.to_nat root ≫= broadcast (exchange order nodes) |}.

(** All ranks of the cluster run the pipeline. *)
Definition run_pipeline (order : list nat) (nodes : list Node)
  : list (result (SimpleDistGradAggregator * list Matrix * DistGradHeader * list Call)) :=
  map (λ n, AggregateGradientsImpl (fabric_of order nodes)
              (node_agg n) (node_gradients n) (node_header n) false) nodes.

(** ** The per-node aggregation over MPI (namespace ASYNCMPI) *)

Section ASYNCMPI.

(** Modelled from the spec: [resize(rows, cols)] of the gradient tensor
    gives the matrix its new shape; what the storage holds afterwards is
    left open ([resized]). *)
Variable resized : N → N → list ElemType.

Definition Resize (m : Matrix) (rows cols : N) : Matrix :=
  {| GetNumRows := rows; GetNumCols := cols; GetDeviceId := GetDeviceId m;
     GetMatrixType := GetMatrixType m; Data := resized rows cols |}.

(** What the per-node aggregation reads of a [ComputationNode<ElemType>]
    (ComputationNode.h is not among the sources), and the gradient it
    writes. *)
Record ComputationNode : Type := {
  NeedsGradient : bool;
  IsParameterUpdateRequired : bool;
  m_distribute : bool;
  Value : Matrix;
  Gradient : Matrix
}.

Definition set_Gradient (g : Matrix) (n : ComputationNode) : ComputationNode :=
  {| NeedsGradient := NeedsGradient n;
     IsParameterUpdateRequired := IsParameterUpdateRequired n;
     m_distribute := m_distribute n; Value := Value n; Gradient := g |}.

(** A [ComputationNodeBasePtr] compares by address; the nodes live in the
    network, which the threads share. *)
Abbreviation ComputationNodeBasePtr := N (only parsing).

(** The local variables of [AsyncAggreagateGradientsImpl]. The globals
    [m_asyncMpi] and [m_asyncAllocator] are set up by the trainer before the
    first call; the model takes them as present. *)
Record AsyncStaged : Type := {
  asyncGpuDataTransferers : list GPUDataTransferer;
  ayncIntermediateCPUBuffers : list (list ElemType);
  as_trace : list Call;
  as_allReduceIndex : nat
}.

(** The first loop: no sparse gradient, and a transferer and a pinned
    buffer for every gradient. *)
Definition async_allocate (gradients : list Matrix)
  : result (list GPUDataTransferer * list (list ElemType)) :=
  foldl (λ (r : result (list GPUDataTransferer * list (list ElemType))) (g : Matrix),
           do st <- r;
           if bool_decide (GetMatrixType g ≠ DENSE)
           then Throw (RuntimeError
                         "Gradient aggregation for sparse gradient matrices is currently unsupported!")
           else Ok (st.1 ++ [{| fetch_in_flight := None; assign_in_flight := None |}],
                    st.2 ++ [replicate (N.to_nat (GetNumElements g)) zero]))
        (Ok ([], [])) gradients.

(** The body of the second loop: the copy of the gradient to the host,
    the wait for it, the blocking all-reduce on the host buffer, and the
    start of the copy back. *)
Definition async_step (mpi : MPIWrapper) (f : Fabric) (gradients : list Matrix)
    (s : AsyncStaged) (gradIndex : nat) : result AsyncStaged :=
  do gpuCopyBuffer <- at_index "gradients[gradIndex]" gradients (N.of_nat gradIndex);
  (* async D-to-H copy *)
  do t <- at_index "asyncGpuDataTransferers[gradIndex]"
            (asyncGpuDataTransferers s) (N.of_nat gradIndex);
  do _ <- at_index "ayncIntermediateCPUBuffers[gradIndex]"
            (ayncIntermediateCPUBuffers s) (N.of_nat gradIndex);
  let t := {| fetch_in_flight := Some (Data gpuCopyBuffer);
              assign_in_flight := assign_in_flight t |} in
  (* wait for the copy *)
  let reductionBuffer := Data gpuCopyBuffer in
  let t := {| fetch_in_flight := None; assign_in_flight := assign_in_flight t |} in
  (* allreduce *)
  let reduced := all_reduce mpi f (next_request (as_trace s)) reductionBuffer MPI_SUM in
  (* async H-to-D copy *)
  let t := {| fetch_in_flight := fetch_in_flight t;
              assign_in_flight := Some (N.of_nat gradIndex, reduced) |} in
  Ok {| asyncGpuDataTransferers := <[gradIndex := t]> (asyncGpuDataTransferers s);
        ayncIntermediateCPUBuffers := <[gradIndex := reduced]> (ayncIntermediateCPUBuffers s);
        as_trace := as_trace s ++ [call_AllReduce reductionBuffer MPI_SUM];
        as_allReduceIndex := S (as_allReduceIndex s) |}.

(** [asyncGpuDataTransferers[i]->WaitForCopyCPUToGPUAsync()]: the copy
    back lands in its gradient. *)
Definition async_wait (ts : list GPUDataTransferer) (gradients : list Matrix) (i : nat)
  : result (list Matrix) :=
  do t <- at_index "asyncGpuDataTransferers[i]" ts (N.of_nat i);
  match assign_in_flight t with
  | None => Ok gradients
  | Some (k, d) =>
    do g <- at_index "gradients[gradIndex]" gradients k;
    Ok (<[N.to_nat k := with_Data g d]> gradients)
  end.

Definition AsyncAggreagateGradientsImpl (mpi : MPIWrapper) (f : Fabric)
    (gradients : list Matrix) (trace : list Call) : result (list Matrix * list Call) :=
  if (length gradients =? 0)%nat then Ok (gradients, trace)
  else
    do g0 <- at_index "gradients[0]" gradients 0;
    let numGradAgg := length gradients in
    do st <- async_allocate gradients;
    do s <- foldl (λ r gradIndex, do s <- r; async_step mpi f gradients s gradIndex)
              (Ok {| asyncGpuDataTransferers := st.1; ayncIntermediateCPUBuffers := st.2;
                     as_trace := trace; as_allReduceIndex := 0 |})
              (seq 0 numGradAgg);
    (* wait for the copies back to the device *)
    do gradients <- foldl (λ r i, do gs <- r; async_wait (asyncGpuDataTransferers s) gs i)
                      (Ok gradients) (seq 0 (as_allReduceIndex s));
    Ok (gradients, as_trace s).

(** [AsyncAggreagateGradients(node)]: the node joins [m_asyncNodeQueue]. *)
Definition AsyncAggreagateGradients (mpi : MPIWrapper)
    (nodes : gmap N ComputationNode) (m_asyncNodeQueue : list N) (node : N)
  : result (list N) :=
  if NumNodesInUse mpi =? 1 then Ok m_asyncNodeQueue
  else
    do n <- deref "node" (nodes !! node);
    if negb (NeedsGradient n) then Ok m_asyncNodeQueue
    else Ok (threadsafe_queue.push m_asyncNodeQueue node).

(** What the thread does with a node it popped. The CUDA event that is
    recorded and waited for in between orders the streams and touches no
    data. *)
Definition aggregate_node (mpi : MPIWrapper) (f : Fabric)
    (st : gmap N ComputationNode * list Call) (node : N)
  : result (gmap N ComputationNode * list Call) :=
  do gradNode <- deref "gradNode" (st.1 !! node);
  if IsParameterUpdateRequired gradNode && negb (m_distribute gradNode) then
    let currParamsGradient := Gradient gradNode in
    (* the gradient matrix may not have been sized yet *)
    let currParamsGradient :=
      if GetNumCols currParamsGradient =? 0
      then Resize currParamsGradient (GetNumRows (Value gradNode))
             (GetNumCols (Value gradNode))
      else currParamsGradient in
    do r <- AsyncAggreagateGradientsImpl mpi f [currParamsGradient] st.2;
    do g <- at_index "learningParamGrad[0]" r.1 0;
    Ok (<[node := set_Gradient g gradNode]> st.1, r.2)
  else Ok st.

(** The inner loop [while (!m_asyncNodeQueue.empty())]; [fuel] bounds its
    iterations, and the length of the queue is enough of it, as nothing is
    pushed while the thread runs alone. *)
Fixpoint drain_queue (fuel : nat) (mpi : MPIWrapper) (f : Fabric) (m_asyncNodeQueue : list N)
    (st : gmap N ComputationNode * list Call)
  : result (list N * (gmap N ComputationNode * list Call)) :=
  match fuel with
  | O => Ok (m_asyncNodeQueue, st)
  | S fuel' =>
    if threadsafe_queue.empty m_asyncNodeQueue then Ok (m_asyncNodeQueue, st)
    else
      let '(_, queue, node) := threadsafe_queue.try_pop m_asyncNodeQueue 0 in
      do st <- aggregate_node mpi f st node;
      drain_queue fuel' mpi f queue st
  end.

(** [BackpropAsyncMpiThread(asyncMpiFlag)], run while no other thread
    pushes or sets the flag: [asyncMpiFlag] is what every read of the flag
    gives. [fuel] bounds the turns of [while (true)]; [None] is a thread
    that is still in the loop when the fuel is spent. *)
Fixpoint BackpropAsyncMpiThread_loop (fuel : nat) (mpi : MPIWrapper) (f : Fabric)
    (asyncMpiFlag : bool) (m_asyncNodeQueue : list N)
    (st : gmap N ComputationNode * list Call)
  : option (result (list N * (gmap N ComputationNode * list Call))) :=
  match fuel with
  | O => None
  | S fuel' =>
    if asyncMpiFlag && threadsafe_queue.empty m_asyncNodeQueue
    then Some (Ok (m_asyncNodeQueue, st))
    else
      match drain_queue (length m_asyncNodeQueue) mpi f m_asyncNodeQueue st with
      | Ok (queue, st) => BackpropAsyncMpiThread_loop fuel' mpi f asyncMpiFlag queue st
      | Throw e => Some (Throw e)
      end
  end.

Definition BackpropAsyncMpiThread (fuel : nat) (mpi : MPIWrapper) (f : Fabric)
    (asyncMpiFlag : bool) (m_asyncNodeQueue : list N)
    (st : gmap N ComputationNode * list Call)
  : option (result (list N * (gmap N ComputationNode * list Call))) :=
  if NumNodesInUse mpi =? 1 then Some (Ok (m_asyncNodeQueue, st))
  else BackpropAsyncMpiThread_loop fuel mpi f asyncMpiFlag m_asyncNodeQueue st.

End ASYNCMPI.

(** ** DistributedCheck *)

(** Modelled from the spec: [AllGather] of one element leaves in the
    receive buffer the element of every rank, in rank order; [peer_size]
    is what the other ranks pass. *)
Definition gathered_sizes (a : SimpleDistGradAggregator) (peer_size : N → N)
    (minibatchSize : N) : list N :=
  map (λ s, if N.of_nat s =? MyRank a then minibatchSize else peer_size (N.of_nat s))
      (seq 0 (N.to_nat (NumProc a))).

(** [gatherBuffer] has [processNum] slots, of which [AllGather] writes
    [NumProc()]: writing past the end of the buffer, and reading a slot
    that was never written, are faults. The loop returns at the first
    slot that differs from slot 0. *)
Definition DistributedCheck (a : SimpleDistGradAggregator) (peer_size : N → N)
    (minibatchSize processNum : N) : result bool :=
  let gatherBuffer := gathered_sizes a peer_size minibatchSize in
  if processNum <? NumProc a then Throw (Fault "gatherBuffer")
  else
    foldl (λ (r : result bool) (i : nat),
             do same <- r;
             if same then
               do x <- at_index "gatherBuffer[i]" gatherBuffer (N.of_nat i);
               do x0 <- at_index "gatherBuffer[0]" gatherBuffer 0;
               Ok (x =? x0)
             else Ok false)
          (Ok true) (seq 1 (N.to_nat processNum - 1)).


(** ** DistributedAllGather *)

(** [cudaMemcpy(dst, src, n * sizeof(ElemType), kind)]: the first [n]
    elements of [dst] become those of [src]; a copy that runs past the
    end of either buffer is a fault. *)
Definition cudaMemcpy (what : string) (dst src : list ElemType) (n : N)
  : result (list ElemType) :=
  if (N.to_nat n <=? length src)%nat && (N.to_nat n <=? length dst)%nat
  then Ok (take (N.to_nat n) src ++ drop (N.to_nat n) dst)
  else Throw (Fault what).

(** What the ranks contribute to an all-gather of [count] elements: the
    first [count] elements of the send buffer of each, in rank order;
    [peer] is what the other ranks send. *)
Definition gather_contributions (mpi : MPIWrapper) (peer : N → list ElemType)
    (own : list ElemType) (count : N) : list ElemType :=
  concat (map (λ s, take (N.to_nat count)
                      (if N.of_nat s =? CurrentNodeRank mpi then own else peer (N.of_nat s)))
              (seq 0 (N.to_nat (NumNodesInUse mpi)))).

(** Modelled from the spec: an all-gather leaves the contributions of all
    ranks at the start of the receive buffer; a send buffer shorter than
    [count], or a receive buffer shorter than what is gathered, is a
    fault. *)
Definition all_gather (what : string) (mpi : MPIWrapper) (peer : N → list ElemType)
    (sendbuf recvbuf : list ElemType) (count : N) : result (list ElemType) :=
  let gathered := gather_contributions mpi peer sendbuf count in
  if (N.to_nat count <=? length sendbuf)%nat && (length gathered <=? length recvbuf)%nat
  then Ok (gathered ++ drop (length gathered) recvbuf)
  else Throw (Fault what).

(** How far a call of [DistributedAllGather] got: the object, the
    gathered matrix, and the exception that ended it, if any. *)
Record Gathered : Type := {
  ga_agg : SimpleDistGradAggregator;
  ga_matrix : Matrix;
  ga_thrown : option Exn
}.

(** The staged branch: to the first host buffer, the gather into the
    second, and as many elements back as the gathered matrix has. *)
Definition staged_gather (peer : N → list ElemType) (a : SimpleDistGradAggregator)
    (distributedMatrixBuffer : list ElemType) (gatheredMatrix : Matrix) (count : N)
  : result (SimpleDistGradAggregator * Matrix) :=
  do buffer1 <- deref "m_intermediateDistributedCPUBuffer1"
                  (m_intermediateDistributedCPUBuffer1 a);
  do buffer1 <- cudaMemcpy "m_intermediateDistributedCPUBuffer1" buffer1
                  distributedMatrixBuffer count;
  do buffer2 <- deref "m_intermediateDistributedCPUBuffer2"
                  (m_intermediateDistributedCPUBuffer2 a);
  do buffer2 <- all_gather "m_intermediateDistributedCPUBuffer2" (m_mpi a) peer
                  buffer1 buffer2 count;
  do gathered <- cudaMemcpy "gatheredMatrixBuffer" (Data gatheredMatrix) buffer2
                   (GetNumElements gatheredMatrix);
  Ok (set_intermediateDistributedCPUBuffer2 (Some buffer2)
        (set_intermediateDistributedCPUBuffer1 (Some buffer1) a),
      with_Data gatheredMatrix gathered).

Definition DistributedAllGather (peer : N → list ElemType) (a : SimpleDistGradAggregator)
    (distributedMatrix gatheredMatrix : Matrix) (count : N) : Gathered :=
  let deviceId := GetDeviceId distributedMatrix in
  let distributedMatrixBuffer := Data distributedMatrix in
  let gatheredMatrixBuffer := Data gatheredMatrix in
  let stop a m e := {| ga_agg := a; ga_matrix := m; ga_thrown := e |} in
  let gather m :=
    match all_gather "gatheredMatrixBuffer" (m_mpi a) peer distributedMatrixBuffer
            gatheredMatrixBuffer count with
    | Ok gathered => stop a (with_Data m gathered) None
    | Throw e => stop a m (Some e)
    end in
  match m_nccl a with
  | None => stop a gatheredMatrix (Some (Fault "m_nccl"))
  | Some nccl =>
    let gdr := UseGpuGdr (m_mpi a) in
    let cpu := (deviceId =? CPUDEVICE)%Z in
    (* the gather *)
    let gathering :=
      if negb gdr && negb cpu && negb (IsSupported nccl) then
        (* non-GDR && GPU && non-NCCL: need to copy data from GPU to CPU *)
        match staged_gather peer a distributedMatrixBuffer gatheredMatrix count with
        | Ok (a, m) => stop a m None
        | Throw e => stop a gatheredMatrix (Some e)
        end
      else if negb (IsSupported nccl) then
        if negb gdr then
          (* CPU: the gather lands at the wait below *)
          stop a gatheredMatrix None
        else if negb cpu then
          (* GDR && GPU *)
          gather gatheredMatrix
        else stop a gatheredMatrix
               (Some (LogicError "LogicError in SimpleDistGradAggregator::DistributedAllGather"))
      else
        (* NCCL *)
        gather gatheredMatrix in
    match ga_thrown gathering with
    | Some _ => gathering
    | None =>
      (* the waits *)
      if IsSupported nccl then gathering
      else if negb gdr && negb cpu then gathering
      else if negb gdr then gather gatheredMatrix
      else stop (ga_agg gathering) (ga_matrix gathering)
             (Some (LogicError "LogicError in SimpleDistGradAggregator::DistributedAllGather"))
    end
  end.
(** * Properties *)

Ltac inv_bind H :=
  let x := fresh "x" in
  let E := fresh "E" in
  apply bind_Ok in H; destruct H as (x & E & H).

(** ** Initialization: the partition of the gradients *)

(** The test of the classification loop, on the two members it reads. *)
Definition is_packed (useAsyncAggregation : bool) (packThresholdSizeInBytes : N)
    (g : Matrix) : bool :=
  negb useAsyncAggregation
  && (size_mul sizeofElemType (GetNumElements g) <=? packThresholdSizeInBytes).

Definition packs (a : SimpleDistGradAggregator) : Matrix → bool :=
  is_packed (m_useAsyncAggregation a) (m_packThresholdSizeInBytes a).

(** The positions, counted from [i], of the gradients that pass a test. *)
Fixpoint positions_where (P : Matrix → bool) (gradients : list (MatrixPtr * Matrix)) (i : N)
  : list N :=
  match gradients with
  | [] => []
  | pg :: rest =>
    if P pg.2 then i :: positions_where P rest (i + 1)
    else positions_where P rest (i + 1)
  end.

(** The element count of the packed buffer: the sum, on size_t, of the
    element counts of the gradients that pass the test. *)
Definition packed_elements (P : Matrix → bool)
    (gradients : list (MatrixPtr * Matrix)) (start : N) : N :=
  foldl (λ s pg, if P pg.2 then size_add s (GetNumElements pg.2) else s)
        start gradients.

Lemma elem_of_positions_where P gradients i j :
  j ∈ positions_where P gradients i ↔
  ∃ k pg, j = i + N.of_nat k ∧ gradients !! k = Some pg ∧ P pg.2 = true.
Proof.
  revert i. induction gradients as [|pg rest IH]; intros i; simpl.
  - split; [intros H; inversion H |].
    intros (k & pg & _ & H & _). rewrite lookup_nil in H. discriminate.
  - destruct (P pg.2) eqn:EP.
    + rewrite elem_of_cons, IH. split.
      * intros [-> | (k & pg' & -> & Hk & HP)].
        -- exists 0%nat, pg. split; [lia | auto].
        -- exists (S k), pg'. split; [lia | auto].
      * intros (k & pg' & -> & Hk & HP). destruct k as [|k]; simpl in Hk.
        -- left. lia.
        -- right. exists k, pg'. split; [lia | auto].
    + rewrite IH. split.
      * intros (k & pg' & -> & Hk & HP). exists (S k), pg'. split; [lia | auto].
      * intros (k & pg' & -> & Hk & HP). destruct k as [|k]; simpl in Hk.
        -- congruence.
        -- exists k, pg'. split; [lia | auto].
Qed.

(** What the classification loop leaves: the two lists grow by the
    positions that pass, respectively fail, the test; in async mode the
    shadows are added; nothing else changes. *)
Lemma ResetState_classify_Ok a deviceId gradients i n a' n' :
  ResetState_classify a deviceId gradients i n = Ok (a', n') →
  n' = packed_elements (packs a) gradients n ∧
  ∃ bg, a' = set_bufferedGradients bg
               (set_gradientIndexToAggregate
                  (m_gradientIndexToAggregate a
                   ++ positions_where (λ g, negb (packs a g)) gradients i)
                  (set_packedGradientsIndex
                     (m_packedGradientsIndex a ++ positions_where (packs a) gradients i)
                     a)).
Proof.
  revert a i n. induction gradients as [|[p g] rest IH]; intros a i n H; simpl in H.
  - injection H as <- <-. split; [reflexivity|].
    exists (m_bufferedGradients a). simpl. rewrite !app_nil_r. by destruct a.
  - destruct a as [mpi al cb tr b1 b2 rh async pend bg0 bh thr ab pk ta sst ic ini nc].
    unfold packs, is_packed in *. simpl in H.
    destruct async; simpl in H;
      [| destruct (size_mul sizeofElemType (GetNumElements g) <=? thr) eqn:E; simpl in H];
      (destruct (bool_decide (GetMatrixType g ≠ DENSE)); [discriminate|]);
      apply IH in H as [-> (bg & ->)];
      unfold packed_elements; simpl; rewrite ?E; simpl;
      (split; [reflexivity|]); exists bg; rewrite <- ?app_assoc; reflexivity.
Qed.

(** The staging loop adds a staging buffer and an idle transferer for each
    entry, and nothing else. *)
Lemma ResetState_staging_Ok a gradients entries n a' :
  ResetState_staging a gradients entries n = Ok a' →
  ∃ bufs, length bufs = length entries ∧
    a' = set_intermediateCPUBuffers (m_intermediateCPUBuffers a ++ bufs)
           (set_gpuDataTransferers
              (m_gpuDataTransferers a ++
               replicate (length entries)
                 {| fetch_in_flight := None; assign_in_flight := None |}) a).
Proof.
  revert a. induction entries as [|i rest IH]; intros a H; simpl in H.
  - injection H as <-. exists []. rewrite !app_nil_r. by destruct a.
  - inv_bind H. apply IH in H as (bufs & Hb & ->). simpl.
    eexists (_ :: bufs). simpl. rewrite Hb. split; [done|].
    destruct a; simpl. rewrite <- !app_assoc. reflexivity.
Qed.

(** Whether the first call stages through the host. *)
Definition stages (a : SimpleDistGradAggregator) (deviceId : Z) (nccl : NcclComm) : bool :=
  negb (deviceId =? CPUDEVICE)%Z && negb (IsSupported nccl || UseGpuGdr (m_mpi a)).

Lemma ShouldCopyDataToCPU_Ok a deviceId copy :
  ShouldCopyDataToCPU a deviceId = Ok copy →
  ∃ nccl, m_nccl a = Some nccl ∨ (deviceId =? CPUDEVICE)%Z = true ∧ copy = false.
Proof.
  unfold ShouldCopyDataToCPU. destruct (deviceId =? CPUDEVICE)%Z.
  - intros [= <-]. exists {| IsSupported := false |}. by right.
  - destruct (m_nccl a) as [nccl|]; simpl; [|discriminate]. intros _. exists nccl. by left.
Qed.

Lemma ShouldCopyDataToCPU_stages a deviceId nccl :
  m_nccl a = Some nccl → ShouldCopyDataToCPU a deviceId = Ok (stages a deviceId nccl).
Proof.
  intros H. unfold ShouldCopyDataToCPU, stages. rewrite H. simpl.
  destruct (deviceId =? CPUDEVICE)%Z; simpl; [done|].
  by destruct (IsSupported nccl || UseGpuGdr (m_mpi a)).
Qed.

(** The device of the first gradient, and whether the first call gets its
    packed buffer. *)
Definition first_device (gradients : list (MatrixPtr * Matrix)) : Z :=
  match gradients with
  | pg :: _ => GetDeviceId pg.2
  | [] => 0%Z
  end.

Definition allocates (buffer_alloc_ok : bool) (a : SimpleDistGradAggregator)
    (gradients : list (MatrixPtr * Matrix)) : bool :=
  (0 <? packed_elements (packs a) gradients 0) && buffer_alloc_ok.

(** Two aggregators with the same members are the same. *)
Lemma aggregator_ext (x y : SimpleDistGradAggregator) :
  m_mpi x = m_mpi y → m_allocator x = m_allocator y →
  m_intermediateCPUBuffers x = m_intermediateCPUBuffers y →
  m_gpuDataTransferers x = m_gpuDataTransferers y →
  m_intermediateDistributedCPUBuffer1 x = m_intermediateDistributedCPUBuffer1 y →
  m_intermediateDistributedCPUBuffer2 x = m_intermediateDistributedCPUBuffer2 y →
  m_recvHeaders x = m_recvHeaders y →
  m_useAsyncAggregation x = m_useAsyncAggregation y →
  m_pendingAsyncAggregation x = m_pendingAsyncAggregation y →
  m_bufferedGradients x = m_bufferedGradients y →
  m_bufferedGradHeader x = m_bufferedGradHeader y →
  m_packThresholdSizeInBytes x = m_packThresholdSizeInBytes y →
  m_aggregationBuffer x = m_aggregationBuffer y →
  m_packedGradientsIndex x = m_packedGradientsIndex y →
  m_gradientIndexToAggregate x = m_gradientIndexToAggregate y →
  m_syncStatsTrace x = m_syncStatsTrace y →
  m_iterationCount x = m_iterationCount y →
  m_initialized x = m_initialized y →
  m_nccl x = m_nccl y →
  x = y.
Proof. destruct x, y; simpl; intros; by subst. Qed.

Lemma ResetState_buffer_eq buffer_alloc_ok a deviceId gradients n :
  ResetState_buffer buffer_alloc_ok a deviceId gradients n =
  if (0 <? n) && buffer_alloc_ok
  then (set_gradientIndexToAggregate (NONE :: m_gradientIndexToAggregate a)
          (set_aggregationBuffer (Some (new_Matrix 1 n deviceId)) a), n)
  else (set_gradientIndexToAggregate (map N.of_nat (seq 0 (length gradients)))
          (set_packedGradientsIndex [] (set_aggregationBuffer None a)), 0).
Proof.
  unfold ResetState_buffer. destruct ((0 <? n) && buffer_alloc_ok); by destruct a.
Qed.

Lemma ShouldCopyDataToCPU_ext a b deviceId :
  m_mpi a = m_mpi b → m_nccl a = m_nccl b →
  ShouldCopyDataToCPU a deviceId = ShouldCopyDataToCPU b deviceId.
Proof. unfold ShouldCopyDataToCPU. by intros -> ->. Qed.

(** The first call in closed form. *)
Lemma ResetState_first_call_eq buffer_alloc_ok a gradients numEvalNodes resetState a' :
  m_initialized a = false →
  ResetState buffer_alloc_ok a gradients numEvalNodes resetState = Ok a' →
  ∃ copy bg bufs ts,
    gradients ≠ [] ∧
    ShouldCopyDataToCPU a (first_device gradients) = Ok copy ∧
    (if copy
     then length bufs = length (m_gradientIndexToAggregate a')
          ∧ ts = replicate (length (m_gradientIndexToAggregate a'))
                   {| fetch_in_flight := None; assign_in_flight := None |}
     else bufs = [] ∧ ts = []) ∧
    a' = {| m_mpi := m_mpi a;
            m_allocator := m_allocator a || copy;
            m_intermediateCPUBuffers := m_intermediateCPUBuffers a ++ bufs;
            m_gpuDataTransferers := m_gpuDataTransferers a ++ ts;
            m_intermediateDistributedCPUBuffer1 := m_intermediateDistributedCPUBuffer1 a;
            m_intermediateDistributedCPUBuffer2 := m_intermediateDistributedCPUBuffer2 a;
            m_recvHeaders :=
              m_recvHeaders a ++
              (if IsMainNode (m_mpi a)
               then replicate (N.to_nat (size_sub (NumProc a) 1)) (Create numEvalNodes)
               else []);
            m_useAsyncAggregation := m_useAsyncAggregation a;
            m_pendingAsyncAggregation := m_pendingAsyncAggregation a;
            m_bufferedGradients := bg;
            m_bufferedGradHeader :=
              if m_useAsyncAggregation a then Some (Clear (Create numEvalNodes))
              else m_bufferedGradHeader a;
            m_packThresholdSizeInBytes := m_packThresholdSizeInBytes a;
            m_aggregationBuffer :=
              if allocates buffer_alloc_ok a gradients
              then Some (new_Matrix 1 (packed_elements (packs a) gradients 0)
                           (first_device gradients))
              else None;
            m_packedGradientsIndex :=
              if allocates buffer_alloc_ok a gradients
              then m_packedGradientsIndex a ++ positions_where (packs a) gradients 0
              else [];
            m_gradientIndexToAggregate :=
              if allocates buffer_alloc_ok a gradients
              then NONE :: m_gradientIndexToAggregate a
                           ++ positions_where (λ g, negb (packs a g)) gradients 0
              else map N.of_nat (seq 0 (length gradients));
            m_syncStatsTrace := m_syncStatsTrace a;
            m_iterationCount := m_iterationCount a;
            m_initialized := true;
            m_nccl := m_nccl a |}.
Proof.
  intros Hini H. unfold ResetState in H. rewrite Hini in H. cbn [negb] in H.
  inv_bind H. rename x into g0. apply at_index_Ok in E.
  destruct gradients as [|pg0 rest]; [discriminate|]. injection E as ->.
  change (GetDeviceId g0.2) with (first_device (g0 :: rest)) in H.
  remember (g0 :: rest) as gradients eqn:Hg.
  inv_bind H. rename x into copy. rename E into Ecopy.
  inv_bind H. destruct x as [a1 total]. rename E into Ecl.
  apply ResetState_classify_Ok in Ecl as [Htotal (bg & Ha1)].
  inv_bind H. rename x into copy2. rename E into Ecopy2.
  inv_bind H. rename x into a2. rename E into Est. injection H as <-.
  cbn [fst snd] in *. rewrite ResetState_buffer_eq in Ecopy2, Est.
  assert (Ecopy' : ShouldCopyDataToCPU a (first_device gradients) = Ok copy)
    by (rewrite <- Ecopy; by apply ShouldCopyDataToCPU_ext).
  assert (copy2 = copy) as ->.
  { assert (Ok copy2 = Ok copy) as [=]; [|done].
    rewrite <- Ecopy2, <- Ecopy. apply ShouldCopyDataToCPU_ext; rewrite Ha1;
      by destruct ((0 <? total) && buffer_alloc_ok), (copy && negb _). }
  clear Ecopy Ecopy2.
  assert (Hgs : gradients ≠ []) by (by rewrite Hg). clear Hg.
  cbn [m_allocator set_initialized] in Htotal, Ha1.
  destruct (copy && negb (m_allocator a)) eqn:Eal.
  all: change (packs (set_allocator true (set_initialized true a))) with (packs a)
         in Htotal, Ha1;
       change (packs (set_initialized true a)) with (packs a) in Htotal, Ha1.
  all: cbn [m_gradientIndexToAggregate m_packedGradientsIndex set_allocator
            set_initialized] in Ha1.
  all: unfold allocates; rewrite <- Htotal; clear Htotal.
  all: exists copy, bg.
  all: destruct copy;
    [ apply ResetState_staging_Ok in Est as (bufs & Hb & ->);
      match type of Hb with
      | length bufs = length ?e =>
        exists bufs, (replicate (length e)
                        {| fetch_in_flight := None; assign_in_flight := None |})
      end
    | injection Est as <-; exists [], [] ].
  all: subst a1; unfold ResetState_headers, NumProc.
  all: destruct ((0 <? total) && buffer_alloc_ok); members.
  all: destruct (m_useAsyncAggregation a) eqn:Easync; members.
  all: destruct (IsMainNode (m_mpi a)) eqn:Emain; members.
  all: (split; [done|]); (split; [done|]).
  all: split;
    [ try done; by split
    | apply aggregator_ext; members;
      rewrite ?app_nil_r, ?orb_false_r, ?orb_true_r; try done ].
  all: simpl in Eal; by apply negb_false_iff in Eal.
Qed.

(** A later call leaves the partition, the packed buffer and the staging
    buffers as the first call made them. *)
Lemma ResetState_later_call buffer_alloc_ok a gradients numEvalNodes resetState a' :
  m_initialized a = true →
  ResetState buffer_alloc_ok a gradients numEvalNodes resetState = Ok a' →
  a' = set_bufferedGradHeader (m_bufferedGradHeader a')
         (set_bufferedGradients (m_bufferedGradients a') a).
Proof.
  intros Hini H. unfold ResetState in H. rewrite Hini in H. cbn [negb] in H.
  destruct resetState.
  - destruct (m_useAsyncAggregation a && _); [discriminate|].
    destruct (m_useAsyncAggregation a).
    + inv_bind H. inv_bind H. injection H as <-. by destruct a.
    + injection H as <-. by destruct a.
  - injection H as <-. by destruct a.
Qed.

Lemma positions_where_bound P gradients i j :
  j ∈ positions_where P gradients i → i ≤ j < i + N.of_nat (length gradients).
Proof.
  rewrite elem_of_positions_where. intros (k & pg & -> & Hk & _).
  apply lookup_lt_Some in Hk. lia.
Qed.

Lemma positions_where_nil P gradients i :
  positions_where P gradients i = [] → ∀ n, packed_elements P gradients n = n.
Proof.
  revert i. induction gradients as [|pg rest IH]; intros i H n; [done|].
  unfold packed_elements. simpl in *. destruct (P pg.2); [discriminate|].
  by apply (IH (i + 1)).
Qed.

Lemma elem_of_positions (n : nat) (j : N) :
  j ∈ map N.of_nat (seq 0 n) ↔ j < N.of_nat n.
Proof.
  rewrite list_elem_of_fmap. setoid_rewrite elem_of_seq. split.
  - intros (k & -> & Hk). lia.
  - intros H. exists (N.to_nat j). lia.
Qed.

(** C4 (amended): after an initialization that got its packed buffer,
    position [i] is packed iff its byte size is at most the threshold and
    async aggregation is off, and otherwise it is aggregated on its own,
    with the sentinel in front; without a packed buffer (nothing to pack,
    or the allocation failed) nothing is packed and every position is
    aggregated on its own; in both cases every position is in exactly one
    of the two lists, and the sentinel is the first entry iff the packed
    list is not empty, iff the packed buffer exists. *)
Theorem ResetState_partition buffer_alloc_ok a gradients numEvalNodes resetState a' :
  m_initialized a = false →
  m_packedGradientsIndex a = [] →
  m_gradientIndexToAggregate a = [] →
  N.of_nat (length gradients) < SIZE_MOD →
  ResetState buffer_alloc_ok a gradients numEvalNodes resetState = Ok a' →
  let packed := m_packedGradientsIndex a' in
  let standalone := m_gradientIndexToAggregate a' in
  (is_Some (m_aggregationBuffer a') →
     (∀ i pg, gradients !! i = Some pg →
        (N.of_nat i ∈ packed ↔
           size_mul sizeofElemType (GetNumElements pg.2) ≤ m_packThresholdSizeInBytes a
           ∧ m_useAsyncAggregation a = false) ∧
        (N.of_nat i ∈ standalone ↔
           ¬ (size_mul sizeofElemType (GetNumElements pg.2) ≤ m_packThresholdSizeInBytes a
              ∧ m_useAsyncAggregation a = false))) ∧
     ∃ rest, standalone = NONE :: rest ∧ NONE ∉ rest) ∧
  (m_aggregationBuffer a' = None →
     packed = [] ∧ standalone = map N.of_nat (seq 0 (length gradients))) ∧
  (∀ i, (i < length gradients)%nat →
     (N.of_nat i ∈ packed ∧ (N.of_nat i ∉ standalone)) ∨
     ((N.of_nat i ∉ packed) ∧ N.of_nat i ∈ standalone)) ∧
  (head standalone = Some NONE ↔ packed ≠ []) ∧
  (is_Some (m_aggregationBuffer a') ↔ packed ≠ []).
Proof.
  intros Hini Hp Hs Hlen H.
  apply ResetState_first_call_eq in H as (copy & bg & bufs & ts & Hne & _ & _ & ->);
    [|done].
  cbn [m_packedGradientsIndex m_gradientIndexToAggregate m_aggregationBuffer].
  rewrite Hp, Hs. cbn [app].
  assert (Hsmall : ∀ g, packs a g = true ↔
            size_mul sizeofElemType (GetNumElements g) ≤ m_packThresholdSizeInBytes a
            ∧ m_useAsyncAggregation a = false).
  { intros g. unfold packs, is_packed. rewrite andb_true_iff, negb_true_iff, N.leb_le.
    tauto. }
  assert (Hin : ∀ P i, N.of_nat i ∈ positions_where P gradients 0 ↔
            ∃ pg, gradients !! i = Some pg ∧ P pg.2 = true).
  { intros P i. rewrite elem_of_positions_where. split.
    - intros (k & pg & Hk & Hl & HP). assert (k = i) as -> by lia. eauto.
    - intros (pg & Hl & HP). exists i, pg. split; [lia | done]. }
  assert (Hnone : ∀ P, NONE ∉ positions_where P gradients 0).
  { intros P Hn. apply positions_where_bound in Hn. unfold NONE in Hn. lia. }
  destruct (allocates buffer_alloc_ok a gradients) eqn:Ealloc.
  - assert (Hnn : positions_where (packs a) gradients 0 ≠ []).
    { intros Hnil. unfold allocates in Ealloc.
      rewrite (positions_where_nil _ _ _ Hnil) in Ealloc. discriminate. }
    split.
    { intros _. split; [|eauto]. intros i pg Hi.
      rewrite Hin, elem_of_cons, Hin, <- Hsmall. split.
      - split; [intros (pg' & Hi' & HP); congruence | eauto].
      - split.
        + intros [Hn | (pg' & Hi' & HP)].
          * apply lookup_lt_Some in Hi. unfold NONE in Hn. lia.
          * assert (pg' = pg) as -> by congruence.
            apply negb_true_iff in HP. congruence.
        + intros HP. right. exists pg. split; [done|].
          by apply negb_true_iff, not_true_is_false. }
    split; [intros [=]|]. split.
    { intros i Hi. apply lookup_lt_is_Some in Hi as [pg Hi].
      rewrite Hin, elem_of_cons, Hin.
      assert (Hn : N.of_nat i ≠ NONE)
        by (apply lookup_lt_Some in Hi; unfold NONE; lia).
      destruct (packs a pg.2) eqn:EP.
      - left. split; [eauto|]. intros [? | (pg' & Hi' & HP)]; [done|].
        assert (pg' = pg) as -> by congruence. rewrite EP in HP. discriminate.
      - right. split; [|right; exists pg; by rewrite EP].
        intros (pg' & Hi' & HP). congruence. }
    split; [done|]. split; [done | eauto].
  - split; [intros [? [=]]|]. split; [done|]. split; [|split].
    + intros i Hi. right. split; [apply not_elem_of_nil|].
      apply elem_of_positions. lia.
    + split; [|done]. destruct gradients as [|pg rest]; [done|]. simpl.
      by intros [=].
    + split; [intros [? [=]] | done].
Qed.

(** C7 (amended): only the first call classifies the gradients and
    allocates the packed buffer, from the sizes of the gradients it is
    given; every later call, with [resetState] or without, keeps the
    partition and the packed buffer of the first call whatever gradients it
    is given. *)
Theorem ResetState_classifies_once buffer_alloc_ok a gradients numEvalNodes resetState a' :
  ResetState buffer_alloc_ok a gradients numEvalNodes resetState = Ok a' →
  (m_initialized a = false →
     m_packedGradientsIndex a = [] → m_gradientIndexToAggregate a = [] →
     (if allocates buffer_alloc_ok a gradients
      then m_packedGradientsIndex a' = positions_where (packs a) gradients 0
           ∧ m_gradientIndexToAggregate a' =
               NONE :: positions_where (λ g, negb (packs a g)) gradients 0
           ∧ (λ b, (GetNumRows b, GetNumCols b)) <$> m_aggregationBuffer a'
             = Some (1, packed_elements (packs a) gradients 0)
      else m_packedGradientsIndex a' = []
           ∧ m_gradientIndexToAggregate a' = map N.of_nat (seq 0 (length gradients))
           ∧ m_aggregationBuffer a' = None)) ∧
  (m_initialized a = true →
     m_packedGradientsIndex a' = m_packedGradientsIndex a
     ∧ m_gradientIndexToAggregate a' = m_gradientIndexToAggregate a
     ∧ m_aggregationBuffer a' = m_aggregationBuffer a).
Proof.
  intros H. split.
  - intros Hini Hp Hs.
    apply ResetState_first_call_eq in H as (copy & bg & bufs & ts & _ & _ & _ & ->);
      [|done].
    cbn [m_packedGradientsIndex m_gradientIndexToAggregate m_aggregationBuffer].
    rewrite Hp, Hs. by destruct (allocates buffer_alloc_ok a gradients).
  - intros Hini. apply ResetState_later_call in H; [|done]. by rewrite H.
Qed.

(** ** The entry point *)

Lemma swap_buffered_snoc a gradients pg :
  swap_buffered a (gradients ++ [pg]) =
  do s <- swap_buffered a gradients;
  match m_bufferedGradients s.1.1 !! pg.1 with
  | None =>
    Throw (LogicError
             "No buffered gradient matrix found corresponding to a gradient matrix to be aggregated!")
  | Some b =>
    if negb (GetNumCols b =? GetNumCols pg.2)
       || negb (GetNumRows b =? GetNumRows pg.2)
       || negb (GetDeviceId b =? GetDeviceId pg.2)%Z
    then Throw (LogicError
                  "No buffered gradient matrix found corresponding to a gradient matrix to be aggregated!")
    else Ok (set_bufferedGradients (<[pg.1 := pg.2]> (m_bufferedGradients s.1.1)) s.1.1,
             s.1.2 ++ [(pg.1, b)], s.2 ++ [pg.1])
  end.
Proof.
  unfold swap_buffered. rewrite foldl_app. simpl.
  destruct (foldl _ _ gradients) as [[[a1 sw] ng]|e]; reflexivity.
Qed.

(** The swap changes the shadows only. *)
Lemma swap_buffered_Ok a gradients a' swapped newGradients :
  swap_buffered a gradients = Ok (a', swapped, newGradients) →
  a' = set_bufferedGradients (m_bufferedGradients a') a.
Proof.
  revert a' swapped newGradients.
  induction gradients as [|pg gradients IH] using rev_ind; intros a' sw ng H.
  - injection H as <- <- <-. by destruct a.
  - rewrite swap_buffered_snoc in H. inv_bind H. destruct x as [[a1 sw1] ng1].
    specialize (IH _ _ _ E). cbn [fst snd] in H.
    destruct (m_bufferedGradients a1 !! pg.1) as [b|]; [|discriminate].
    destruct (_ || _); [discriminate|]. injection H as <- <- <-.
    rewrite IH. by destruct a.
Qed.


Lemma prologue_Ok env a gradients headerCPU resetState a' stats :
  AggregateGradients_prologue env a gradients headerCPU resetState = Ok (a', stats) →
  m_mpi a' = m_mpi a ∧ m_useAsyncAggregation a' = m_useAsyncAggregation a
  ∧ m_pendingAsyncAggregation a' = m_pendingAsyncAggregation a.
Proof.
  unfold AggregateGradients_prologue. intros H. inv_bind H. injection H as <- <-.
  set (a0 := match m_nccl a with Some _ => a | None => _ end) in E.
  assert (H0 : m_mpi a0 = m_mpi a ∧ m_useAsyncAggregation a0 = m_useAsyncAggregation a
               ∧ m_pendingAsyncAggregation a0 = m_pendingAsyncAggregation a
               ∧ m_initialized a0 = m_initialized a)
    by (unfold a0; by destruct (m_nccl a)).
  destruct H0 as (<- & <- & <- & Hini). clearbody a0.
  destruct (m_initialized a0) eqn:Ei.
  - apply ResetState_later_call in E; [|done]. rewrite E. done.
  - apply ResetState_first_call_eq in E as (? & ? & ? & ? & _ & _ & _ & ->); done.
Qed.

(** C6: a reset while the task of the previous iteration is still pending
    is reported as a logic error. *)
Theorem reset_with_pending_task env a gradients headerCPU :
  NumNodesInUse (m_mpi a) ≠ 1 →
  m_initialized a = true →
  m_useAsyncAggregation a = true →
  is_Some (m_pendingAsyncAggregation a) →
  AggregateGradients env a gradients headerCPU true =
  Throw (LogicError
           "Unexpected pending async gradient aggregation found when resetting aggregator state!").
Proof.
  intros HW Hini Hasync Hpending. unfold AggregateGradients.
  apply N.eqb_neq in HW. rewrite HW.
  unfold AggregateGradients_prologue, ResetState.
  set (a0 := match m_nccl a with Some _ => a | None => _ end).
  assert (H0 : m_useAsyncAggregation a0 = m_useAsyncAggregation a
               ∧ m_pendingAsyncAggregation a0 = m_pendingAsyncAggregation a
               ∧ m_initialized a0 = m_initialized a)
    by (unfold a0; by destruct (m_nccl a)).
  destruct H0 as (-> & -> & ->). rewrite Hini, Hasync. cbn [negb andb].
  by rewrite bool_decide_eq_true_2.
Qed.


(** ** DistributedAllReduce and the operator *)

(** On the GPU-direct branch the call reduces with the sum and then ends
    in the logic error of its second chain of branches. *)
Lemma DistributedAllReduce_gdr_throws f a m op nccl :
  m_nccl a = Some nccl → UseGpuGdr (m_mpi a) = true →
  (GetDeviceId m =? CPUDEVICE)%Z = false → IsSupported nccl = false →
  dr_thrown (DistributedAllReduce f a m op) =
  Some (LogicError "LogicError in SimpleDistGradAggregator::DistributedAllReduce").
Proof. unfold DistributedAllReduce. by intros -> -> -> ->. Qed.


(** ** The pipeline on one rank *)

(** The matrix an entry of [m_gradientIndexToAggregate] names, if any. *)
Definition entry (a : SimpleDistGradAggregator) (gradients : list Matrix) (i : N)
  : option Matrix :=
  if i =? NONE then m_aggregationBuffer a else gradients !! N.to_nat i.




(** Two generalities on traces and loops. *)
Lemma reduce_requests_app (t1 t2 : list Call) :
  reduce_requests (t1 ++ t2) = reduce_requests t1 ++ reduce_requests t2.
Proof.
  induction t1 as [|c t1 IH]; [done|].
  destruct c; simpl; rewrite IH; try done. by rewrite app_assoc.
Qed.


Lemma foldl_inv {St X : Type} (step : St → X → result St) (I : nat → St → Prop)
    (xs : list X) k0 s :
  (∀ k x s, xs !! k = Some x → I (k0 + k)%nat s →
     ∃ s', step s x = Ok s' ∧ I (S (k0 + k)) s') →
  I k0 s →
  ∃ s', foldl (λ r x, do s <- r; step s x) (Ok s) xs = Ok s' ∧ I (k0 + length xs)%nat s'.
Proof.
  revert k0 s. induction xs as [|x xs IH]; intros k0 s Hstep HI.
  - exists s. simpl. by rewrite Nat.add_0_r.
  - destruct (Hstep 0%nat x s) as (s1 & E1 & HI1); [done | by rewrite Nat.add_0_r |].
    rewrite Nat.add_0_r in HI1.
    destruct (IH (S k0) s1) as (s' & E' & HI'); [|done|].
    + intros k x' s2 Hx HI2. replace (S k0 + k)%nat with (k0 + S k)%nat in * by lia.
      by apply (Hstep (S k)).
    + exists s'. simpl. rewrite E1. simpl. split; [done|].
      by replace (k0 + S (length xs))%nat with (S k0 + length xs)%nat by lia.
Qed.

(** What the [k]-th all-reduce of a run that starts with request [n0]
    leaves of a matrix, and the data of an entry. *)
Definition reduction (f : Fabric) (a : SimpleDistGradAggregator) (n0 k : nat) (m : Matrix)
  : list ElemType :=
  all_reduce (m_mpi a) f (n0 + k) (Data m) MPI_SUM.



(** *** The NCCL branch *)


(** *** The members the pipeline assigns *)







(** *** The branch of GPU-direct and of the CPU *)






(** *** The staged branch *)

Definition idle : GPUDataTransferer :=
  {| fetch_in_flight := None; assign_in_flight := None |}.










(** *** The reduction on every transport *)








(** *** Packing and unpacking *)

(** The element count and the data of the gradient at a position, and the
    data of the packed gradients laid end to end. *)
Definition elements (gs : list Matrix) (i : N) : nat :=
  default 0%nat ((λ g, N.to_nat (GetNumElements g)) <$> gs !! N.to_nat i).

Definition position_data (gs : list Matrix) (i : N) : list ElemType :=
  default [] (Data <$> gs !! N.to_nat i).

Definition packed_data (gs : list Matrix) (packed : list N) : list ElemType :=
  packed ≫= position_data gs.

(** A gradient holds as many elements as its shape says. *)
Definition well_formed (g : Matrix) : Prop :=
  length (Data g) = N.to_nat (GetNumElements g).

Lemma pack_gradients_Ok a gs packed o b :
  m_aggregationBuffer a = Some b →
  (∀ i, i ∈ packed → ∃ g, gs !! N.to_nat i = Some g ∧ well_formed g) →
  (N.to_nat o + length (packed_data gs packed) ≤ length (Data b))%nat →
  o + N.of_nat (length (packed_data gs packed)) < SIZE_MOD →
  pack_gradients a gs packed o =
  Ok (set_aggregationBuffer
        (Some (with_Data b
                 (take (N.to_nat o) (Data b) ++ packed_data gs packed
                  ++ drop (N.to_nat o + length (packed_data gs packed)) (Data b)))) a).
Proof.
  revert a o b. induction packed as [|i packed IH]; intros a o b Hb Hwf Hfit Hmod.
  - simpl. rewrite Nat.add_0_r, take_drop. f_equal. destruct a, b; simpl in *.
    by rewrite Hb.
  - destruct (Hwf i) as (g & Hg & Hlen); [left|]. unfold well_formed in Hlen.
    assert (Hpd : packed_data gs (i :: packed) = Data g ++ packed_data gs packed).
    { unfold packed_data. rewrite bind_cons. unfold position_data at 1. by rewrite Hg. }
    rewrite Hpd in *. rewrite length_app in Hfit, Hmod.
    cbn [pack_gradients]. unfold at_index. rewrite Hg, Hb. cbn [bind deref].
    unfold AssignColumnSlice.
    rewrite (proj2 (Nat.leb_le _ _)) by lia. rewrite (proj2 (Nat.eqb_eq _ _)) by done.
    cbn [andb bind].
    assert (Ho : size_add o (GetNumElements g) = o + GetNumElements g).
    { unfold size_add. apply N.mod_small. lia. }
    rewrite Ho.
    match goal with
    | |- context [set_aggregationBuffer (Some ?b1) a] => rewrite (IH _ _ b1)
    end.
    + f_equal. apply aggregator_ext; members; try done.
      unfold with_Data. cbn [GetNumRows GetNumCols GetDeviceId GetMatrixType Data].
      do 2 f_equal. rewrite N2Nat.inj_add, <- Hlen.
      rewrite (app_assoc (take (N.to_nat o) (Data b)) (Data g)).
      rewrite take_app_length' by (rewrite length_app, length_take; lia).
      rewrite (drop_app_add' _ _ (N.to_nat o + length (Data g)))
        by (rewrite length_app, length_take; lia).
      rewrite drop_drop, length_app, <- !app_assoc. do 4 f_equal. lia.
    + done.
    + intros i' Hi'. apply Hwf. by right.
    + cbn [Data with_Data]. rewrite !length_app, length_take, length_drop. lia.
    + lia.
Qed.

Lemma elements_insert gs i g d j :
  gs !! N.to_nat i = Some g →
  elements (<[N.to_nat i := with_Data g d]> gs) j = elements gs j.
Proof.
  intros Hg. unfold elements. destruct (decide (N.to_nat i = N.to_nat j)) as [E|E].
  - rewrite <- E, list_lookup_insert_eq by (by apply lookup_lt_Some in Hg). by rewrite Hg.
  - by rewrite list_lookup_insert_ne.
Qed.

(** Unpacking leaves at each packed position the slice of the buffer at
    its offset, and the other positions as they are. *)
Lemma unpack_gradients_Ok a gs packed o b :
  m_aggregationBuffer a = Some b →
  NoDup packed →
  (∀ i, i ∈ packed → is_Some (gs !! N.to_nat i)) →
  (N.to_nat o + sum_list (elements gs <$> packed) ≤ length (Data b))%nat →
  o + N.of_nat (sum_list (elements gs <$> packed)) < SIZE_MOD →
  ∃ gs', unpack_gradients a gs packed o = Ok gs'
    ∧ length gs' = length gs
    ∧ (∀ k i g, packed !! k = Some i → gs !! N.to_nat i = Some g →
         gs' !! N.to_nat i =
         Some (with_Data g
                 (take (elements gs i)
                    (drop (N.to_nat o + sum_list (elements gs <$> take k packed))
                       (Data b)))))
    ∧ (∀ j, (∀ i, i ∈ packed → N.to_nat i ≠ j) → gs' !! j = gs !! j).
Proof.
  intros Hb. revert gs o.
  induction packed as [|i packed IH]; intros gs o Hnd Hdef Hfit Hmod.
  - exists gs. split; [done|]. split; [done|]. split; [|done].
    intros k i g Hk. by rewrite lookup_nil in Hk.
  - apply NoDup_cons in Hnd as [Hi Hnd].
    destruct (Hdef i) as [g Hg]; [left|].
    rewrite fmap_cons in Hfit, Hmod. cbn [sum_list sum_list_with id] in Hfit, Hmod.
    assert (He : elements gs i = N.to_nat (GetNumElements g))
      by (unfold elements; by rewrite Hg).
    cbn [unpack_gradients]. unfold at_index. rewrite Hg, Hb. cbn [bind deref].
    unfold ColumnSlice. rewrite (proj2 (Nat.leb_le _ _)) by lia. cbn [bind].
    assert (Ho : size_add o (GetNumElements g) = o + GetNumElements g).
    { unfold size_add. apply N.mod_small. lia. }
    rewrite Ho.
    set (g' := with_Data g (take (N.to_nat (GetNumElements g)) (drop (N.to_nat o) (Data b)))).
    assert (Hel : elements (<[N.to_nat i := g']> gs) <$> packed = elements gs <$> packed).
    { apply list_fmap_ext. intros ? j _. by apply elements_insert. }
    destruct (IH (<[N.to_nat i := g']> gs) (o + GetNumElements g)) as (gs' & E & Hl & Hk & Hj).
    + done.
    + intros i' Hi'. apply lookup_lt_is_Some. rewrite length_insert.
      apply lookup_lt_is_Some, Hdef. by right.
    + rewrite Hel. lia.
    + rewrite Hel. lia.
    + exists gs'. split; [done|]. split; [by rewrite Hl, length_insert|]. split.
      * intros [|k] i' g0 Hi' Hg0; simpl in Hi'.
        -- injection Hi' as <-. assert (g0 = g) as -> by congruence.
           rewrite Hj.
           ++ rewrite list_lookup_insert_eq by (by apply lookup_lt_Some in Hg).
              cbn [take fmap list_fmap sum_list sum_list_with id]. by rewrite Nat.add_0_r, He.
           ++ intros i' Hi' Heq. apply N2Nat.inj in Heq. by subst.
        -- assert (i' ≠ i) by (intros ->; by apply list_elem_of_lookup_2 in Hi').
           rewrite (Hk k i' g0); [|done|by rewrite list_lookup_insert_ne by lia].
           unfold g' in *. rewrite elements_insert by done.
           do 3 f_equal. rewrite firstn_cons, fmap_cons.
           cbn [sum_list sum_list_with id].
           f_equal. rewrite !fmap_take, Hel, N2Nat.inj_add, He. lia.
      * intros j Hj'. rewrite Hj.
        -- apply list_lookup_insert_ne. apply Hj'. by left.
        -- intros i' Hi'. apply Hj'. by right.
Qed.

(** *** The header rendezvous *)

(** The rank whose header the receive slot [j] of this rank waits for. *)
Definition source_of (a : SimpleDistGradAggregator) (j : nat) : N :=
  if MyRank a <=? N.of_nat j then N.of_nat j + 1 else N.of_nat j.

Lemma post_receives_Ok a tag trace :
  (N.to_nat (size_sub (NumProc a) 1) ≤ length (m_recvHeaders a))%nat →
  post_receives a tag trace =
  Ok (map (λ j, Some (source_of a j, tag)) (seq 0 (N.to_nat (size_sub (NumProc a) 1))),
      trace ++ map (λ j, call_Irecv j (source_of a j) tag)
                 (seq 0 (N.to_nat (size_sub (NumProc a) 1)))).
Proof.
  intros Hlen. unfold post_receives.
  remember (N.to_nat (size_sub (NumProc a) 1)) as n eqn:En. clear En.
  set (F := λ j : nat, Some (source_of a j, tag)).
  set (G := λ j : nat, call_Irecv j (source_of a j) tag).
  destruct (foldl_inv
              (λ (st : list RecvRequest * list Call) (j : nat),
                 let source := if MyRank a <=? N.of_nat j then N.of_nat j + 1 else N.of_nat j in
                 do _ <- at_index "m_recvHeaders[j]" (m_recvHeaders a) (N.of_nat j);
                 Ok (<[j := Some (source, tag)]> st.1, st.2 ++ [call_Irecv j source tag]))
              (λ k st, (k ≤ n)%nat
                       ∧ st = (map F (seq 0 k) ++ replicate (n - k) None,
                               trace ++ map G (seq 0 k)))
              (seq 0 n) 0%nat (replicate n None, trace))
    as (st & E & _ & ->).
  - intros k x st Hx [Hk ->]. apply lookup_seq in Hx as [-> Hx]. cbn [Nat.add fst snd].
    unfold at_index. rewrite Nat2N.id.
    destruct (lookup_lt_is_Some_2 (m_recvHeaders a) k) as [h Hh]; [lia|]. rewrite Hh.
    cbn [bind]. eexists. split; [reflexivity|]. split; [lia|].
    rewrite seq_S, !map_app, <- app_assoc. cbn [map app Nat.add]. f_equal.
    rewrite insert_app_r_alt by (rewrite length_map, length_seq; lia).
    rewrite length_map, length_seq, Nat.sub_diag.
    replace (n - k)%nat with (S (n - S k)) by lia. by rewrite <- app_assoc.
  - simpl. rewrite Nat.sub_0_r, app_nil_r. split; [lia | done].
  - cbv beta zeta in E. rewrite length_seq, Nat.sub_diag in *. simpl in *.
    rewrite app_nil_r in E. exact E.
Qed.

Lemma first_ready_Some f reqs cands j h :
  first_ready f reqs cands = Some (j, h) →
  j ∈ cands ∧ reqs !! j ≫= deliverable f = Some h.
Proof.
  induction cands as [|c cands IH]; [done|]. simpl.
  destruct (reqs !! c ≫= deliverable f) as [h'|] eqn:Ec.
  - intros [= <- <-]. split; [left | done].
  - intros H. destruct (IH H) as [Hj Hh]. split; [by right | done].
Qed.

Lemma first_ready_None f reqs cands j :
  first_ready f reqs cands = None → j ∈ cands → reqs !! j ≫= deliverable f = None.
Proof.
  induction cands as [|c cands IH]; [by intros _ ?%elem_of_nil|]. simpl.
  destruct (reqs !! c ≫= deliverable f) as [h'|] eqn:Ec; [done|].
  intros H [->|Hj]%elem_of_cons; [done | by apply IH].
Qed.

(** The slots in the order in which the wait-any loop completes them. *)
Fixpoint arrival (fuel : nat) (f : Fabric) (requests : list RecvRequest) : list nat :=
  match fuel with
  | O => []
  | S fuel' =>
    match first_ready f requests (completion_order f ++ seq 0 (length requests)) with
    | Some (j, _) => j :: arrival fuel' f (<[j := None]> requests)
    | None => []
    end
  end.


(** The wait-any loop of the main rank: when every receive still posted
    can complete, the loop folds each of their headers into the local one,
    once, in the order of completion. *)
Lemma wait_headers_Ok f (hdr : nat → DistGradHeader) fuel a reqs h trace active :
  NoDup active → length active = fuel →
  (∀ j, j ∈ active → reqs !! j ≫= deliverable f = Some (hdr j)
                     ∧ (j < length (m_recvHeaders a))%nat) →
  (∀ j, j ∉ active → reqs !! j ≫= deliverable f = None) →
  ∃ hs' trace',
    arrival fuel f reqs ≡ₚ active
    ∧ wait_headers fuel f a reqs h trace =
      Ok (set_recvHeaders hs' a,
          foldl (λ acc j, Aggregate acc (hdr j) true) h (arrival fuel f reqs), trace')
    ∧ length hs' = length (m_recvHeaders a).
Proof.
  revert a reqs h trace active.
  induction fuel as [|fuel IH]; intros a reqs h trace active Hnd Hlen Hact Hin.
  - destruct active; [|done]. exists (m_recvHeaders a), trace.
    split; [done|]. split; [|done]. simpl. by destruct a.
  - destruct active as [|j0 active0] eqn:Eact; [done|]. rewrite <- Eact in *.
    assert (Hj0 : j0 ∈ active) by (rewrite Eact; left).
    destruct (Hact j0 Hj0) as [Hd0 _].
    destruct (reqs !! j0) as [r0|] eqn:Er0; [|done]. cbn [mbind option_bind] in Hd0.
    cbn [wait_headers arrival]. unfold Waitany.
    destruct (forallb _ reqs) eqn:Eall.
    { exfalso. rewrite forallb_forall in Eall.
      specialize (Eall r0 (proj1 (list_elem_of_In _ _) (list_elem_of_lookup_2 _ _ _ Er0))).
      destruct r0 as [rq|]; [|done]. rewrite bool_decide_eq_true_2 in Eall; [done | by eexists]. }
    destruct (first_ready f reqs _) as [[j h']|] eqn:Efr.
    2:{ exfalso. eapply first_ready_None in Efr.
        - by rewrite Er0 in Efr; cbn [mbind option_bind] in Efr; rewrite Hd0 in Efr.
        - apply elem_of_app. right. apply elem_of_seq.
          apply lookup_lt_Some in Er0. lia. }
    apply first_ready_Some in Efr as [_ Hj].
    assert (Hja : j ∈ active).
    { destruct (decide (j ∈ active)) as [|Hn]; [done|]. rewrite (Hin j Hn) in Hj. done. }
    destruct (Hact j Hja) as [Hdj Hlj]. assert (h' = hdr j) as -> by congruence.
    cbn [bind]. members. unfold at_index. rewrite Nat2N.id, list_lookup_insert_eq by done.
    cbn [bind].
    apply elem_of_Permutation in Hja as [active1 Hperm].
    rewrite Hperm in Hnd. apply NoDup_cons in Hnd as [Hj1 Hnd1].
    assert (Hl1 : length active1 = fuel).
    { apply Permutation_length in Hperm. simpl in Hperm. lia. }
    destruct (IH (set_recvHeaders (<[j := hdr j]> (m_recvHeaders a)) a)
                (<[j := None]> reqs) (Aggregate h (hdr j) true)
                (trace ++ [call_Waitany (Some j)]) active1 Hnd1 Hl1)
      as (hs' & trace' & Hp & E & Hl').
    + intros j' Hj'. assert (j' ≠ j) by (by intros ->).
      rewrite list_lookup_insert_ne by done. members. rewrite length_insert.
      apply Hact. rewrite Hperm. by right.
    + intros j' Hj'. destruct (decide (j' = j)) as [->|Hne].
      * destruct (reqs !! j) as [rj|] eqn:Erj; [|done].
        rewrite list_lookup_insert_eq by (by apply lookup_lt_Some in Erj). done.
      * rewrite list_lookup_insert_ne by done. apply Hin. rewrite Hperm.
        by intros [?|?]%elem_of_cons.
    + exists hs', trace'. split; [by rewrite Hperm, Hp|].
      split; [exact E|]. members. by rewrite length_insert in Hl'.
Qed.


Section header_sum.

Hypothesis dadd_swap : ∀ a x y, dadd (dadd a x) y = dadd (dadd a y) x.



End header_sum.

(** *** The pipeline of one rank *)


(** The packed buffer once the packed gradients are copied into it. *)
Definition packed_buffer (a : SimpleDistGradAggregator) (gs : list Matrix)
  : list ElemType :=
  match m_aggregationBuffer a with
  | Some b => packed_data gs (m_packedGradientsIndex a)
              ++ drop (length (packed_data gs (m_packedGradientsIndex a))) (Data b)
  | None => []
  end.







Lemma length_packed_data gs packed :
  Forall well_formed gs →
  length (packed_data gs packed) = sum_list (elements gs <$> packed).
Proof.
  intros Hwf. induction packed as [|i packed IH]; [done|].
  unfold packed_data in *. rewrite bind_cons, length_app, IH, fmap_cons.
  cbn [sum_list sum_list_with id]. f_equal. unfold position_data, elements.
  destruct (gs !! N.to_nat i) as [g|] eqn:Eg; [|done].
  by apply (proj1 (Forall_lookup _ _) Hwf) in Eg.
Qed.








Definition receive_requests (a : SimpleDistGradAggregator) (tag : Z) : list RecvRequest :=
  if IsMainNode (m_mpi a)
  then map (λ j, Some (source_of a j, tag)) (seq 0 (N.to_nat (size_sub (NumProc a) 1)))
  else replicate (N.to_nat (size_sub (NumProc a) 1)) None.


Lemma with_Data_with_Data (g : Matrix) d d' : with_Data (with_Data g d) d' = with_Data g d'.
Proof. done. Qed.

Lemma with_Data_id (g : Matrix) : with_Data g (Data g) = g.
Proof. by destruct g. Qed.

Lemma set_recvHeaders_id a : set_recvHeaders (m_recvHeaders a) a = a.
Proof. by destruct a. Qed.



(** The header a rank holds after the rendezvous: on the main rank the
    fold of the headers received, in the order of their arrival; elsewhere
    the header the main rank broadcasts. *)
Lemma header_rendezvous f a h trace tag (hdr : nat → DistGradHeader) (H : DistGradHeader) :
  (IsMainNode (m_mpi a) = true →
     (N.to_nat (size_sub (NumProc a) 1) ≤ length (m_recvHeaders a))%nat
     ∧ ∀ j, (j < N.to_nat (size_sub (NumProc a) 1))%nat →
         peer_send f (source_of a j) = Some (tag, hdr j)) →
  (IsMainNode (m_mpi a) = false → bcast_header f (MainNodeRank (m_mpi a)) = Some H) →
  ∃ hs' h1 t1 h',
    (if IsMainNode (m_mpi a)
     then wait_headers (N.to_nat (size_sub (NumProc a) 1)) f a
            (receive_requests a tag) h trace
     else Ok (a, h, trace)) = Ok (set_recvHeaders hs' a, h1, t1)
    ∧ Bcast f (set_recvHeaders hs' a) h1 = Ok h'
    ∧ (if IsMainNode (m_mpi a)
       then arrival (N.to_nat (size_sub (NumProc a) 1)) f (receive_requests a tag)
              ≡ₚ seq 0 (N.to_nat (size_sub (NumProc a) 1))
            ∧ h' = foldl (λ acc j, Aggregate acc (hdr j) true) h
                     (arrival (N.to_nat (size_sub (NumProc a) 1)) f (receive_requests a tag))
       else h' = H).
Proof.
  intros Hmain Hpeer. unfold receive_requests, Bcast. members.
  destruct (IsMainNode (m_mpi a)) eqn:Em.
  - destruct (Hmain eq_refl) as [Hlen Hsend].
    set (n := N.to_nat (size_sub (NumProc a) 1)) in *.
    destruct (wait_headers_Ok f hdr n a
                (map (λ j, Some (source_of a j, tag)) (seq 0 n)) h trace (seq 0 n))
      as (hs' & t' & Hp & E & Hl).
    + apply NoDup_seq.
    + apply length_seq.
    + intros j Hj%elem_of_seq. split; [|lia].
      rewrite list_lookup_fmap, lookup_seq_lt by lia. cbn [fmap option_fmap option_map mbind option_bind Nat.add deliverable].
      rewrite Hsend by lia. by rewrite Z.eqb_refl.
    + intros j Hj. rewrite list_lookup_fmap, lookup_seq_ge; [done|].
      rewrite elem_of_seq in Hj. lia.
    + eexists hs', _, t', _. split; [exact E|]. split; [done|]. by split.
  - exists (m_recvHeaders a), h, trace, H. rewrite set_recvHeaders_id.
    split; [done|]. rewrite (Hpeer eq_refl). by split.
Qed.

Lemma receive_requests_ext a b tag :
  m_mpi a = m_mpi b → receive_requests a tag = receive_requests b tag.
Proof. intros E. unfold receive_requests, source_of, NumProc, MyRank. by rewrite E. Qed.



(** ** The pipeline on a cluster *)








(** The slice of the packed buffer at the offset of a packed position is
    the gradient at that position. *)
Lemma packed_buffer_slice a gs k i b :
  m_aggregationBuffer a = Some b → Forall well_formed gs →
  m_packedGradientsIndex a !! k = Some i →
  take (elements gs i)
    (drop (sum_list (elements gs <$> take k (m_packedGradientsIndex a)))
       (packed_buffer a gs))
  = position_data gs i.
Proof.
  intros Hb Hwf Hk. unfold packed_buffer. rewrite Hb.
  rewrite <- (length_packed_data gs (take k _)) by done.
  rewrite <- (take_drop_middle _ _ _ Hk) at 2. unfold packed_data at 2.
  rewrite bind_app, bind_cons, <- !app_assoc.
  rewrite drop_app_length' by done.
  apply take_app_length'. unfold elements, position_data.
  destruct (gs !! N.to_nat i) as [g|] eqn:Eg; [|done].
  by apply (proj1 (Forall_lookup _ _) Hwf) in Eg.
Qed.









(** *** Deciding readiness *)






(** ** The sums of the specification *)






(** ** The first call without a packed buffer *)








(** * Further properties of the aggregator *)

(** ** Packing and unpacking *)

(** Unpacking what was just packed gives every gradient back: the two
    copy loops of the pipeline are inverse to each other. *)
Theorem unpack_pack_gradients a gs b :
  m_aggregationBuffer a = Some b →
  NoDup (m_packedGradientsIndex a) →
  (∀ i, i ∈ m_packedGradientsIndex a → is_Some (gs !! N.to_nat i)) →
  Forall well_formed gs →
  (length (packed_data gs (m_packedGradientsIndex a)) ≤ length (Data b))%nat →
  N.of_nat (length (packed_data gs (m_packedGradientsIndex a))) < SIZE_MOD →
  ∃ a', pack_gradients a gs (m_packedGradientsIndex a) 0 = Ok a'
    ∧ unpack_gradients a' gs (m_packedGradientsIndex a) 0 = Ok gs.
Proof.
  intros Hb Hnd Hin Hwf Hfit Hmod.
  rewrite (pack_gradients_Ok a gs _ 0 b Hb); [| |done|lia].
  2:{ intros i Hi. destruct (Hin i Hi) as [g Hg]. exists g. split; [done|].
      by apply (proj1 (Forall_lookup _ _) Hwf) in Hg. }
  eexists. split; [done|].
  change (N.to_nat 0) with 0%nat. rewrite take_0. cbn [Nat.add app].
  assert (HD : packed_data gs (m_packedGradientsIndex a)
               ++ drop (length (packed_data gs (m_packedGradientsIndex a))) (Data b)
               = packed_buffer a gs) by (unfold packed_buffer; by rewrite Hb).
  rewrite HD.
  set (b' := with_Data b (packed_buffer a gs)).
  assert (Hlen : length (packed_buffer a gs) = length (Data b)).
  { rewrite <- HD, length_app, length_drop. lia. }
  destruct (unpack_gradients_Ok (set_aggregationBuffer (Some b') a) gs
              (m_packedGradientsIndex a) 0 b') as (gs' & E & Hl & Hp & Hs).
  - done.
  - done.
  - done.
  - rewrite <- length_packed_data by done. cbn [Data b' with_Data]. rewrite Hlen. simpl. lia.
  - rewrite <- length_packed_data by done. lia.
  - rewrite E. f_equal. apply list_eq. intros j.
    destruct (decide (N.of_nat j ∈ m_packedGradientsIndex a)) as [Hj|Hj].
    + destruct (Hin _ Hj) as [g Hg]. apply list_elem_of_lookup in Hj as [k Hk].
      specialize (Hp k _ g Hk Hg). rewrite Nat2N.id in Hp, Hg.
      rewrite Hp, Hg. f_equal. change (N.to_nat 0) with 0%nat. cbn [Nat.add Data b' with_Data].
      rewrite (packed_buffer_slice a gs k _ b Hb Hwf Hk).
      unfold position_data. rewrite Nat2N.id, Hg. apply with_Data_id.
    + apply Hs. intros i Hi <-. by rewrite N2Nat.id in Hj.
Qed.

(** ** Errors of a call *)

(** The classification stops at the first gradient that is not dense. *)
Lemma ResetState_classify_sparse a deviceId gradients i n :
  (∃ pg, pg ∈ gradients ∧ GetMatrixType pg.2 ≠ DENSE) →
  ResetState_classify a deviceId gradients i n =
  Throw (RuntimeError
           "Gradient aggregation for sparse gradient matrices is currently unsupported!").
Proof.
  revert a i n. induction gradients as [|[p g] rest IH]; intros a i n [pg [Hin Hs]].
  - by apply elem_of_nil in Hin.
  - cbn [ResetState_classify].
    destruct (decide (GetMatrixType g = DENSE)) as [Hd|Hd].
    + apply elem_of_cons in Hin as [->|Hin]; [done|].
      destruct (negb (m_useAsyncAggregation a) && _);
        rewrite bool_decide_eq_false_2 by (by intros ?); apply IH; by exists pg.
    + destruct (negb (m_useAsyncAggregation a) && _);
        by rewrite bool_decide_eq_true_2.
Qed.

(** The first call of a rank among several refuses a gradient list that
    holds a sparse gradient, wherever it stands in the list. *)
Theorem AggregateGradients_sparse env a gradients headerCPU resetState :
  NumNodesInUse (m_mpi a) ≠ 1 → m_initialized a = false →
  (∃ pg, pg ∈ gradients ∧ GetMatrixType pg.2 ≠ DENSE) →
  AggregateGradients env a gradients headerCPU resetState =
  Throw (RuntimeError
           "Gradient aggregation for sparse gradient matrices is currently unsupported!").
Proof.
  intros HW Hini Hs. unfold AggregateGradients.
  rewrite (proj2 (N.eqb_neq _ _) HW). unfold AggregateGradients_prologue.
  set (a0 := match m_nccl a with Some _ => a | None => _ end).
  assert (H0 : m_initialized a0 = false ∧ is_Some (m_nccl a0)).
  { unfold a0. destruct (m_nccl a) eqn:En; [by rewrite En | done]. }
  destruct H0 as [Hini0 [nccl Hn]]. clearbody a0.
  unfold ResetState. rewrite Hini0. cbn [negb].
  destruct gradients as [|pg0 rest] eqn:Eg;
    [destruct Hs as [? [[]%elem_of_nil _]]|]. rewrite <- Eg in *.
  assert (E0 : at_index "gradients[0]" gradients 0 = Ok pg0) by (by rewrite Eg).
  rewrite E0. cbn [bind].
  rewrite (ShouldCopyDataToCPU_stages _ _ nccl) by done. cbn [bind].
  by rewrite ResetState_classify_sparse.
Qed.

(** A rank among several reads [gradients[0]] whatever the list holds: an
    empty list is read past its end, on the first call and on every call
    of the sync mode. *)
Theorem AggregateGradients_no_gradients env a headerCPU resetState :
  NumNodesInUse (m_mpi a) ≠ 1 →
  m_initialized a = false ∨ m_useAsyncAggregation a = false →
  AggregateGradients env a [] headerCPU resetState = Throw (Fault "gradients[0]").
Proof.
  intros HW Hcase. unfold AggregateGradients.
  rewrite (proj2 (N.eqb_neq _ _) HW). unfold AggregateGradients_prologue.
  set (a0 := match m_nccl a with Some _ => a | None => _ end).
  assert (H0 : m_initialized a0 = m_initialized a
               ∧ m_useAsyncAggregation a0 = m_useAsyncAggregation a).
  { unfold a0. by destruct (m_nccl a). }
  destruct H0 as [Hini0 Hasync0]. clearbody a0.
  unfold ResetState. destruct (m_initialized a0) eqn:Ei; cbn [negb]; [|done].
  destruct Hcase as [Hini|Hsync]; [congruence|].
  rewrite Hasync0, Hsync. cbn [andb].
  assert (E : (if resetState then Ok a0 else Ok a0) = Ok a0) by (by destruct resetState).
  rewrite E. cbn [bind]. members. by rewrite Hasync0, Hsync.
Qed.

(** ** What the pipeline leaves alone *)

(** A loop that returns keeps what each of its steps keeps. *)
Lemma foldl_Ok_inv {St X : Type} (step : St → X → result St) (I : St → Prop)
    (xs : list X) s s' :
  (∀ x s s', x ∈ xs → step s x = Ok s' → I s → I s') →
  I s → foldl (λ r x, do s <- r; step s x) (Ok s) xs = Ok s' → I s'.
Proof.
  revert s'. induction xs as [|x xs IH] using rev_ind; intros s' Hstep HI H.
  - by injection H as <-.
  - rewrite foldl_app in H. cbn [foldl] in H. inv_bind H.
    apply (Hstep x x0 s'); [apply elem_of_app; right; by left | done |].
    apply IH; [|done|done]. intros y s1 s2 Hy. apply Hstep, elem_of_app. by left.
Qed.

(** [a'] has the configuration, the partition and the shadows of [a], and
    as many receive headers. *)
Definition preserved (a a' : SimpleDistGradAggregator) : Prop :=
  m_mpi a' = m_mpi a ∧ m_allocator a' = m_allocator a
  ∧ m_intermediateDistributedCPUBuffer1 a' = m_intermediateDistributedCPUBuffer1 a
  ∧ m_intermediateDistributedCPUBuffer2 a' = m_intermediateDistributedCPUBuffer2 a
  ∧ m_useAsyncAggregation a' = m_useAsyncAggregation a
  ∧ m_pendingAsyncAggregation a' = m_pendingAsyncAggregation a
  ∧ m_bufferedGradients a' = m_bufferedGradients a
  ∧ m_bufferedGradHeader a' = m_bufferedGradHeader a
  ∧ m_packThresholdSizeInBytes a' = m_packThresholdSizeInBytes a
  ∧ m_packedGradientsIndex a' = m_packedGradientsIndex a
  ∧ m_gradientIndexToAggregate a' = m_gradientIndexToAggregate a
  ∧ m_syncStatsTrace a' = m_syncStatsTrace a
  ∧ m_iterationCount a' = m_iterationCount a
  ∧ m_initialized a' = m_initialized a
  ∧ m_nccl a' = m_nccl a
  ∧ length (m_recvHeaders a') = length (m_recvHeaders a)
  ∧ length (m_intermediateCPUBuffers a') = length (m_intermediateCPUBuffers a)
  ∧ length (m_gpuDataTransferers a') = length (m_gpuDataTransferers a).

(** [g'] is [g] up to its elements. *)
Definition same_shape (g g' : Matrix) : Prop := with_Data g (Data g') = g'.

(** What a step of the pipeline keeps of the object and of the gradients. *)
Definition framed (a : SimpleDistGradAggregator) (gs : list Matrix)
    (a' : SimpleDistGradAggregator) (gs' : list Matrix) : Prop :=
  preserved a a' ∧ Forall2 same_shape gs gs'.

Lemma preserved_refl a : preserved a a.
Proof. by repeat split. Qed.

Lemma preserved_trans a b c : preserved a b → preserved b c → preserved a c.
Proof. unfold preserved. intros Hab Hbc. repeat split; intuition congruence. Qed.

Lemma same_shape_refl g : same_shape g g.
Proof. apply with_Data_id. Qed.

Lemma same_shape_with_Data g d : same_shape g (with_Data g d).
Proof. done. Qed.

Lemma same_shape_trans g1 g2 g3 : same_shape g1 g2 → same_shape g2 g3 → same_shape g1 g3.
Proof. unfold same_shape. intros <- <-. done. Qed.

Lemma same_shapes_refl gs : Forall2 same_shape gs gs.
Proof. apply Forall2_same_length_lookup_2; [done|]. intros i g g' H H'.
  assert (g = g') as -> by congruence. apply same_shape_refl. Qed.

Lemma same_shapes_trans gs1 gs2 gs3 :
  Forall2 same_shape gs1 gs2 → Forall2 same_shape gs2 gs3 → Forall2 same_shape gs1 gs3.
Proof.
  intros H12. revert gs3. induction H12 as [|g1 g2 gs1 gs2 Hg H12 IH]; intros gs3 H23.
  - by inversion H23.
  - inversion H23 as [|? g3 ? gs3' Hg' H23']; subst. constructor.
    + by eapply same_shape_trans.
    + by apply IH.
Qed.

Lemma same_shapes_insert gs gs' i g d :
  Forall2 same_shape gs gs' → gs' !! i = Some g →
  Forall2 same_shape gs (<[i := with_Data g d]> gs').
Proof.
  intros H Hg. eapply same_shapes_trans; [exact H|].
  apply Forall2_same_length_lookup_2; [by rewrite length_insert|].
  intros j x y Hx Hy. destruct (decide (i = j)) as [->|Hne].
  - rewrite list_lookup_insert_eq in Hy by (by eapply lookup_lt_Some).
    injection Hy as <-. assert (x = g) as -> by congruence. apply same_shape_with_Data.
  - rewrite list_lookup_insert_ne in Hy by done.
    assert (x = y) as -> by congruence. apply same_shape_refl.
Qed.

Lemma framed_refl a gs : framed a gs a gs.
Proof. split; [apply preserved_refl | apply same_shapes_refl]. Qed.

Lemma framed_trans a1 gs1 a2 gs2 a3 gs3 :
  framed a1 gs1 a2 gs2 → framed a2 gs2 a3 gs3 → framed a1 gs1 a3 gs3.
Proof.
  intros [H1 H2] [H3 H4]. split; [by eapply preserved_trans | by eapply same_shapes_trans].
Qed.

Ltac keeps := unfold preserved; members; rewrite ?length_insert; by repeat split.

Lemma store_entry_framed a gs i d a' gs' :
  store_entry a gs i d = Ok (a', gs') → framed a gs a' gs'.
Proof.
  unfold store_entry, at_index. intros H. destruct (i =? NONE).
  - inv_bind H. injection H as <- <-. split; [keeps | apply same_shapes_refl].
  - destruct (gs !! N.to_nat i) as [g|] eqn:Eg; [|done]. cbn [bind] in H.
    injection H as <- <-. split; [apply preserved_refl|].
    apply same_shapes_insert; [apply same_shapes_refl | done].
Qed.

(** A loop that starts from an error ends in it. *)
Lemma foldl_Throw {St X : Type} (step : St → X → result St) (xs : list X) e s' :
  foldl (λ r x, do s <- r; step s x) (Throw e) xs = Ok s' → False.
Proof.
  revert s'. induction xs as [|x xs IH] using rev_ind; intros s'; [done|].
  rewrite foldl_app. cbn [foldl]. intros H. inv_bind H. by apply IH in E.
Qed.

Lemma WaitForCopyGPUToCPUAsync_preserved a k a' :
  WaitForCopyGPUToCPUAsync a k = Ok a' → preserved a a'.
Proof.
  unfold WaitForCopyGPUToCPUAsync. intros H. inv_bind H.
  destruct (fetch_in_flight x); injection H as <-; keeps.
Qed.

Lemma WaitForCopyCPUToGPUAsync_framed a gs k a' gs' :
  WaitForCopyCPUToGPUAsync a gs k = Ok (a', gs') → framed a gs a' gs'.
Proof.
  unfold WaitForCopyCPUToGPUAsync. intros H. inv_bind H.
  destruct (assign_in_flight x) as [[e d]|].
  - apply store_entry_framed in H. eapply framed_trans; [|exact H].
    split; [keeps | apply same_shapes_refl].
  - injection H as <- <-. apply framed_refl.
Qed.

Lemma staged_first_preserved a gs trace s :
  staged_first a gs trace = Ok s → preserved a (st_agg s).
Proof.
  unfold staged_first. intros H. do 3 inv_bind H. injection H as <-. cbn [st_agg]. keeps.
Qed.

Lemma staged_fetch_preserved gs n s i a' next copy :
  staged_fetch gs n s i = Ok (a', next, copy) → preserved (st_agg s) a'.
Proof.
  unfold staged_fetch. intros H. destruct (i <? n)%nat.
  - do 4 inv_bind H. injection H as <- <- <-. keeps.
  - injection H as <- <- <-. apply preserved_refl.
Qed.

Lemma staged_step_preserved f gs n s i s' :
  staged_step f gs n s i = Ok s' → preserved (st_agg s) (st_agg s').
Proof.
  unfold staged_step. intros H. inv_bind H. destruct x as [[a1 next] copy].
  apply staged_fetch_preserved in E. inv_bind H.
  apply WaitForCopyGPUToCPUAsync_preserved in E0. do 3 inv_bind H.
  injection H as <-. cbn [st_agg].
  eapply preserved_trans; [exact E|]. eapply preserved_trans; [exact E0|]. keeps.
Qed.

Lemma staged_pipeline_preserved f a gs trace s :
  staged_pipeline f a gs trace = Ok s → preserved a (st_agg s).
Proof.
  unfold staged_pipeline. intros H.
  destruct (staged_first a gs trace) as [s0|] eqn:E0.
  - apply staged_first_preserved in E0.
    eapply (foldl_Ok_inv _ (λ s, preserved a (st_agg s))); [|exact E0|exact H].
    intros i s1 s2 _ Hs HI. eapply preserved_trans; [exact HI|].
    by eapply staged_step_preserved.
  - by apply foldl_Throw in H.
Qed.

Lemma direct_step_framed f dev s i s' :
  direct_step f dev s i = Ok s' →
  framed (di_agg s) (di_gradients s) (di_agg s') (di_gradients s').
Proof.
  unfold direct_step. intros H. inv_bind H.
  destruct (negb (UseGpuGdr _)); [|destruct (negb (dev =? CPUDEVICE)%Z)].
  - injection H as <-. apply framed_refl.
  - inv_bind H. injection H as <-. destruct x0 as [a1 gs1]. by apply store_entry_framed in E0.
  - injection H as <-. apply framed_refl.
Qed.

Lemma direct_pipeline_framed f dev a gs trace s :
  direct_pipeline f dev a gs trace = Ok s → framed a gs (di_agg s) (di_gradients s).
Proof.
  unfold direct_pipeline. intros H.
  eapply (foldl_Ok_inv _ (λ s, framed a gs (di_agg s) (di_gradients s))); [| |exact H].
  - intros i s1 s2 _ Hs HI. eapply framed_trans; [exact HI|]. by eapply direct_step_framed.
  - apply framed_refl.
Qed.

Lemma Wait_allreduce_framed s i s' :
  Wait_allreduce s i = Ok s' →
  framed (di_agg s) (di_gradients s) (di_agg s') (di_gradients s').
Proof.
  unfold Wait_allreduce. intros H. inv_bind H. destruct x as [[e d]|]; [|done].
  inv_bind H. injection H as <-. destruct x as [a1 gs1]. by apply store_entry_framed in E0.
Qed.

Lemma nccl_step_framed f trace a gs bufs i a' gs' bufs' :
  nccl_step f trace (a, gs, bufs) i = Ok (a', gs', bufs') → framed a gs a' gs'.
Proof.
  unfold nccl_step. intros H. do 2 inv_bind H. injection H as <- <- <-.
  destruct x0 as [a1 gs1]. by apply store_entry_framed in E0.
Qed.

Lemma nccl_pipeline_framed f a gs trace a' gs' t' :
  nccl_pipeline f a gs trace = Ok (a', gs', t') → framed a gs a' gs'.
Proof.
  unfold nccl_pipeline. intros H. inv_bind H. destruct x as [[a1 gs1] bufs].
  injection H as <- <- <-.
  eapply (foldl_Ok_inv _ (λ s, framed a gs s.1.1 s.1.2)) in E; [done| |apply framed_refl].
  intros i [[a2 gs2] b2] [[a3 gs3] b3] _ Hs HI. cbn [fst snd] in *.
  eapply framed_trans; [exact HI|]. by eapply nccl_step_framed.
Qed.

Lemma reduce_gradients_framed f a gs dev trace s :
  reduce_gradients f a gs dev trace = Ok s → framed a gs (rd_agg s) (rd_gradients s).
Proof.
  unfold reduce_gradients. intros H. destruct (0 <? _)%nat.
  - inv_bind H. destruct (_ && _ && _); [|destruct (negb (IsSupported x))].
    + inv_bind H. injection H as <-. cbn [rd_agg rd_gradients].
      split; [by eapply staged_pipeline_preserved | apply same_shapes_refl].
    + inv_bind H. injection H as <-. by eapply direct_pipeline_framed.
    + inv_bind H. injection H as <-. destruct x0 as [[a1 gs1] t1].
      by eapply nccl_pipeline_framed.
  - injection H as <-. apply framed_refl.
Qed.

Lemma finish_transfers_framed dev s a' gs' t' :
  finish_transfers dev s = Ok (a', gs', t') → framed (rd_agg s) (rd_gradients s) a' gs'.
Proof.
  unfold finish_transfers. intros H. inv_bind H.
  destruct (IsSupported x); [|destruct (_ && _); [|destruct (negb _)]].
  - injection H as <- <- <-. apply framed_refl.
  - inv_bind H. injection H as <- <- <-.
    eapply (foldl_Ok_inv _ (λ p, framed (rd_agg s) (rd_gradients s) p.1 p.2)) in E0;
      [done| |apply framed_refl].
    intros i [a1 gs1] [a2 gs2] _ Hs HI. cbn [fst snd] in *.
    eapply framed_trans; [exact HI|]. by eapply WaitForCopyCPUToGPUAsync_framed.
  - inv_bind H. injection H as <- <- <-.
    eapply (foldl_Ok_inv _ (λ d, framed (rd_agg s) (rd_gradients s) (di_agg d)
                                   (di_gradients d))) in E0;
      [done| |apply framed_refl].
    intros i d1 d2 _ Hs HI. eapply framed_trans; [exact HI|].
    by eapply Wait_allreduce_framed.
  - injection H as <- <- <-. apply framed_refl.
Qed.

Lemma pack_gradients_preserved a gs packed o a' :
  pack_gradients a gs packed o = Ok a' → preserved a a'.
Proof.
  revert a o. induction packed as [|i packed IH]; intros a o H.
  - injection H as <-. apply preserved_refl.
  - cbn [pack_gradients] in H. do 3 inv_bind H. apply IH in H.
    eapply preserved_trans; [|exact H]. keeps.
Qed.

Lemma unpack_gradients_shapes a gs packed o gs' :
  unpack_gradients a gs packed o = Ok gs' → Forall2 same_shape gs gs'.
Proof.
  revert gs o. induction packed as [|i packed IH]; intros gs o H.
  - injection H as <-. apply same_shapes_refl.
  - cbn [unpack_gradients] in H. do 3 inv_bind H. apply IH in H.
    eapply same_shapes_trans; [|exact H].
    unfold at_index in E. destruct (gs !! N.to_nat i) as [g|] eqn:Eg; [|done].
    injection E as <-. apply same_shapes_insert; [apply same_shapes_refl | done].
Qed.

Lemma wait_headers_preserved fuel f a reqs h trace a' h' t' :
  wait_headers fuel f a reqs h trace = Ok (a', h', t') → preserved a a'.
Proof.
  revert a reqs h trace. induction fuel as [|fuel IH]; intros a reqs h trace H.
  - injection H as <- <- <-. apply preserved_refl.
  - cbn [wait_headers] in H. inv_bind H. destruct x as [[idx hd]|].
    + inv_bind H. apply IH in H. eapply preserved_trans; [|exact H]. keeps.
    + injection H as <- <- <-. apply preserved_refl.
Qed.

Lemma same_shapes_SetValue0 gs : Forall2 same_shape gs (map SetValue0 gs).
Proof.
  apply Forall2_same_length_lookup_2; [by rewrite length_map|].
  intros i g g' Hg Hg'. rewrite list_lookup_fmap, Hg in Hg'. by injection Hg' as <-.
Qed.

Lemma pipeline_reduce_framed f a gs h dev reqs s :
  pipeline_reduce f a gs h = Ok (dev, reqs, s) → framed a gs (rd_agg s) (rd_gradients s).
Proof.
  unfold pipeline_reduce. intros H. inv_bind H. inv_bind H.
  apply pack_gradients_preserved in E0. inv_bind H. destruct x1 as [rq t].
  inv_bind H. injection H as <- <- <-. apply reduce_gradients_framed in E2.
  eapply framed_trans; [|exact E2]. split; [done|].
  destruct (numSamples h =? 0); [apply same_shapes_SetValue0 | apply same_shapes_refl].
Qed.

Lemma pipeline_finish_framed f h dev reqs s a' gs' h' t' :
  pipeline_finish f h (dev, reqs, s) = Ok (a', gs', h', t') →
  framed (rd_agg s) (rd_gradients s) a' gs'.
Proof.
  unfold pipeline_finish. intros H. inv_bind H. destruct x as [[a1 h1] t1].
  inv_bind H. inv_bind H. destruct x0 as [[a2 gs2] t2]. inv_bind H.
  injection H as <- <- <- <-.
  apply finish_transfers_framed in E1. cbn [rd_agg rd_gradients] in E1.
  apply unpack_gradients_shapes in E2.
  assert (H1 : preserved (rd_agg s) a1).
  { destruct (IsMainNode _); [by eapply wait_headers_preserved|].
    injection E as <- <- <-. apply preserved_refl. }
  destruct E1 as [E1 E1']. split; [by eapply preserved_trans | by eapply same_shapes_trans].
Qed.

(** The pipeline changes of the object only the staging buffers, the
    transferers, the packed buffer and the content of the receive headers,
    never their number, and of a gradient only its elements. *)
Lemma AggregateGradientsImpl_framed f a gs h stats a' gs' h' t' :
  AggregateGradientsImpl f a gs h stats = Ok (a', gs', h', t') → framed a gs a' gs'.
Proof.
  unfold AggregateGradientsImpl. intros H. inv_bind H. destruct x as [[dev reqs] s].
  apply pipeline_reduce_framed in E. apply pipeline_finish_framed in H.
  by eapply framed_trans.
Qed.

(** ** The double buffering of the async mode *)

Lemma lookup_foldl_insert_ne (bg : gmap N Matrix) (l : list (N * Matrix)) p :
  p ∉ l.*1 → foldl (λ bg pm, <[pm.1 := pm.2]> bg) bg l !! p = bg !! p.
Proof.
  revert bg. induction l as [|[q m] l IH]; intros bg Hp; [done|].
  cbn [foldl fst snd]. rewrite fmap_cons in Hp. apply not_elem_of_cons in Hp as [Hne Hp].
  rewrite IH by done. by apply lookup_insert_ne.
Qed.

Lemma lookup_foldl_insert (bg : gmap N Matrix) (l : list (N * Matrix)) i p m :
  NoDup (l.*1) → l !! i = Some (p, m) →
  foldl (λ bg pm, <[pm.1 := pm.2]> bg) bg l !! p = Some m.
Proof.
  revert bg i. induction l as [|[q m'] l IH]; intros bg i Hnd Hi; [done|].
  rewrite fmap_cons in Hnd. apply NoDup_cons in Hnd as [Hq Hnd]. cbn [foldl fst snd].
  destruct i as [|i].
  - injection Hi as -> ->. rewrite lookup_foldl_insert_ne by done. apply lookup_insert_eq.
  - by apply (IH _ i).
Qed.

(** The swap in closed form: every gradient goes to its shadow, and the
    caller gets what the shadow held. *)
Lemma swap_buffered_closed a gs a' sw ng :
  NoDup (gs.*1) → swap_buffered a gs = Ok (a', sw, ng) →
  a' = set_bufferedGradients
         (foldl (λ bg pm, <[pm.1 := pm.2]> bg) (m_bufferedGradients a) gs) a
  ∧ ng = gs.*1
  ∧ Forall2 (λ pg s, s.1 = pg.1 ∧ m_bufferedGradients a !! pg.1 = Some s.2) gs sw.
Proof.
  revert a' sw ng. induction gs as [|pg gs IH] using rev_ind; intros a' sw ng Hnd H.
  - injection H as <- <- <-. split; [by destruct a|]. split; [done | constructor].
  - rewrite swap_buffered_snoc in H. inv_bind H. destruct x as [[a1 sw1] ng1].
    rewrite fmap_app in Hnd. apply NoDup_app in Hnd as (Hnd & Hdis & _).
    destruct (IH _ _ _ Hnd E) as (Ha1 & Hng1 & Hsw1). cbn [fst snd] in H.
    destruct (m_bufferedGradients a1 !! pg.1) as [b|] eqn:Eb; [|discriminate].
    destruct (_ || _); [discriminate|]. injection H as <- <- <-.
    assert (Hpg : pg.1 ∉ gs.*1).
    { intros Hin. apply (Hdis _ Hin). rewrite fmap_cons. by left. }
    rewrite Ha1 in Eb |- *. members. rewrite lookup_foldl_insert_ne in Eb by done.
    split; [|split].
    + rewrite foldl_app. by destruct a.
    + by rewrite Hng1, fmap_app.
    + apply Forall2_app; [done|]. by repeat constructor.
Qed.

(** The gradients the pending task reduces. *)
Lemma pending_gradients (bg : gmap N Matrix) (ptrs : list N) (ms : list Matrix) :
  Forall2 (λ p m, bg !! p = Some m) ptrs ms →
  foldr (λ p (r : result (list Matrix)),
           do ms <- r; do m <- deref "newGradients[i]" (bg !! p); Ok (m :: ms))
        (Ok []) ptrs = Ok ms.
Proof.
  induction 1 as [|p m ptrs ms Hp _ IH]; [done|].
  cbn [foldr]. rewrite IH. cbn [bind]. by rewrite Hp.
Qed.

(** A multi-rank call leaves the object initialized. *)
Lemma prologue_initialized env a gradients headerCPU resetState a' stats :
  AggregateGradients_prologue env a gradients headerCPU resetState = Ok (a', stats) →
  m_initialized a' = true ∧ is_Some (m_nccl a').
Proof.
  unfold AggregateGradients_prologue. intros H. inv_bind H. injection H as <- <-.
  set (a0 := match m_nccl a with Some _ => a | None => _ end) in E.
  assert (H0 : is_Some (m_nccl a0)).
  { unfold a0. destruct (m_nccl a) eqn:En; [by rewrite En | done]. }
  clearbody a0. members. destruct (m_initialized a0) eqn:Ei.
  - apply ResetState_later_call in E; [|done]. rewrite E. members. by rewrite Ei.
  - apply ResetState_first_call_eq in E as (? & ? & ? & ? & _ & _ & _ & ->); done.
Qed.

(** Without [resetState] the prologue of a later call counts the
    iteration and changes nothing else. *)
Lemma prologue_later env a gradients headerCPU a' stats :
  m_initialized a = true → is_Some (m_nccl a) →
  AggregateGradients_prologue env a gradients headerCPU false = Ok (a', stats) →
  a' = set_iterationCount (size_add (m_iterationCount a) 1) a.
Proof.
  intros Hini [nccl Hn]. unfold AggregateGradients_prologue, ResetState.
  rewrite Hn, Hini. cbn [negb bind]. by intros [= <- <-].
Qed.

Lemma deref_Ok {A : Type} (what : string) (p : option A) x : deref what p = Ok x → p = Some x.
Proof. destruct p; [by intros [= ->] | done]. Qed.

Lemma get_pending_closed f a task a' trace :
  get_pending f a task = Ok (a', trace) →
  ∃ grads h a1 G H,
    Forall2 (λ p m, m_bufferedGradients a !! p = Some m) (task_newGradients task) grads
    ∧ m_bufferedGradHeader a = Some h
    ∧ AggregateGradientsImpl f a grads h (task_showSyncPerfStats task) = Ok (a1, G, H, trace)
    ∧ a' = set_pendingAsyncAggregation None
             (set_bufferedGradHeader (Some H)
                (set_bufferedGradients
                   (foldl (λ bg pm, <[pm.1 := pm.2]> bg) (m_bufferedGradients a1)
                      (zip (task_newGradients task) G)) a1)).
Proof.
  unfold get_pending. intros H. inv_bind H. rename x into grads. inv_bind H. rename x into h.
  inv_bind H. destruct x as [[[a1 G] H'] t]. injection H as <- <-.
  exists grads, h, a1, G, H'. split; [|split; [|split; [done|done]]].
  - clear E1. revert grads E. induction (task_newGradients task) as [|p ptrs IH]; intros grads E.
    + injection E as <-. constructor.
    + cbn [foldr] in E. inv_bind E. rename E1 into Efold. inv_bind E. injection E as <-.
      constructor; [by eapply deref_Ok | by apply IH].
  - by eapply deref_Ok.
Qed.

Lemma shadows_hold (bg : gmap N Matrix) (gs : list (N * Matrix)) :
  NoDup (gs.*1) →
  Forall2 (λ p m, foldl (λ bg pm, <[pm.1 := pm.2]> bg) bg gs !! p = Some m) (gs.*1) (gs.*2).
Proof.
  intros Hnd. apply Forall2_same_length_lookup_2; [by rewrite !length_fmap|].
  intros i p m Hp Hm. rewrite list_lookup_fmap in Hp. rewrite list_lookup_fmap in Hm.
  destruct (gs !! i) as [[p' m']|] eqn:Ei; [|done]. injection Hp as <-. injection Hm as <-.
  by apply (lookup_foldl_insert _ _ i).
Qed.

Lemma Forall2_functional {A B : Type} (R : A → B → Prop) (l : list A) (k k' : list B) :
  (∀ x y y', R x y → R x y' → y = y') → Forall2 R l k → Forall2 R l k' → k = k'.
Proof.
  intros HR H. revert k'. induction H as [|x y l k Hxy _ IH]; intros k' H'.
  - by inversion H'.
  - inversion H' as [|? y' ? k'' Hxy' H'']; subst. f_equal; [by eapply HR | by apply IH].
Qed.

Lemma get_pending_preserved f a task a' trace :
  get_pending f a task = Ok (a', trace) →
  m_mpi a' = m_mpi a ∧ m_useAsyncAggregation a' = m_useAsyncAggregation a
  ∧ m_initialized a' = m_initialized a ∧ m_nccl a' = m_nccl a
  ∧ m_iterationCount a' = m_iterationCount a
  ∧ length (m_recvHeaders a') = length (m_recvHeaders a).
Proof.
  intros (grads & h & a1 & G & H & _ & _ & E & ->)%get_pending_closed.
  apply AggregateGradientsImpl_framed in E as [E _]. unfold preserved in E. members.
  intuition congruence.
Qed.

Ltac inv_bind_as H x E := apply bind_Ok in H; destruct H as (x & E & H).

(** A call of the async mode that dispatches hands its gradients and its
    header to the background task, and the next call returns what the
    pipeline makes of them: the aggregate arrives one call late. *)
Theorem AggregateGradients_async_delay env1 env2 a gs1 h1 rs1 gs2 h2 r1 r2 :
  NumNodesInUse (m_mpi a) ≠ 1 → m_useAsyncAggregation a = true →
  NoDup (gs1.*1) → gs2.*1 = gs1.*1 →
  AggregateGradients env1 a gs1 h1 rs1 = Ok r1 → ret_value r1 = true →
  AggregateGradients env2 (ret_agg r1) gs2 h2 false = Ok r2 →
  ∃ stats a2 G H,
    AggregateGradientsImpl (env_fabric env2)
      (set_iterationCount (size_add (m_iterationCount (ret_agg r1)) 1) (ret_agg r1))
      (gs1.*2) h1 stats = Ok (a2, G, H, ret_trace r2)
    ∧ ret_gradients r2 = zip (gs1.*1) G
    ∧ ret_header r2 = H
    ∧ ret_value r2 = negb (numSamples H =? 0)
    ∧ m_bufferedGradHeader (ret_agg r2) = Some h2.
Proof.
  intros HW Hasync Hnd Hptrs H1 Hval H2.
  (* the first call *)
  unfold AggregateGradients in H1. rewrite (proj2 (N.eqb_neq _ _) HW) in H1.
  inv_bind_as H1 x1 Epro1. destruct x1 as [a1 st1].
  destruct (prologue_Ok _ _ _ _ _ _ _ Epro1) as (Hmpi1 & Hasync1 & _).
  destruct (prologue_initialized _ _ _ _ _ _ _ Epro1) as [Hini1 Hnccl1].
  rewrite Hasync1, Hasync in H1.
  inv_bind_as H1 x2 Eget1. destruct x2 as [a2 t1].
  assert (Ha2 : m_mpi a2 = m_mpi a1 ∧ m_useAsyncAggregation a2 = m_useAsyncAggregation a1
                ∧ m_initialized a2 = m_initialized a1 ∧ m_nccl a2 = m_nccl a1).
  { destruct (m_pendingAsyncAggregation a1) as [task|].
    - apply get_pending_preserved in Eget1. intuition.
    - by injection Eget1 as <- <-. }
  destruct Ha2 as (Hmpi2 & Hasync2 & Hini2 & Hnccl2).
  inv_bind_as H1 x3 Eswap1. destruct x3 as [[a3 sw1] ng1].
  destruct (swap_buffered_closed _ _ _ _ _ Hnd Eswap1) as (Ha3 & Hng1 & _).
  inv_bind_as H1 buffered1 Ehdr1. clear Ehdr1.
  destruct (rs1 || negb (numSamples buffered1 =? 0));
    [|injection H1 as <-; discriminate Hval].
  inv_bind_as H1 g0 Eg0. clear Eg0. injection H1 as <-. clear Hval. cbn [ret_agg] in *.
  set (task := {| task_deviceId := _ |}) in *.
  assert (Htask : task_newGradients task = gs1.*1) by (by rewrite <- Hng1).
  clearbody task.
  set (A := set_pendingAsyncAggregation (Some task) (set_bufferedGradHeader (Some h1) a3))
    in *.
  assert (HA : m_mpi A = m_mpi a ∧ m_useAsyncAggregation A = true ∧ m_initialized A = true
               ∧ is_Some (m_nccl A) ∧ m_pendingAsyncAggregation A = Some task
               ∧ m_bufferedGradHeader A = Some h1
               ∧ m_bufferedGradients A
                 = foldl (λ bg pm, <[pm.1 := pm.2]> bg) (m_bufferedGradients a2) gs1).
  { unfold A. rewrite Ha3. members.
    rewrite Hmpi2, Hmpi1, Hasync2, Hasync1, Hini2, Hini1, Hnccl2. done. }
  clearbody A. destruct HA as (HmpiA & HasyncA & HiniA & HncclA & HpendA & HhdrA & HbgA).
  (* the second call *)
  unfold AggregateGradients in H2. rewrite HmpiA, (proj2 (N.eqb_neq _ _) HW) in H2.
  inv_bind_as H2 y1 Epro2. destruct y1 as [b1 st2].
  apply prologue_later in Epro2; [|done|done]. subst b1. members.
  rewrite HasyncA, HpendA in H2.
  inv_bind_as H2 y2 Eget2. destruct y2 as [b2 t2].
  apply get_pending_closed in Eget2 as (grads & h & b' & G & H & Hgrads & Hh & Eimpl & ->).
  members. rewrite HhdrA in Hh. injection Hh as <-.
  rewrite Htask in Hgrads, H2.
  assert (grads = gs1.*2) as ->.
  { eapply (Forall2_functional _ _ _ _ _ Hgrads). Unshelve.
    - rewrite HbgA. by apply shadows_hold.
    - intros p m m' Hm Hm'. congruence. }
  inv_bind_as H2 y3 Eswap2. destruct y3 as [[b3 sw2] ng2].
  rewrite <- Hptrs in Hnd.
  destruct (swap_buffered_closed _ _ _ _ _ Hnd Eswap2) as (Hb3 & _ & Hsw2). members.
  pose proof (AggregateGradientsImpl_framed _ _ _ _ _ _ _ _ _ Eimpl) as [_ Hshape].
  apply Forall2_length in Hshape. rewrite length_fmap in Hshape.
  assert (Hsw : sw2 = zip (gs1.*1) G).
  { apply list_eq. intros i. rewrite lookup_zip_with.
    assert (Hli : (gs1.*1) !! i = fst <$> gs2 !! i) by (by rewrite <- Hptrs, list_lookup_fmap).
    rewrite Hli. destruct (gs2 !! i) as [pg|] eqn:Ei.
    - destruct (Forall2_lookup_l _ _ _ _ _ Hsw2 Ei) as ([p m] & Es & Hp & Hm).
      cbn [fst snd] in Hp, Hm. subst p. rewrite Es.
      cbn [fmap option_fmap option_map mbind option_bind].
      destruct (lookup_lt_is_Some_2 G i) as [Gi HGi].
      { rewrite <- Hshape, <- (length_fmap fst gs1), <- Hptrs, length_fmap.
        by eapply lookup_lt_Some. }
      rewrite HGi. cbn [mbind option_bind]. do 2 f_equal.
      rewrite (lookup_foldl_insert _ _ i pg.1 Gi) in Hm; [congruence| |].
      + rewrite fst_zip; [by rewrite <- Hptrs|].
        rewrite length_fmap. lia.
      + rewrite lookup_zip_with, Hli, HGi. done.
    - cbn [fmap option_fmap option_map mbind option_bind].
      apply Forall2_length in Hsw2. apply lookup_ge_None. rewrite <- Hsw2.
      by apply lookup_ge_None. }
  inv_bind_as H2 buffered2 Ehdr2. rewrite Hb3 in Ehdr2. members.
  apply deref_Ok in Ehdr2. injection Ehdr2 as <-.
  exists (task_showSyncPerfStats task), b', G, H. cbn [orb] in H2.
  destruct (negb (numSamples H =? 0)) eqn:EH.
  - inv_bind_as H2 g0' Eg0'. injection H2 as <-. by cbn.
  - injection H2 as <-. by cbn.
Qed.

(** *** A reset of the async mode *)

(** The loop of [ResetState] that zeroes the shadows. *)
Lemma zeroed_shadows (bg0 bg : gmap N Matrix) (gs : list (N * Matrix)) :
  foldl (λ r (pg : N * Matrix),
           do bg <- r;
           do b <- deref "m_bufferedGradients[gradients[i]]" (bg !! pg.1);
           Ok (<[pg.1 := SetValue0 b]> bg))
        (Ok bg0) gs = Ok bg →
  ∀ pg m, pg ∈ gs → bg !! pg.1 = Some m → Data m = replicate (length (Data m)) zero.
Proof.
  revert bg. induction gs as [|pg0 gs IH] using rev_ind; intros bg H pg m Hin Hm.
  - by apply elem_of_nil in Hin.
  - rewrite foldl_app in H. cbn [foldl] in H. inv_bind_as H bg1 E1. inv_bind_as H b Eb.
    injection H as <-. destruct (decide (pg.1 = pg0.1)) as [Heq|Hne].
    + rewrite Heq, lookup_insert_eq in Hm. injection Hm as <-.
      cbn [SetValue0 with_Data Data]. by rewrite length_replicate.
    + rewrite lookup_insert_ne in Hm by done. apply (IH bg1 E1 pg m); [|done].
      apply elem_of_app in Hin as [Hin|Hin]; [done|].
      apply list_elem_of_singleton in Hin. by subst.
Qed.

(** A call with [resetState] on an initialized aggregator of the async
    mode with no task pending hands zeroed gradients and the cleared header
    back to the caller, and dispatches the task for what the caller
    passed. *)
Theorem AggregateGradients_reset_zeroes env a gradients headerCPU r :
  NumNodesInUse (m_mpi a) ≠ 1 → m_initialized a = true →
  m_useAsyncAggregation a = true → m_pendingAsyncAggregation a = None →
  NoDup (gradients.*1) →
  AggregateGradients env a gradients headerCPU true = Ok r →
  ret_value r = true
  ∧ (ret_gradients r).*1 = gradients.*1
  ∧ Forall (λ pg, Data pg.2 = replicate (length (Data pg.2)) zero) (ret_gradients r)
  ∧ (∃ h, m_bufferedGradHeader a = Some h ∧ ret_header r = Clear h)
  ∧ is_Some (m_pendingAsyncAggregation (ret_agg r))
  ∧ m_bufferedGradHeader (ret_agg r) = Some headerCPU.
Proof.
  intros HW Hini Hasync Hpend Hnd H.
  unfold AggregateGradients in H. rewrite (proj2 (N.eqb_neq _ _) HW) in H.
  unfold AggregateGradients_prologue in H.
  set (a0 := match m_nccl a with Some _ => a | None => _ end) in H.
  assert (H0 : m_initialized a0 = true ∧ m_useAsyncAggregation a0 = true
               ∧ m_pendingAsyncAggregation a0 = None
               ∧ m_bufferedGradients a0 = m_bufferedGradients a
               ∧ m_bufferedGradHeader a0 = m_bufferedGradHeader a).
  { unfold a0. by destruct (m_nccl a). }
  clearbody a0. destruct H0 as (Hini0 & Hasync0 & Hpend0 & Hbg0 & Hh0).
  unfold ResetState in H. rewrite Hini0, Hasync0, Hpend0 in H. cbn [negb andb] in H.
  rewrite bool_decide_eq_false_2 in H by (by intros [? [=]]).
  inv_bind_as H x1 Epro. inv_bind_as Epro a1 Ereset. injection Epro as <-.
  inv_bind_as Ereset bg Ezero. inv_bind_as Ereset h0 Eh0. injection Ereset as <-.
  apply deref_Ok in Eh0. members. rewrite Hasync0, Hpend0 in H. cbn [bind] in H.
  inv_bind_as H x3 Eswap. destruct x3 as [[a3 sw] ng].
  destruct (swap_buffered_closed _ _ _ _ _ Hnd Eswap) as (Ha3 & Hng & Hsw). members.
  inv_bind_as H buffered Ehdr. rewrite Ha3 in Ehdr. members.
  apply deref_Ok in Ehdr. injection Ehdr as <-. cbn [orb] in H.
  inv_bind_as H g0 Eg0. injection H as <-. cbn.
  split; [done|]. split; [|split; [|split; [|done]]].
  - clear -Hsw. induction Hsw as [|pg s gs sw [Hs _] _ IH]; [done|].
    rewrite !fmap_cons. by f_equal.
  - clear -Hsw Ezero. apply Forall_forall. intros s Hs.
    apply list_elem_of_lookup in Hs as [i Hi].
    destruct (Forall2_lookup_r _ _ _ _ _ Hsw Hi) as (pg & Hpg & Hs1 & Hs2).
    apply (zeroed_shadows _ _ _ Ezero pg); [by eapply list_elem_of_lookup_2 | done].
  - exists h0. by rewrite <- Hh0.
Qed.

(** *** A gradient without its shadow *)

Lemma swap_buffered_Throw a gs e :
  swap_buffered a gs = Throw e →
  e = LogicError
        "No buffered gradient matrix found corresponding to a gradient matrix to be aggregated!".
Proof.
  induction gs as [|pg gs IH] using rev_ind; [done|].
  rewrite swap_buffered_snoc. destruct (swap_buffered a gs) as [[[a1 sw] ng]|e'].
  - cbn [bind fst snd]. destruct (m_bufferedGradients a1 !! pg.1); [|by intros [= <-]].
    destruct (_ || _); [by intros [= <-] | done].
  - cbn [bind]. intros [= <-]. by apply IH.
Qed.

(** The swap refuses a gradient that has no shadow, or whose shadow has
    another shape or sits on another device. *)
Lemma swap_buffered_mismatch a gs :
  NoDup (gs.*1) →
  (∃ pg, pg ∈ gs ∧ ∀ b, m_bufferedGradients a !! pg.1 = Some b →
      GetNumCols b ≠ GetNumCols pg.2 ∨ GetNumRows b ≠ GetNumRows pg.2
      ∨ GetDeviceId b ≠ GetDeviceId pg.2) →
  swap_buffered a gs =
  Throw (LogicError
           "No buffered gradient matrix found corresponding to a gradient matrix to be aggregated!").
Proof.
  induction gs as [|pg0 gs IH] using rev_ind; intros Hnd [pg [Hin Hbad]].
  - by apply elem_of_nil in Hin.
  - rewrite fmap_app in Hnd. apply NoDup_app in Hnd as (Hnd & Hdis & _).
    destruct (swap_buffered a (gs ++ [pg0])) as [[[a' sw'] ng']|e] eqn:E;
      [|f_equal; by apply swap_buffered_Throw in E].
    exfalso. rewrite swap_buffered_snoc in E.
    destruct (swap_buffered a gs) as [[[a1 sw] ng]|e] eqn:E1; [|done].
    apply elem_of_app in Hin as [Hin|Hin].
    { discriminate (IH Hnd (ex_intro _ pg (conj Hin Hbad))). }
    apply list_elem_of_singleton in Hin. subst pg0.
    destruct (swap_buffered_closed _ _ _ _ _ Hnd E1) as (Ha1 & _ & _).
    cbn [bind fst snd] in E. rewrite Ha1 in E. members.
    rewrite lookup_foldl_insert_ne in E.
    2:{ intros Hp. apply (Hdis _ Hp). rewrite fmap_cons. by left. }
    destruct (m_bufferedGradients a !! pg.1) as [b|]; [|done].
    destruct (Hbad b eq_refl) as [Hc|[Hr|Hd]].
    + apply N.eqb_neq in Hc. by rewrite Hc in E.
    + apply N.eqb_neq in Hr. rewrite Hr in E. by rewrite orb_true_r in E.
    + apply Z.eqb_neq in Hd. rewrite Hd in E. by rewrite orb_true_r in E.
Qed.

(** A later call of the async mode is a logic error when one of the
    gradients has no shadow of its shape and device: the shadows are
    those of the gradients of the first call. *)
Theorem AggregateGradients_unregistered env a gradients headerCPU :
  NumNodesInUse (m_mpi a) ≠ 1 → m_initialized a = true →
  m_useAsyncAggregation a = true → m_pendingAsyncAggregation a = None →
  NoDup (gradients.*1) →
  (∃ pg, pg ∈ gradients ∧ ∀ b, m_bufferedGradients a !! pg.1 = Some b →
      GetNumCols b ≠ GetNumCols pg.2 ∨ GetNumRows b ≠ GetNumRows pg.2
      ∨ GetDeviceId b ≠ GetDeviceId pg.2) →
  AggregateGradients env a gradients headerCPU false =
  Throw (LogicError
           "No buffered gradient matrix found corresponding to a gradient matrix to be aggregated!").
Proof.
  intros HW Hini Hasync Hpend Hnd Hbad.
  unfold AggregateGradients. rewrite (proj2 (N.eqb_neq _ _) HW).
  unfold AggregateGradients_prologue.
  set (a0 := match m_nccl a with Some _ => a | None => _ end).
  assert (H0 : m_initialized a0 = true ∧ m_useAsyncAggregation a0 = true
               ∧ m_pendingAsyncAggregation a0 = None
               ∧ m_bufferedGradients a0 = m_bufferedGradients a).
  { unfold a0. by destruct (m_nccl a). }
  clearbody a0. destruct H0 as (Hini0 & Hasync0 & Hpend0 & Hbg0).
  unfold ResetState. rewrite Hini0. cbn [negb bind]. members.
  rewrite Hasync0, Hpend0. cbn [bind].
  rewrite swap_buffered_mismatch; [done | done |]. members. by rewrite Hbg0.
Qed.

(** ** The receive headers under [AggregateGradients] *)

(** The array of receive headers has its [NumProc() - 1] entries on the
    main rank once the aggregator is initialized, and none otherwise. *)
Definition receive_headers_sized (a : SimpleDistGradAggregator) : Prop :=
  length (m_recvHeaders a)
  = if m_initialized a && IsMainNode (m_mpi a)
    then N.to_nat (size_sub (NumProc a) 1) else 0%nat.

Lemma receive_headers_sized_ext a a' :
  m_mpi a' = m_mpi a → m_initialized a' = m_initialized a →
  length (m_recvHeaders a') = length (m_recvHeaders a) →
  receive_headers_sized a → receive_headers_sized a'.
Proof. unfold receive_headers_sized, NumProc. by intros -> -> ->. Qed.

Lemma prologue_receive_headers env a gradients headerCPU resetState a' stats :
  receive_headers_sized a →
  AggregateGradients_prologue env a gradients headerCPU resetState = Ok (a', stats) →
  receive_headers_sized a' ∧ m_mpi a' = m_mpi a.
Proof.
  unfold AggregateGradients_prologue. intros Hs H. inv_bind_as H a1 E. injection H as <- <-.
  set (a0 := match m_nccl a with Some _ => a | None => _ end) in E.
  assert (H0 : receive_headers_sized a0 ∧ m_mpi a0 = m_mpi a).
  { unfold a0. by destruct (m_nccl a). }
  clearbody a0. destruct H0 as [Hs0 <-]. clear Hs.
  unfold receive_headers_sized, NumProc in *. members.
  destruct (m_initialized a0) eqn:Ei.
  - apply ResetState_later_call in E; [|done]. rewrite E. members. by rewrite Ei.
  - apply ResetState_first_call_eq in E as (? & ? & ? & ? & _ & _ & _ & ->); [|done].
    members. cbn [andb] in *. rewrite length_app, Hs0.
    destruct (IsMainNode (m_mpi a0)); [by rewrite length_replicate | done].
Qed.

(** Whatever the call does, it leaves the receive headers as many as
    they were: [NumProc() - 1] on the main rank from the first call on. *)
Theorem AggregateGradients_receive_headers env a gradients headerCPU resetState r :
  receive_headers_sized a →
  AggregateGradients env a gradients headerCPU resetState = Ok r →
  receive_headers_sized (ret_agg r) ∧ m_mpi (ret_agg r) = m_mpi a
  ∧ (NumNodesInUse (m_mpi a) ≠ 1 → m_initialized (ret_agg r) = true).
Proof.
  intros Hs H. unfold AggregateGradients in H.
  destruct (NumNodesInUse (m_mpi a) =? 1) eqn:EW.
  { injection H as <-. apply N.eqb_eq in EW. by cbn. }
  inv_bind_as H x1 Epro. destruct x1 as [a1 st1].
  destruct (prologue_initialized _ _ _ _ _ _ _ Epro) as [Hini1 _].
  destruct (prologue_receive_headers _ _ _ _ _ _ _ Hs Epro) as [Hs1 Hmpi1].
  assert (Hkeep : ∀ a', m_mpi a' = m_mpi a1 → m_initialized a' = m_initialized a1 →
            length (m_recvHeaders a') = length (m_recvHeaders a1) →
            receive_headers_sized a' ∧ m_mpi a' = m_mpi a
            ∧ (NumNodesInUse (m_mpi a) ≠ 1 → m_initialized a' = true)).
  { intros a' Hm Hi Hl. split; [by eapply receive_headers_sized_ext|].
    split; [congruence|]. intros _. congruence. }
  destruct (m_useAsyncAggregation a1).
  - inv_bind_as H x2 Eget. destruct x2 as [a2 t1].
    assert (Ha2 : m_mpi a2 = m_mpi a1 ∧ m_initialized a2 = m_initialized a1
                  ∧ length (m_recvHeaders a2) = length (m_recvHeaders a1)).
    { destruct (m_pendingAsyncAggregation a1) as [task|].
      - apply get_pending_preserved in Eget. intuition.
      - by injection Eget as <- <-. }
    destruct Ha2 as (Hm2 & Hi2 & Hl2).
    inv_bind_as H x3 Eswap. destruct x3 as [[a3 sw] ng]. apply swap_buffered_Ok in Eswap.
    inv_bind_as H buffered Ehdr.
    destruct (resetState || _).
    + inv_bind_as H g0 Eg0. injection H as <-. cbn [ret_agg]. apply Hkeep; members.
      all: rewrite Eswap; members; congruence.
    + injection H as <-. cbn [ret_agg]. apply Hkeep; members.
      all: rewrite Eswap; members; congruence.
  - inv_bind_as H x2 Eimpl. destruct x2 as [[[a2 reduced] h] t]. injection H as <-.
    cbn [ret_agg]. apply AggregateGradientsImpl_framed in Eimpl as [Ep _].
    unfold preserved in Ep. apply Hkeep; intuition.
Qed.

(** The pipeline changes of the object only the staging buffers, the
    transferers, the packed buffer and the content of the receive headers;
    it keeps the number of gradients, and the shape, the device and the
    storage type of each. *)
Theorem AggregateGradientsImpl_keeps f a gs h stats a' gs' h' t' :
  AggregateGradientsImpl f a gs h stats = Ok (a', gs', h', t') →
  preserved a a' ∧ Forall2 same_shape gs gs'.
Proof. apply AggregateGradientsImpl_framed. Qed.

(** ** AsyncAggregateGradHeader *)

(** The exchange of [AsyncAggregateGradHeader] tags the headers with the
    sample count of the sender. When every peer of the main rank sends
    under the tag of the main rank, the main rank folds the [NumProc() - 1]
    headers into its own, each once, and every rank returns with the
    header that is broadcast and with whether it counts a sample. *)
Theorem AsyncAggregateGradHeader_returns env a headerCPU (hdr : nat → DistGradHeader) H0 :
  NumNodesInUse (m_mpi a) ≠ 1 →
  (IsMainNode (m_mpi a) = true →
     ∀ j, (j < N.to_nat (size_sub (NumProc a) 1))%nat →
       peer_send (env_fabric env) (source_of a j)
       = Some (to_int (numSamples headerCPU), hdr j)) →
  (IsMainNode (m_mpi a) = false →
     bcast_header (env_fabric env) (MainNodeRank (m_mpi a)) = Some H0) →
  let arrived :=
    arrival (N.to_nat (size_sub (NumProc a) 1)) (env_fabric env)
      (receive_requests a (to_int (numSamples headerCPU))) in
  let H := if IsMainNode (m_mpi a)
           then foldl (λ acc j, Aggregate acc (hdr j) true) headerCPU arrived
           else H0 in
  (IsMainNode (m_mpi a) = true → arrived ≡ₚ seq 0 (N.to_nat (size_sub (NumProc a) 1)))
  ∧ ∃ a' t, AsyncAggregateGradHeader env a headerCPU
            = Ok (negb (numSamples H =? 0), a', H, t).
Proof.
  intros HW Hsend Hbc arrived H. unfold AsyncAggregateGradHeader.
  rewrite (proj2 (N.eqb_neq _ _) HW).
  set (a1 := match m_nccl a with Some _ => a | None => _ end).
  assert (Hm1 : m_mpi a1 = m_mpi a) by (unfold a1; by destruct (m_nccl a)).
  rewrite Hm1.
  set (a2 := if IsMainNode (m_mpi a) then set_recvHeaders _ a1 else a1).
  assert (Hm2 : m_mpi a2 = m_mpi a) by (unfold a2; by destruct (IsMainNode (m_mpi a))).
  assert (Hl2 : IsMainNode (m_mpi a) = true →
            (N.to_nat (size_sub (NumProc a) 1) ≤ length (m_recvHeaders a2))%nat).
  { intros Hmain. unfold a2. rewrite Hmain. members.
    rewrite length_app, length_replicate. unfold NumProc. rewrite Hm1. lia. }
  clearbody a2. clear a1 Hm1.
  set (tag := to_int (numSamples headerCPU)) in *.
  destruct (header_rendezvous (env_fabric env) a2 headerCPU
              (if IsMainNode (m_mpi a)
               then map (λ j, call_Irecv j (source_of a j) tag)
                      (seq 0 (N.to_nat (size_sub (NumProc a) 1)))
               else [call_Isend headerCPU (MainNodeRank (m_mpi a)) tag])
              tag hdr H0) as (hs' & h1 & t1 & h' & Ew & Eb & Hh).
  { rewrite Hm2. intros Hmain. unfold NumProc in *. rewrite Hm2.
    split; [by apply Hl2|]. intros j Hj.
    change (source_of a2 j) with (if MyRank a2 <=? N.of_nat j then N.of_nat j + 1 else N.of_nat j).
    unfold MyRank. rewrite Hm2. by apply Hsend. }
  { rewrite Hm2. by apply Hbc. }
  rewrite (receive_requests_ext a2 a) in Ew, Hh by done.
  unfold NumProc in Ew, Hh. rewrite Hm2 in Ew, Hh.
  split.
  { intros Hmain. rewrite Hmain in Hh. by destruct Hh. }
  unfold AsyncAggregateGradHeaderImpl. fold tag. unfold NumProc. rewrite Hm2.
  destruct (IsMainNode (m_mpi a)) eqn:Emain.
  - rewrite (post_receives_Ok a2) by (unfold NumProc; rewrite Hm2; by apply Hl2).
    cbn [bind negb app]. unfold NumProc. rewrite Hm2.
    assert (Hsrc : ∀ j, source_of a2 j = source_of a j)
      by (intros j; unfold source_of, MyRank; by rewrite Hm2).
    unfold receive_requests in Ew. rewrite Emain in Ew.
    rewrite (map_ext _ _ (λ j, f_equal (λ s, Some (s, tag)) (Hsrc j))).
    rewrite (map_ext _ _ (λ j, f_equal (λ s, call_Irecv j s tag) (Hsrc j))).
    unfold NumProc in Ew. rewrite Ew. cbn [bind]. rewrite Eb. cbn [bind].
    destruct Hh as [_ ->]. by eexists _, _.
  - cbn [bind negb app]. injection Ew as Ea <- <-. rewrite <- Ea in Eb. rewrite Eb.
    cbn [bind]. subst h'. by eexists _, _.
Qed.

(** The wait-any loop blocks when one of its receives can never
    complete: the receives that can complete are fewer than the headers
    it counts. *)
Lemma wait_headers_blocked f fuel a reqs h trace (live : list nat) bad r :
  NoDup live → (length live < fuel)%nat →
  (∀ j, reqs !! j ≫= deliverable f ≠ None → j ∈ live) →
  reqs !! bad = Some (Some r) → deliverable f (Some r) = None →
  (length reqs ≤ length (m_recvHeaders a))%nat →
  wait_headers fuel f a reqs h trace = Throw (Deadlock "MPI_Waitany").
Proof.
  revert a reqs h trace live.
  induction fuel as [|fuel IH]; intros a reqs h trace live Hnd Hlen Hlive Hbad Hnone Hslots;
    [lia|].
  cbn [wait_headers]. unfold Waitany.
  destruct (forallb _ reqs) eqn:Eall.
  { rewrite forallb_forall in Eall.
    specialize (Eall (Some r)
                  (proj1 (list_elem_of_In _ _) (list_elem_of_lookup_2 _ _ _ Hbad))).
    by rewrite bool_decide_eq_true_2 in Eall. }
  destruct (first_ready f reqs _) as [[j hj]|] eqn:Ef; [|done].
  apply first_ready_Some in Ef as [_ Hj]. cbn [bind].
  assert (Hjl : j ∈ live) by (apply Hlive; by rewrite Hj).
  assert (Hjb : j ≠ bad).
  { intros Heq. rewrite Heq in Hj. unfold RecvRequest in *. rewrite Hbad in Hj.
    cbn [mbind option_bind] in Hj. congruence. }
  assert (Hjr : (j < length reqs)%nat).
  { apply lookup_lt_is_Some. destruct (reqs !! j); [done | discriminate Hj]. }
  members. unfold at_index. rewrite Nat2N.id, list_lookup_insert_eq by lia. cbn [bind].
  apply (IH _ _ _ _ (filter (λ k, k ≠ j) live)).
  - by apply NoDup_filter.
  - pose proof (length_filter_lt (λ k, k ≠ j) live j Hjl (λ H, H eq_refl)). lia.
  - intros k Hk. destruct (decide (k = j)) as [->|Hne].
    + rewrite list_lookup_insert_eq in Hk by done. done.
    + rewrite list_lookup_insert_ne in Hk by done.
      apply list_elem_of_filter. split; [done | by apply Hlive].
  - by rewrite list_lookup_insert_ne.
  - done.
  - members. by rewrite !length_insert.
Qed.

(** The main rank waits for the header of each peer under the tag of its
    own sample count: when a peer sends under another tag, or does not
    send, the main rank never leaves the wait. *)
Theorem AsyncAggregateGradHeader_blocks env a headerCPU :
  NumNodesInUse (m_mpi a) ≠ 1 → IsMainNode (m_mpi a) = true →
  (∃ j, (j < N.to_nat (size_sub (NumProc a) 1))%nat
        ∧ ∀ tag h, peer_send (env_fabric env) (source_of a j) = Some (tag, h) →
            tag ≠ to_int (numSamples headerCPU)) →
  AsyncAggregateGradHeader env a headerCPU = Throw (Deadlock "MPI_Waitany").
Proof.
  intros HW Hmain (bad & Hbad & Htag). unfold AsyncAggregateGradHeader.
  rewrite (proj2 (N.eqb_neq _ _) HW).
  set (a1 := match m_nccl a with Some _ => a | None => _ end).
  assert (Hm1 : m_mpi a1 = m_mpi a) by (unfold a1; by destruct (m_nccl a)).
  rewrite Hm1, Hmain.
  set (a2 := set_recvHeaders _ a1).
  assert (Hm2 : m_mpi a2 = m_mpi a) by done.
  assert (Hl2 : (N.to_nat (size_sub (NumProc a) 1) ≤ length (m_recvHeaders a2))%nat).
  { unfold a2. members. rewrite length_app, length_replicate. unfold NumProc.
    rewrite Hm1. lia. }
  clearbody a2. clear a1 Hm1.
  unfold AsyncAggregateGradHeaderImpl. rewrite Hm2, Hmain.
  rewrite (post_receives_Ok a2) by (unfold NumProc; rewrite Hm2; by apply Hl2).
  cbn [bind negb app]. unfold NumProc in *. rewrite Hm2.
  set (n := N.to_nat (size_sub (NumNodesInUse (m_mpi a)) 1)) in *.
  set (tag := to_int (numSamples headerCPU)) in *.
  assert (Hsrc : source_of a2 bad = source_of a bad)
    by (unfold source_of, MyRank; by rewrite Hm2).
  rewrite (wait_headers_blocked _ n a2 _ _ _ (filter (λ k, k ≠ bad) (seq 0 n)) bad
             (source_of a bad, tag)); [done|..].
  - apply NoDup_filter, NoDup_seq.
  - pose proof (length_filter_lt (λ k, k ≠ bad) (seq 0 n) bad) as Hlt.
    rewrite length_seq in Hlt. apply Hlt; [|by intros ?]. apply elem_of_seq. lia.
  - intros k Hk. apply list_elem_of_filter.
    assert (Hkn : (k < n)%nat).
    { destruct (decide (k < n)%nat) as [|Hge]; [done|]. exfalso. apply Hk.
      rewrite (proj2 (lookup_ge_None _ _)); [done|]. rewrite length_map, length_seq. lia. }
    split; [|apply elem_of_seq; lia]. intros ->. apply Hk.
    rewrite list_lookup_fmap, lookup_seq_lt by done. cbn. rewrite Hsrc.
    destruct (peer_send (env_fabric env) (source_of a bad)) as [[tag' h']|] eqn:Es; [|done].
    destruct (Z.eqb_spec tag' tag) as [->|]; [|done]. by destruct (Htag _ _ eq_refl).
  - rewrite list_lookup_fmap, lookup_seq_lt by done. cbn. by rewrite Hsrc.
  - cbn. destruct (peer_send (env_fabric env) (source_of a bad)) as [[tag' h']|] eqn:Es;
      [|done].
    destruct (Z.eqb_spec tag' tag) as [->|]; [|done]. by destruct (Htag _ _ eq_refl).
  - rewrite length_map, length_seq. done.
Qed.

(** ** threadsafe_queue *)

Lemma foldl_push {T : Type} (q xs : list T) : foldl threadsafe_queue.push q xs = q ++ xs.
Proof.
  revert q. induction xs as [|x xs IH]; intros q; [by rewrite app_nil_r|].
  cbn [foldl]. rewrite IH. unfold threadsafe_queue.push. by rewrite <- app_assoc.
Qed.

Lemma try_pops_all {T : Type} (l : list T) (v : T) (k : nat) :
  threadsafe_queue.try_pops (length l + k) l v
  = (map (pair true) l ++ replicate k (false, default v (last l)), []).
Proof.
  revert v. induction l as [|x l IH]; intros v.
  - cbn [length Nat.add map app last default]. induction k as [|k IHk]; [done|].
    cbn [threadsafe_queue.try_pops threadsafe_queue.try_pop]. by rewrite IHk.
  - cbn [length Nat.add threadsafe_queue.try_pops threadsafe_queue.try_pop].
    rewrite IH. cbn [map app].
    assert (default v (last (x :: l)) = default x (last l)) as ->; [|done].
    rewrite last_cons. by destruct (last l).
Qed.

(** The queue is first in, first out: after the pushes of [xs] onto [q],
    as many calls of [try_pop] as there are elements give the elements of
    [q] and then those of [xs], each once and in the order of the pushes,
    and leave the queue empty; every further call answers false and leaves
    its argument as the last pop left it. *)
Theorem threadsafe_queue_fifo {T : Type} (q xs : list T) (v : T) (k : nat) :
  threadsafe_queue.try_pops (length (q ++ xs) + k) (foldl threadsafe_queue.push q xs) v
  = (map (pair true) (q ++ xs) ++ replicate k (false, default v (last (q ++ xs))), []).
Proof. rewrite foldl_push. apply try_pops_all. Qed.

(** ** The per-node aggregation over MPI *)

Lemma reduce_requests_map_AllReduce {X : Type} (g : X → list ElemType) op (l : list X) :
  reduce_requests (map (λ x, call_AllReduce (g x) op) l) = map g l.
Proof. induction l as [|x l IH]; [done|]. simpl. by rewrite IH. Qed.

Lemma foldl_bind_Throw {St X : Type} (step : St → X → result St) (xs : list X) e :
  foldl (λ r x, do s <- r; step s x) (Throw e) xs = Throw e.
Proof. induction xs as [|x xs IH]; [done|]. cbn [foldl bind]. exact IH. Qed.

Lemma async_allocate_Ok (gs : list Matrix) :
  Forall (λ g, GetMatrixType g = DENSE) gs →
  async_allocate gs
  = Ok (replicate (length gs) idle,
        map (λ g, replicate (N.to_nat (GetNumElements g)) zero) gs).
Proof.
  unfold async_allocate. induction gs as [|g gs IH] using rev_ind; intros Hd; [done|].
  apply Forall_app in Hd as [Hd Hg]. apply Forall_inv in Hg. rewrite foldl_app, IH by done.
  cbn [foldl bind fst snd]. rewrite bool_decide_eq_false_2 by (by intros ?).
  rewrite length_app, map_app. cbn [length map]. rewrite Nat.add_1_r.
  by rewrite replicate_S_end.
Qed.

Lemma async_allocate_Throw (gs : list Matrix) e :
  async_allocate gs = Throw e →
  e = RuntimeError
        "Gradient aggregation for sparse gradient matrices is currently unsupported!".
Proof.
  unfold async_allocate. induction gs as [|g gs IH] using rev_ind; [done|].
  rewrite foldl_app. cbn [foldl].
  destruct (foldl _ _ gs) as [st|e']; cbn [bind].
  - destruct (bool_decide _); [by intros [= <-] | done].
  - intros [= <-]. by apply IH.
Qed.

Lemma async_allocate_sparse (gs : list Matrix) :
  (∃ g, g ∈ gs ∧ GetMatrixType g ≠ DENSE) →
  async_allocate gs
  = Throw (RuntimeError
             "Gradient aggregation for sparse gradient matrices is currently unsupported!").
Proof.
  intros [g [Hin Hs]].
  destruct (async_allocate gs) as [st|e] eqn:E; [|f_equal; by apply async_allocate_Throw in E].
  exfalso. revert st E. unfold async_allocate.
  induction gs as [|g0 gs IH] using rev_ind; intros st E; [by apply elem_of_nil in Hin|].
  rewrite foldl_app in E. cbn [foldl] in E. inv_bind_as E st1 E1.
  apply elem_of_app in Hin as [Hin|Hin]; [by eapply IH|].
  apply list_elem_of_singleton in Hin. subst g0. by rewrite bool_decide_eq_true_2 in E.
Qed.

(** What the reduction leaves in gradient [k]. *)
Definition async_reduced (mpi : MPIWrapper) (f : Fabric) (n0 k : nat) (g : Matrix) : Matrix :=
  with_Data g (all_reduce mpi f (n0 + k) (Data g) MPI_SUM).

Lemma AsyncAggreagateGradientsImpl_Ok mpi f (gs : list Matrix) trace :
  Forall (λ g, GetMatrixType g = DENSE) gs →
  AsyncAggreagateGradientsImpl mpi f gs trace
  = Ok (imap (async_reduced mpi f (next_request trace)) gs,
        trace ++ map (λ g, call_AllReduce (Data g) MPI_SUM) gs).
Proof.
  intros Hd. unfold AsyncAggreagateGradientsImpl.
  destruct gs as [|g0 rest] eqn:Egs; [by rewrite app_nil_r|]. rewrite <- Egs in *.
  assert (Hn : (length gs =? 0)%nat = false) by (by rewrite Egs).
  assert (E0 : at_index "gradients[0]" gs 0 = Ok g0) by (by rewrite Egs).
  rewrite Hn, E0, async_allocate_Ok by done. cbn [bind fst snd]. clear Hn E0 Egs g0 rest.
  set (n := length gs). set (n0 := next_request trace).
  set (call := λ g : Matrix, call_AllReduce (Data g) MPI_SUM).
  destruct (foldl_inv (async_step mpi f gs)
              (λ k s, length (asyncGpuDataTransferers s) = n
                      ∧ length (ayncIntermediateCPUBuffers s) = n
                      ∧ as_trace s = trace ++ map call (take k gs)
                      ∧ as_allReduceIndex s = k
                      ∧ ∀ i g, (i < k)%nat → gs !! i = Some g →
                          asyncGpuDataTransferers s !! i
                          = Some {| fetch_in_flight := None;
                                    assign_in_flight :=
                                      Some (N.of_nat i, Data (async_reduced mpi f n0 i g)) |})
              (seq 0 n) 0%nat
              {| asyncGpuDataTransferers := replicate n idle;
                 ayncIntermediateCPUBuffers :=
                   map (λ g, replicate (N.to_nat (GetNumElements g)) zero) gs;
                 as_trace := trace; as_allReduceIndex := 0 |})
    as (s & Es & Hts & Hbufs & Htr & Hidx & Hass).
  - intros k x s Hx (Hts & Hbufs & Htr & Hidx & Hass). cbn [Nat.add] in *.
    apply lookup_seq in Hx as [-> Hk]. cbn [Nat.add] in *.
    destruct (lookup_lt_is_Some_2 gs k Hk) as [g Hg].
    destruct (lookup_lt_is_Some_2 (asyncGpuDataTransferers s) k) as [t Ht]; [lia|].
    destruct (lookup_lt_is_Some_2 (ayncIntermediateCPUBuffers s) k) as [b Hb]; [lia|].
    unfold async_step, at_index. rewrite Nat2N.id, Hg, Ht, Hb. cbn [bind].
    eexists. split; [done|]. cbn [asyncGpuDataTransferers ayncIntermediateCPUBuffers
                                 as_trace as_allReduceIndex fetch_in_flight assign_in_flight].
    rewrite !length_insert. split; [done|]. split; [done|]. split; [|split; [by rewrite Hidx|]].
    + rewrite Htr, (take_S_r _ _ _ Hg), map_app, app_assoc. done.
    + intros i g' Hi Hg'. destruct (decide (i = k)) as [->|Hne].
      * rewrite list_lookup_insert_eq by lia. assert (g' = g) as -> by congruence.
        do 4 f_equal. unfold async_reduced. cbn [Data with_Data]. f_equal.
        rewrite Htr. unfold n0, next_request, call.
        rewrite reduce_requests_app, (reduce_requests_map_AllReduce Data), length_app,
          length_map, length_take_le by lia. done.
      * rewrite list_lookup_insert_ne by done. apply Hass; [lia | done].
  - cbn. rewrite length_replicate, length_map, app_nil_r.
    split; [done|]. split; [done|]. split; [done|]. split; [done|]. intros i g Hi. lia.
  - cbn [Nat.add] in *. rewrite length_seq in *. rewrite Es. cbn [bind]. rewrite Hidx.
    rewrite take_ge in Htr by (unfold n; lia). rewrite Htr.
    destruct (foldl_inv (async_wait (asyncGpuDataTransferers s))
                (λ i gs', gs' = imap (λ j g, if (j <? i)%nat then async_reduced mpi f n0 j g
                                              else g) gs)
                (seq 0 n) 0%nat gs) as (gs' & Eg & Hgs').
    + intros i x gs' Hx ->. cbn [Nat.add] in *. apply lookup_seq in Hx as [-> Hi].
      cbn [Nat.add] in *. destruct (lookup_lt_is_Some_2 gs i Hi) as [g Hg].
      unfold async_wait, at_index. rewrite Nat2N.id, (Hass i g Hi Hg). cbn [bind assign_in_flight].
      rewrite Nat2N.id, list_lookup_imap, Hg. cbn [fmap option_fmap option_map bind].
      rewrite Nat.ltb_irrefl. eexists. split; [done|]. apply list_eq. intros j.
      rewrite list_lookup_imap. destruct (decide (j = i)) as [->|Hne].
      * rewrite list_lookup_insert_eq by (rewrite length_imap; lia). rewrite Hg.
        cbn [fmap option_fmap option_map].
        rewrite (proj2 (Nat.ltb_lt i (S i))) by lia. by destruct g.
      * rewrite list_lookup_insert_ne by done. rewrite list_lookup_imap.
        destruct (gs !! j) as [gj|]; [|done]. cbn [fmap option_fmap option_map]. f_equal.
        destruct (Nat.ltb_spec j i), (Nat.ltb_spec j (S i)); try done; lia.
    + cbn [Nat.add]. apply list_eq. intros j. rewrite list_lookup_imap.
      by destruct (gs !! j).
    + cbn [Nat.add] in *. rewrite length_seq in Hgs'. rewrite Eg. cbn [bind]. do 2 f_equal.
      rewrite Hgs'. apply imap_ext. intros j g Hj. apply lookup_lt_Some in Hj.
      by rewrite (proj2 (Nat.ltb_lt j n)).
Qed.

(** A gradient list without a sparse gradient: every gradient ends as
    the sum over the ranks of what the ranks hold of it, by one blocking
    all-reduce for each gradient, in the order of the list; an empty list
    makes no call. *)
Theorem AsyncAggreagateGradientsImpl_reduces mpi f (gs : list Matrix) trace :
  Forall (λ g, GetMatrixType g = DENSE) gs →
  AsyncAggreagateGradientsImpl mpi f gs trace
  = Ok (imap (async_reduced mpi f (next_request trace)) gs,
        trace ++ map (λ g, call_AllReduce (Data g) MPI_SUM) gs).
Proof. apply AsyncAggreagateGradientsImpl_Ok. Qed.

(** A sparse gradient anywhere in the list is refused before the first
    all-reduce: the check runs over the whole list first. *)
Theorem AsyncAggreagateGradientsImpl_sparse mpi f (gs : list Matrix) trace :
  (∃ g, g ∈ gs ∧ GetMatrixType g ≠ DENSE) →
  async_allocate gs
  = Throw (RuntimeError
             "Gradient aggregation for sparse gradient matrices is currently unsupported!")
  ∧ AsyncAggreagateGradientsImpl mpi f gs trace
    = Throw (RuntimeError
               "Gradient aggregation for sparse gradient matrices is currently unsupported!").
Proof.
  intros Hs. pose proof (async_allocate_sparse gs Hs) as E. split; [done|].
  unfold AsyncAggreagateGradientsImpl.
  destruct gs as [|g0 rest] eqn:Egs; [destruct Hs as [? [[]%elem_of_nil _]]|].
  rewrite <- Egs in *.
  assert (Hn : (length gs =? 0)%nat = false) by (by rewrite Egs).
  assert (E0 : at_index "gradients[0]" gs 0 = Ok g0) by (by rewrite Egs).
  by rewrite Hn, E0, E.
Qed.

(** *** The thread that drains the queue *)

Section thread.
Variable resized : N → N → list ElemType.








(** While the flag is not set the thread does not return, however long
    it runs: it leaves the loop only by an exception. *)
Theorem BackpropAsyncMpiThread_spins mpi f fuel (queue : list N)
    (st : gmap N ComputationNode * list Call) r :
  NumNodesInUse mpi ≠ 1 →
  BackpropAsyncMpiThread resized fuel mpi f false queue st ≠ Some (Ok r).
Proof.
  intros HW. unfold BackpropAsyncMpiThread. rewrite (proj2 (N.eqb_neq _ _) HW).
  revert queue st. induction fuel as [|fuel IH]; intros queue st; [done|].
  cbn [BackpropAsyncMpiThread_loop andb].
  destruct (drain_queue _ _ _ _ _ _) as [[q' st']|e]; [apply IH | done].
Qed.

End thread.

(** The nodes a backward pass hands to [AsyncAggreagateGradients] join the
    queue in the order of the calls, those that need no gradient left
    out; on a single rank none joins. *)
Theorem AsyncAggreagateGradients_enqueues mpi (nodes : gmap N ComputationNode)
    (queue ps : list N) (ns : list ComputationNode) :
  Forall2 (λ p n, nodes !! p = Some n) ps ns →
  foldl (λ r p, do q <- r; AsyncAggreagateGradients mpi nodes q p) (Ok queue) ps
  = Ok (if NumNodesInUse mpi =? 1 then queue
        else queue ++ (filter (λ pn, NeedsGradient pn.2 = true) (zip ps ns)).*1).
Proof.
  intros Hns. revert queue. induction Hns as [|p n ps ns Hp _ IH]; intros queue.
  - cbn. destruct (_ =? 1); by rewrite ?app_nil_r.
  - cbn [foldl bind zip zip_with]. unfold AsyncAggreagateGradients at 2.
    destruct (NumNodesInUse mpi =? 1) eqn:EW.
    + by rewrite IH.
    + rewrite Hp. cbn [deref bind]. rewrite filter_cons. cbn [snd].
      destruct (NeedsGradient n) eqn:En; cbn [negb].
      * rewrite decide_True by done. rewrite IH. unfold threadsafe_queue.push.
        by rewrite fmap_cons, <- app_assoc.
      * rewrite decide_False by done. by rewrite IH.
Qed.

(** ** DistributedCheck *)

Lemma DistributedCheck_loop (gathered : list N) x0 n :
  gathered !! 0%nat = Some x0 → (n ≤ length gathered)%nat →
  foldl (λ (r : result bool) (i : nat),
           do same <- r;
           if same then
             do x <- at_index "gatherBuffer[i]" gathered (N.of_nat i);
             do x0 <- at_index "gatherBuffer[0]" gathered 0;
             Ok (x =? x0)
           else Ok false)
        (Ok true) (seq 1 (n - 1))
  = Ok (forallb (λ x, x =? x0) (take n gathered)).
Proof.
  intros Hx0 Hn. destruct n as [|n]; [done|]. replace (S n - 1)%nat with n by lia.
  destruct (foldl_inv
              (λ (same : bool) (i : nat),
                 if same then
                   do x <- at_index "gatherBuffer[i]" gathered (N.of_nat i);
                   do x0 <- at_index "gatherBuffer[0]" gathered 0;
                   Ok (x =? x0)
                 else Ok false)
              (λ k same, same = forallb (λ x, x =? x0) (take (S k) gathered))
              (seq 1 n) 0%nat true) as (same & E & Hsame).
  - intros k i same Hi ->. cbn [Nat.add] in *. apply lookup_seq in Hi as [-> Hk].
    cbn [Nat.add]. destruct (lookup_lt_is_Some_2 gathered (S k)) as [x Hx]; [lia|].
    rewrite (take_S_r _ _ _ Hx), forallb_app. cbn [forallb]. rewrite andb_true_r.
    destruct (forallb _ (take (S k) gathered)).
    + unfold at_index. rewrite Nat2N.id, Hx. change (N.to_nat 0) with 0%nat. rewrite Hx0.
      cbn [bind andb]. by eexists.
    + by eexists.
  - cbn [Nat.add]. rewrite (take_S_r _ _ _ Hx0), take_0. cbn [app forallb].
    by rewrite N.eqb_refl.
  - cbn [Nat.add] in Hsame. rewrite length_seq in Hsame. by rewrite E, Hsame.
Qed.

Lemma gathered_agree (gathered : list N) x0 :
  gathered !! 0%nat = Some x0 →
  forallb (λ x, x =? x0) gathered = true
  ↔ ∀ i x, gathered !! i = Some x → gathered !! 0%nat = Some x.
Proof.
  intros Hx0. rewrite forallb_forall. split.
  - intros Hall i x Hx. rewrite Hx0. f_equal. symmetry. apply N.eqb_eq, Hall.
    by eapply list_elem_of_In, list_elem_of_lookup_2.
  - intros Hall x [i Hx]%list_elem_of_In%list_elem_of_lookup. apply N.eqb_eq.
    specialize (Hall i x Hx). congruence.
Qed.

(** With [processNum] the number of ranks, the check answers whether
    every rank passed the minibatch size of rank 0. *)
Theorem DistributedCheck_agrees a peer_size minibatchSize :
  NumProc a ≠ 0 →
  ∃ same, DistributedCheck a peer_size minibatchSize (NumProc a) = Ok same
    ∧ (same = true ↔
       ∀ i x, gathered_sizes a peer_size minibatchSize !! i = Some x →
              gathered_sizes a peer_size minibatchSize !! 0%nat = Some x).
Proof.
  intros HW. unfold DistributedCheck. rewrite N.ltb_irrefl.
  set (gathered := gathered_sizes a peer_size minibatchSize).
  assert (Hlen : length gathered = N.to_nat (NumProc a))
    by (unfold gathered, gathered_sizes; by rewrite length_map, length_seq).
  destruct (lookup_lt_is_Some_2 gathered 0) as [x0 Hx0]; [lia|].
  rewrite (DistributedCheck_loop gathered x0) by (done || lia).
  eexists. split; [done|]. rewrite take_ge by lia. by apply gathered_agree.
Qed.

(** [processNum] has to be the number of ranks: with fewer slots the
    gather writes past the buffer, and with more, when the ranks agree, the
    loop reads a slot that nothing wrote. *)
Theorem DistributedCheck_processNum a peer_size minibatchSize processNum :
  NumProc a ≠ 0 →
  (processNum < NumProc a →
     DistributedCheck a peer_size minibatchSize processNum = Throw (Fault "gatherBuffer"))
  ∧ (NumProc a < processNum →
     (∀ i x, gathered_sizes a peer_size minibatchSize !! i = Some x →
             gathered_sizes a peer_size minibatchSize !! 0%nat = Some x) →
     DistributedCheck a peer_size minibatchSize processNum
     = Throw (Fault "gatherBuffer[i]")).
Proof.
  intros HW. split.
  - intros Hlt. unfold DistributedCheck. by rewrite (proj2 (N.ltb_lt _ _) Hlt).
  - intros Hgt Hall. unfold DistributedCheck.
    rewrite (proj2 (N.ltb_ge _ _)) by lia.
    set (gathered := gathered_sizes a peer_size minibatchSize) in *.
    assert (Hlen : length gathered = N.to_nat (NumProc a))
      by (unfold gathered, gathered_sizes; by rewrite length_map, length_seq).
    destruct (lookup_lt_is_Some_2 gathered 0) as [x0 Hx0]; [lia|].
    set (n := N.to_nat (NumProc a)) in *.
    replace (N.to_nat processNum - 1)%nat
      with ((n - 1) + (1 + (N.to_nat processNum - 1 - n)))%nat by lia.
    rewrite seq_app, foldl_app, (DistributedCheck_loop gathered x0) by (done || lia).
    rewrite take_ge by lia. rewrite (proj2 (gathered_agree gathered x0 Hx0) Hall).
    rewrite seq_app, foldl_app. replace (1 + (n - 1))%nat with n by lia.
    assert (Ei : at_index "gatherBuffer[i]" gathered (N.of_nat n)
                 = Throw (Fault "gatherBuffer[i]")).
    { unfold at_index. by rewrite Nat2N.id, (proj2 (lookup_ge_None gathered n)) by lia. }
    cbn [seq foldl bind]. rewrite Ei. cbn [bind]. apply foldl_bind_Throw.
Qed.

(** ** DistributedInit, DistributedAllReduce and DistributedAllGather *)

Lemma length_concat_map {A B : Type} (f : A → list B) (l : list A) c :
  (∀ x, length (f x) = c) → length (concat (map f l)) = (c * length l)%nat.
Proof.
  intros Hf. induction l as [|x l IH]; cbn [map concat length]; [lia|].
  rewrite length_app, Hf, IH. lia.
Qed.

Lemma length_gather_contributions mpi peer own count :
  (∀ s, (N.to_nat count ≤ length (peer s))%nat) → (N.to_nat count ≤ length own)%nat →
  length (gather_contributions mpi peer own count)
  = (N.to_nat count * N.to_nat (NumNodesInUse mpi))%nat.
Proof.
  intros Hpeer Hown. unfold gather_contributions.
  rewrite (length_concat_map _ _ (N.to_nat count)), length_seq; [done|].
  intros s. rewrite length_take. destruct (_ =? _); [lia | specialize (Hpeer (N.of_nat s)); lia].
Qed.

Lemma gather_contributions_staged mpi peer own rest count :
  (N.to_nat count ≤ length own)%nat →
  gather_contributions mpi peer (take (N.to_nat count) own ++ rest) count
  = gather_contributions mpi peer own count.
Proof.
  intros Hown. unfold gather_contributions. f_equal. apply map_ext. intros s.
  destruct (_ =? _); [|done].
  rewrite take_app_le by (rewrite length_take; lia). rewrite take_take. f_equal. lia.
Qed.

Lemma all_gather_Ok what mpi peer sendbuf recvbuf count :
  (N.to_nat count ≤ length sendbuf)%nat →
  (length (gather_contributions mpi peer sendbuf count) ≤ length recvbuf)%nat →
  all_gather what mpi peer sendbuf recvbuf count
  = Ok (gather_contributions mpi peer sendbuf count
        ++ drop (length (gather_contributions mpi peer sendbuf count)) recvbuf).
Proof.
  intros Hs Hr. unfold all_gather.
  by rewrite (proj2 (Nat.leb_le _ _) Hs), (proj2 (Nat.leb_le _ _) Hr).
Qed.

Lemma cudaMemcpy_Ok what dst src n :
  (N.to_nat n ≤ length src)%nat → (N.to_nat n ≤ length dst)%nat →
  cudaMemcpy what dst src n = Ok (take (N.to_nat n) src ++ drop (N.to_nat n) dst).
Proof.
  intros Hs Hd. unfold cudaMemcpy.
  by rewrite (proj2 (Nat.leb_le _ _) Hs), (proj2 (Nat.leb_le _ _) Hd).
Qed.

(** What [DistributedInit] leaves on several ranks: the communicator,
    and on the staged configuration two host buffers of [bufferSize]
    elements. *)
Lemma DistributedInit_Ok env a0 a deviceId bufferSize :
  NumNodesInUse (m_mpi a0) ≠ 1 →
  DistributedInit env a0 deviceId bufferSize = Ok a →
  ∃ nccl, m_nccl a = Some nccl ∧ m_mpi a = m_mpi a0
    ∧ (stages a0 deviceId nccl = true →
         m_intermediateDistributedCPUBuffer1 a = Some (replicate (N.to_nat bufferSize) zero)
         ∧ m_intermediateDistributedCPUBuffer2 a = Some (replicate (N.to_nat bufferSize) zero)).
Proof.
  intros HW H. unfold DistributedInit in H. rewrite (proj2 (N.eqb_neq _ _) HW) in H.
  set (a1 := match m_nccl a0 with Some _ => a0 | None => _ end) in H.
  assert (∃ nccl, m_nccl a1 = Some nccl ∧ m_mpi a1 = m_mpi a0) as (nccl & Hn & Hm).
  { unfold a1. destruct (m_nccl a0) as [nccl|] eqn:E; [by exists nccl | by eexists]. }
  rewrite (ShouldCopyDataToCPU_stages a1 _ nccl Hn) in H.
  assert (Hst : stages a1 deviceId nccl = stages a0 deviceId nccl)
    by (unfold stages; by rewrite Hm).
  rewrite Hst in H. exists nccl. destruct (stages a0 deviceId nccl).
  - injection H as <-. destruct (negb (m_allocator a1)); by cbn.
  - injection H as <-. by repeat split.
Qed.

(** After [DistributedInit] on several ranks, [DistributedAllGather] of
    [count] elements per rank into a matrix of [count] times the number of
    ranks elements, that many fitting the buffers asked for, leaves in it
    the contributions of all ranks in rank order, whether the transport
    is staged through the host, the non-blocking gather on the CPU, or
    NCCL; with GPU-direct and no NCCL it ends in its logic error. *)
Theorem DistributedAllGather_after_init env peer a0 a dm gm count bufferSize :
  1 < NumNodesInUse (m_mpi a0) →
  DistributedInit env a0 (GetDeviceId dm) bufferSize = Ok a →
  (N.to_nat count ≤ length (Data dm))%nat →
  (∀ s, (N.to_nat count ≤ length (peer s))%nat) →
  well_formed gm →
  GetNumElements gm = count * NumNodesInUse (m_mpi a0) →
  count * NumNodesInUse (m_mpi a0) ≤ bufferSize →
  ∃ nccl, m_nccl a = Some nccl ∧
    let r := DistributedAllGather peer a dm gm count in
    if UseGpuGdr (m_mpi a0) && negb (IsSupported nccl)
    then ga_thrown r
         = Some (LogicError "LogicError in SimpleDistGradAggregator::DistributedAllGather")
    else ga_thrown r = None
         ∧ Data (ga_matrix r) = gather_contributions (m_mpi a0) peer (Data dm) count.
Proof.
  intros HW Hinit Hdm Hpeer Hwf Hn Hfit.
  assert (HW1 : NumNodesInUse (m_mpi a0) ≠ 1) by lia.
  destruct (DistributedInit_Ok _ _ _ _ _ HW1 Hinit) as (nccl & Hnccl & Hmpi & Hbuf).
  exists nccl. split; [done|]. unfold well_formed in Hwf. rewrite Hn in Hwf.
  pose proof (length_gather_contributions (m_mpi a0) peer (Data dm) count Hpeer Hdm) as HG.
  set (G := gather_contributions (m_mpi a0) peer (Data dm) count) in *.
  assert (Hgather : all_gather "gatheredMatrixBuffer" (m_mpi a0) peer (Data dm) (Data gm) count
                    = Ok G).
  { rewrite all_gather_Ok by (done || fold G; lia). fold G.
    rewrite drop_ge by lia. by rewrite app_nil_r. }
  unfold DistributedAllGather, stages in *. rewrite Hnccl, Hmpi.
  destruct (UseGpuGdr (m_mpi a0)) eqn:Egdr, (GetDeviceId dm =? CPUDEVICE)%Z eqn:Ecpu,
    nccl as [[|]]; cbn [negb andb orb IsSupported] in *;
    rewrite ?Hgather; cbn [ga_thrown ga_matrix with_Data Data]; try done.
  destruct Hbuf as [Hb1 Hb2]; [done|]. unfold staged_gather. rewrite Hb1, Hb2, Hmpi.
  cbn [deref bind].
  assert (Hc : (N.to_nat count ≤ N.to_nat bufferSize)%nat).
  { assert (count ≤ count * NumNodesInUse (m_mpi a0)); [|lia].
    rewrite <- (N.mul_1_r count) at 1. apply N.mul_le_mono_l. lia. }
  rewrite cudaMemcpy_Ok by (rewrite ?length_replicate; done). cbn [bind].
  rewrite all_gather_Ok.
  2:{ rewrite length_app, length_take. lia. }
  2:{ rewrite gather_contributions_staged by done. fold G. rewrite length_replicate. lia. }
  cbn [bind]. rewrite gather_contributions_staged by done. fold G.
  rewrite cudaMemcpy_Ok.
  2:{ rewrite length_app, length_drop, length_replicate, Hn. lia. }
  2:{ rewrite Hn. lia. }
  cbn [bind ga_thrown ga_matrix with_Data Data]. split; [done|].
  rewrite Hn, take_app_length' by lia. rewrite drop_ge by lia. apply app_nil_r.
Qed.

(** A gathered matrix with room for more than is gathered keeps its own
    elements past the gathered ones on the CPU and NCCL transports; on
    the staged transport it gets there what the second host buffer held,
    as the copy back to the device takes as many elements as the matrix
    has. *)
Theorem DistributedAllGather_tail peer a dm gm count nccl :
  m_nccl a = Some nccl → UseGpuGdr (m_mpi a) = false →
  (N.to_nat count ≤ length (Data dm))%nat → well_formed gm →
  let G := gather_contributions (m_mpi a) peer (Data dm) count in
  (length G ≤ length (Data gm))%nat →
  let r := DistributedAllGather peer a dm gm count in
  (stages a (GetDeviceId dm) nccl = false →
     ga_thrown r = None ∧ Data (ga_matrix r) = G ++ drop (length G) (Data gm)) ∧
  (stages a (GetDeviceId dm) nccl = true → ∀ b1 b2,
     m_intermediateDistributedCPUBuffer1 a = Some b1 →
     m_intermediateDistributedCPUBuffer2 a = Some b2 →
     (N.to_nat count ≤ length b1)%nat → (length (Data gm) ≤ length b2)%nat →
     ga_thrown r = None
     ∧ Data (ga_matrix r) = G ++ take (length (Data gm) - length G) (drop (length G) b2)
     ∧ m_intermediateDistributedCPUBuffer2 (ga_agg r) = Some (G ++ drop (length G) b2)).
Proof.
  intros Hnccl Hgdr Hdm Hwf G HG r. subst r. unfold well_formed in Hwf.
  assert (Hgather : all_gather "gatheredMatrixBuffer" (m_mpi a) peer (Data dm) (Data gm) count
                    = Ok (G ++ drop (length G) (Data gm)))
    by (by rewrite all_gather_Ok).
  unfold DistributedAllGather, stages. rewrite Hnccl, Hgdr. split.
  - intros Hst. destruct (GetDeviceId dm =? CPUDEVICE)%Z, nccl as [[|]];
      cbn [negb andb orb IsSupported] in *; try done;
      rewrite ?Hgather; by cbn [ga_thrown ga_matrix with_Data Data].
  - intros Hst b1 b2 Hb1 Hb2 Hl1 Hl2.
    destruct (GetDeviceId dm =? CPUDEVICE)%Z, nccl as [[|]];
      cbn [negb andb orb IsSupported] in *; try done.
    unfold staged_gather. rewrite Hb1, Hb2. cbn [deref bind].
    rewrite cudaMemcpy_Ok by done. cbn [bind].
    rewrite all_gather_Ok.
    2:{ rewrite length_app, length_take. lia. }
    2:{ rewrite gather_contributions_staged by done. fold G. lia. }
    cbn [bind]. rewrite gather_contributions_staged by done. fold G.
    rewrite cudaMemcpy_Ok.
    2:{ rewrite length_app, length_drop. lia. }
    2:{ lia. }
    cbn [bind ga_thrown ga_matrix ga_agg with_Data Data]. split; [done|]. split; [|done].
    rewrite <- Hwf, take_app_ge by done. rewrite (drop_ge (Data gm)) by lia.
    by rewrite app_nil_r.
Qed.

(** On a single rank nothing creates the NCCL communicator:
    [AggregateGradients] and [DistributedInit] return with the object
    as it was, so that [DistributedAllReduce] and [DistributedAllGather]
    dereference the null [m_nccl] of a new aggregator. *)
Theorem single_rank_distributed_faults env f peer a :
  NumNodesInUse (m_mpi a) = 1 → m_nccl a = None →
  (∀ gradients headerCPU resetState,
     ∃ r, AggregateGradients env a gradients headerCPU resetState = Ok r ∧ ret_agg r = a) ∧
  (∀ deviceId bufferSize, DistributedInit env a deviceId bufferSize = Ok a) ∧
  (∀ m op, dr_thrown (DistributedAllReduce f a m op) = Some (Fault "m_nccl")) ∧
  (∀ dm gm count, ga_thrown (DistributedAllGather peer a dm gm count) = Some (Fault "m_nccl")).
Proof.
  intros HW Hn. repeat split.
  - intros gs h rs. unfold AggregateGradients. rewrite HW. by eexists.
  - intros d n. unfold DistributedInit. by rewrite HW.
  - intros m op. unfold DistributedAllReduce. by rewrite Hn.
  - intros dm gm c. unfold DistributedAllGather. by rewrite Hn.
Qed.

End Aggregator.

(** * Scenarios on integer elements

    The elements and the doubles of the header are taken to be integers,
    with the four reduction operators on them; an element takes four
    bytes. *)

Definition int_reduce (op : MPI_Op) (x y : Z) : Z :=
  match op with
  | MPI_SUM => (x + y)%Z
  | MPI_MAX => Z.max x y
  | MPI_MIN => Z.min x y
  | MPI_PROD => (x * y)%Z
  end.

Definition rank_mpi (world rank : N) (gdr : bool) : MPIWrapper :=
  {| NumNodesInUse := world; CurrentNodeRank := rank; MainNodeRank := 0;
     UseGpuGdr := gdr |}.

(** A dense matrix with the given elements. *)
Definition dense (rows cols : N) (deviceId : Z) (d : list Z) : Matrix Z :=
  {| GetNumRows := rows; GetNumCols := cols; GetDeviceId := deviceId;
     GetMatrixType := DENSE; Data := d |}.

(** A header of one evaluation node. *)
Definition stats (samples : N) (c : Z) : DistGradHeader Z :=
  {| numSamples := samples; numSamplesWithLabel := samples; criterion := c;
     numEvalNode := 1; evalErrors := [(c, samples)] |}.

(** A fresh aggregator with a pack threshold of 32 bytes. *)
Definition fresh (world rank : N) (gdr async : bool) : SimpleDistGradAggregator Z Z :=
  new_SimpleDistGradAggregator Z Z (rank_mpi world rank gdr) async 0 0 32.

(** An environment without peers. *)
Definition alone (nccl alloc : bool) : Env Z Z :=
  {| env_fabric := silent Z Z; env_nccl_supported := nccl; env_buffer_alloc_ok := alloc |}.

Definition the_state {A : Type} (r : result A) (d : A) : A :=
  match r with
  | Ok a => a
  | Throw _ => d
  end.

(** ** Initialization *)

(** One gradient of four elements and one of nine. *)
Definition two_gradients : list (N * Matrix Z) :=
  [(100, dense 2 2 0 [1; 2; 3; 4]%Z); (200, dense 3 3 0 (replicate 9 7%Z))].

(** The aggregator of rank 0 of two, with its communicator built. *)
Definition uninitialized : SimpleDistGradAggregator Z Z :=
  set_nccl Z Z (Some {| IsSupported := false |}) (fresh 2 0 true false).

Definition initialized (alloc : bool) : SimpleDistGradAggregator Z Z :=
  the_state (ResetState Z 4 0%Z Z 0%Z alloc uninitialized two_gradients 1 true)
            uninitialized.

Lemma initialized_Ok alloc :
  ResetState Z 4 0%Z Z 0%Z alloc uninitialized two_gradients 1 true
  = Ok (initialized alloc).
Proof. destruct alloc; vm_compute; reflexivity. Qed.

(** With the packed buffer the small gradient is packed and the large one
    follows the sentinel. *)
Lemma ResetState_partition_witness :
  m_packedGradientsIndex Z Z (initialized true) = [0]
  ∧ m_gradientIndexToAggregate Z Z (initialized true) = [NONE; 1]
  ∧ (head (m_gradientIndexToAggregate Z Z (initialized true)) = Some NONE
     ↔ m_packedGradientsIndex Z Z (initialized true) ≠ []).
Proof.
  split; [by vm_compute|]. split; [by vm_compute|].
  refine (proj1 (proj2 (proj2 (proj2
    (ResetState_partition Z 4 0%Z Z Z.add 0%Z true uninitialized two_gradients 1 true
       (initialized true) eq_refl eq_refl eq_refl _ (initialized_Ok true)))))).
  by vm_compute.
Defined.

(** C4 as stated fails where the allocation of the packed buffer fails:
    position 0 has sixteen bytes, which is below the threshold, async
    aggregation is off, and the position is not packed. *)
Lemma ResetState_partition_counterexample :
  ∃ pg, two_gradients !! 0%nat = Some pg
  ∧ size_mul 4 (GetNumElements Z pg.2) ≤ m_packThresholdSizeInBytes Z Z uninitialized
  ∧ m_useAsyncAggregation Z Z uninitialized = false
  ∧ ResetState Z 4 0%Z Z 0%Z false uninitialized two_gradients 1 true
    = Ok (initialized false)
  ∧ 0 ∉ m_packedGradientsIndex Z Z (initialized false).
Proof.
  eexists. split; [reflexivity|]. split; [by vm_compute|]. split; [reflexivity|].
  split; [apply initialized_Ok|]. vm_compute. apply not_elem_of_nil.
Qed.

(** A later call with [resetState] and a gradient list of other sizes. *)
Definition large_first : list (N * Matrix Z) :=
  [(100, dense 3 3 0 (replicate 9 7%Z)); (200, dense 2 2 0 [1; 2; 3; 4]%Z)].

Definition reset_again : SimpleDistGradAggregator Z Z :=
  the_state (ResetState Z 4 0%Z Z 0%Z true (initialized true) large_first 1 true)
            (initialized true).

Lemma reset_again_Ok :
  ResetState Z 4 0%Z Z 0%Z true (initialized true) large_first 1 true = Ok reset_again.
Proof. vm_compute; reflexivity. Qed.

Lemma ResetState_classifies_once_witness :
  m_packedGradientsIndex Z Z reset_again = m_packedGradientsIndex Z Z (initialized true)
  ∧ m_gradientIndexToAggregate Z Z reset_again
    = m_gradientIndexToAggregate Z Z (initialized true)
  ∧ m_aggregationBuffer Z Z reset_again = m_aggregationBuffer Z Z (initialized true).
Proof.
  exact (proj2 (ResetState_classifies_once Z 4 0%Z Z 0%Z true (initialized true)
                  large_first 1 true reset_again reset_again_Ok) eq_refl).
Defined.

(** C7 as stated fails on a later call with [resetState]: position 0 now
    holds thirty-six bytes, above the threshold, and stays packed;
    position 1 now holds sixteen bytes and stays on its own. *)
Lemma ResetState_classifies_once_counterexample :
  ResetState Z 4 0%Z Z 0%Z true (initialized true) large_first 1 true = Ok reset_again
  ∧ m_initialized Z Z (initialized true) = true
  ∧ (∃ pg, large_first !! 0%nat = Some pg
       ∧ m_packThresholdSizeInBytes Z Z reset_again
           < size_mul 4 (GetNumElements Z pg.2))
  ∧ m_packedGradientsIndex Z Z reset_again = [0]
  ∧ m_gradientIndexToAggregate Z Z reset_again = [NONE; 1].
Proof.
  split; [apply reset_again_Ok|]. split; [reflexivity|].
  split; [eexists; split; [reflexivity | by vm_compute]|].
  split; reflexivity.
Qed.

(** ** The entry point *)

Definition one_gradient (deviceId : Z) (d : list Z) : list (N * Matrix Z) :=
  [(100, dense 2 2 deviceId d)].

(** The first call of a rank in async mode dispatches a task. *)
Definition dispatched : Returned Z Z :=
  the_state
    (AggregateGradients Z 4 int_reduce 0%Z Z Z.add 0%Z (alone false true)
       (fresh 2 1 false true) (one_gradient 0 [1; 0; 0; 1]%Z) (stats 1 1) true)
    {| ret_value := false; ret_agg := fresh 2 1 false true; ret_gradients := [];
       ret_header := stats 0 0; ret_trace := [] |}.

Lemma dispatched_Ok :
  AggregateGradients Z 4 int_reduce 0%Z Z Z.add 0%Z (alone false true)
    (fresh 2 1 false true) (one_gradient 0 [1; 0; 0; 1]%Z) (stats 1 1) true
  = Ok dispatched.
Proof. vm_compute; reflexivity. Qed.

Lemma reset_with_pending_task_witness :
  AggregateGradients Z 4 int_reduce 0%Z Z Z.add 0%Z (alone false true)
    (ret_agg Z Z dispatched) (one_gradient 0 [2; 0; 0; 2]%Z) (stats 1 1) true =
  Throw (LogicError
           "Unexpected pending async gradient aggregation found when resetting aggregator state!").
Proof.
  apply (reset_with_pending_task Z 4 int_reduce 0%Z Z Z.add 0%Z).
  - by vm_compute.
  - by vm_compute.
  - by vm_compute.
  - vm_compute. by eexists.
Defined.


(** ** DistributedAllReduce *)

(** A fabric whose only peer, rank 1, contributes one buffer. *)
Definition peer_with (d : list Z) : Fabric Z Z :=
  {| peer_send := λ _, None; peer_buffer := λ _ _, d;
     completion_order := []; bcast_header := λ _, None |}.

Definition with_nccl (supported : bool) (a : SimpleDistGradAggregator Z Z) :=
  set_nccl Z Z (Some {| IsSupported := supported |}) a.




(** ** The receive headers of the main rank *)

(** The peer of a main rank whose header has three samples: it hands a
    header with the same tag to [Isend]. *)
Definition header_peer : Fabric Z Z :=
  {| peer_send := λ _, Some (3%Z, stats 3 2); peer_buffer := λ _ _, [];
     completion_order := []; bcast_header := λ _, None |}.

(** The main rank of two after [calls] calls of [AsyncAggregateGradHeader]
    from the state [a]. *)
Definition after_header_calls (a : SimpleDistGradAggregator Z Z) (calls : nat)
  : result (SimpleDistGradAggregator Z Z) :=
  Nat.iter calls
    (λ r, do a <- r;
          do r' <- AsyncAggregateGradHeader Z Z Z.add 0%Z
                     {| env_fabric := header_peer; env_nccl_supported := false;
                        env_buffer_alloc_ok := true |} a (stats 3 1);
          Ok r'.1.1.2)
    (Ok a).

(** The length of the array of receive headers, when the calls returned. *)
Definition receive_headers (r : result (SimpleDistGradAggregator Z Z)) : option nat :=
  match r with
  | Ok a => Some (length (m_recvHeaders Z Z a))
  | Throw _ => None
  end.

(** C8: on the main rank of two every call of [AsyncAggregateGradHeader]
    appends [NumProc() - 1] receive headers, which is one: a fresh
    aggregator has two after the second call, and an aggregator that
    [ResetState] initialized with its one receive header has two after the
    first. *)
Theorem AsyncAggregateGradHeader_appends :
  size_sub (NumProc Z Z (fresh 2 0 false false)) 1 = 1
  ∧ receive_headers (after_header_calls (fresh 2 0 false false) 0) = Some 0%nat
  ∧ receive_headers (after_header_calls (fresh 2 0 false false) 1) = Some 1%nat
  ∧ receive_headers (after_header_calls (fresh 2 0 false false) 2) = Some 2%nat
  ∧ IsMainNode (m_mpi Z Z (initialized true)) = true
  ∧ m_initialized Z Z (initialized true) = true
  ∧ receive_headers (Ok (initialized true)) = Some 1%nat
  ∧ receive_headers (after_header_calls (initialized true) 1) = Some 2%nat.
Proof. by vm_compute. Qed.

(** ** The first call without a packed buffer *)


(** ** The pipeline on a cluster *)

(** A rank as its first call of [AggregateGradients] leaves it before the
    pipeline: the communicator built, the state initialized. *)
Definition ready (world rank : N) (gdr nccl : bool) (gs : list (N * Matrix Z))
    (h : DistGradHeader Z) : Node Z Z :=
  {| node_agg :=
       (the_state (AggregateGradients_prologue Z 4 0%Z Z 0%Z (alone nccl true)
                     (fresh world rank gdr false) gs h true)
                  (fresh world rank gdr false, false)).1;
     node_gradients := gs.*2; node_header := h |}.

(** A gradient of four elements, which is packed, and one of nine, which
    is aggregated on its own. *)
Definition gradients_of (deviceId : Z) (x y : Z) : list (N * Matrix Z) :=
  [(100, dense 2 2 deviceId [x; (x + 1); (x + 2); (x + 3)]%Z);
   (200, dense 3 3 deviceId (replicate 9 y))].



(** Three ranks with gradients on the CPU, rank 0 without samples: over
    plain MPI, and over an MPI with GPU-direct RDMA. *)
Definition on_cpu (gdr : bool) : list (Node Z Z) :=
  [ready 3 0 gdr false (gradients_of (-1) 1 7) (stats 0 0);
   ready 3 1 gdr false (gradients_of (-1) 5 1) (stats 5 2);
   ready 3 2 gdr false (gradients_of (-1) 9 2) (stats 4 3)].

(** What a rank holds after the pipeline. *)
Definition aggregated
    (r : result (SimpleDistGradAggregator Z Z * list (Matrix Z) * DistGradHeader Z
                 * list (Call Z Z))) : option (list (list Z) * DistGradHeader Z) :=
  match r with
  | Ok (_, gs, h, _) => Some (Data Z <$> gs, h)
  | Throw _ => None
  end.





(** C5: with gradients on the CPU and an MPI with GPU-direct RDMA the
    pipeline issues no all-reduce. The headers are summed, rank 0, which
    processed no sample, is left with zeros and the other ranks with their
    own gradients; over plain MPI the same ranks end with the sum of the
    gradients of ranks 1 and 2. *)
Theorem AggregateGradientsImpl_gdr_on_cpu :
  aggregated <$> run_pipeline Z int_reduce 0%Z Z Z.add [0%nat; 1%nat] (on_cpu true)
  = [Some ([replicate 4 0%Z; replicate 9 0%Z], stats 9 5);
     Some ([[5; 6; 7; 8]%Z; replicate 9 1%Z], stats 9 5);
     Some ([[9; 10; 11; 12]%Z; replicate 9 2%Z], stats 9 5)]
  ∧ aggregated <$> run_pipeline Z int_reduce 0%Z Z Z.add [0%nat; 1%nat] (on_cpu false)
    = replicate 3 (Some ([[14; 16; 18; 20]%Z; replicate 9 3%Z], stats 9 5))
  ∧ (λ n, reduce_requests Z Z (posted Z int_reduce 0%Z Z n)) <$> on_cpu true = [[]; []; []].
Proof. by vm_compute. Qed.

(** * Further scenarios *)

(** ** Packing and unpacking *)

Lemma unpack_pack_gradients_witness :
  ∃ a', pack_gradients Z Z (initialized true) (two_gradients.*2)
          (m_packedGradientsIndex Z Z (initialized true)) 0 = Ok a'
      ∧ unpack_gradients Z Z a' (two_gradients.*2)
          (m_packedGradientsIndex Z Z (initialized true)) 0 = Ok (two_gradients.*2).
Proof.
  refine (unpack_pack_gradients Z Z (initialized true) (two_gradients.*2)
            (new_Matrix Z 0%Z 1 4 0) _ _ _ _ _ _).
  - by vm_compute.
  - vm_compute. apply NoDup_singleton.
  - intros i Hi. vm_compute in Hi. apply list_elem_of_singleton in Hi as ->. by eexists.
  - repeat constructor.
  - vm_compute. lia.
  - by vm_compute.
Defined.

(** ** The entry point: errors *)

Definition sparse (rows cols : N) (deviceId : Z) : Matrix Z :=
  {| GetNumRows := rows; GetNumCols := cols; GetDeviceId := deviceId;
     GetMatrixType := SPARSE; Data := [] |}.

Lemma AggregateGradients_sparse_witness :
  AggregateGradients Z 4 int_reduce 0%Z Z Z.add 0%Z (alone false true)
    (fresh 2 0 false false) [(100, dense 2 2 0 [1; 2; 3; 4]%Z); (200, sparse 2 2 0)]
    (stats 1 1) false
  = Throw (RuntimeError
             "Gradient aggregation for sparse gradient matrices is currently unsupported!").
Proof.
  apply (AggregateGradients_sparse Z 4 int_reduce 0%Z Z Z.add 0%Z).
  - by vm_compute.
  - reflexivity.
  - exists (200, sparse 2 2 0). split; [|done]. apply list_elem_of_In. right. by left.
Defined.

Lemma AggregateGradients_no_gradients_witness :
  AggregateGradients Z 4 int_reduce 0%Z Z Z.add 0%Z (alone false true)
    (fresh 2 0 false false) [] (stats 1 1) false
  = Throw (Fault "gradients[0]").
Proof.
  apply (AggregateGradients_no_gradients Z 4 int_reduce 0%Z Z Z.add 0%Z).
  - by vm_compute.
  - by left.
Defined.

(** ** The async mode *)

(** An environment whose fabric broadcasts the header [h] and contributes
    the buffer [d] to every all-reduce. *)
Definition answering (h : DistGradHeader Z) (d : list Z) : Env Z Z :=
  {| env_fabric := {| peer_send := λ _, None; peer_buffer := λ _ _, d;
                      completion_order := []; bcast_header := λ _, Some h |};
     env_nccl_supported := false; env_buffer_alloc_ok := true |}.

(** The call after [dispatched]. *)
Definition delayed : Returned Z Z :=
  the_state
    (AggregateGradients Z 4 int_reduce 0%Z Z Z.add 0%Z (answering (stats 4 4) [5; 5; 5; 5]%Z)
       (ret_agg Z Z dispatched) (one_gradient 0 [2; 0; 0; 2]%Z) (stats 2 2) false)
    dispatched.

Lemma delayed_Ok :
  AggregateGradients Z 4 int_reduce 0%Z Z Z.add 0%Z (answering (stats 4 4) [5; 5; 5; 5]%Z)
    (ret_agg Z Z dispatched) (one_gradient 0 [2; 0; 0; 2]%Z) (stats 2 2) false
  = Ok delayed.
Proof. vm_compute; reflexivity. Qed.

(** The second call returns the sum of the gradient of the first call
    with what the peer contributes, and the header that is broadcast. *)
Lemma AggregateGradients_async_delay_witness :
  ret_gradients Z Z delayed = [(100, dense 2 2 0 [6; 5; 5; 6]%Z)]
  ∧ ret_header Z Z delayed = stats 4 4
  ∧ ret_value Z Z delayed = true
  ∧ m_bufferedGradHeader Z Z (ret_agg Z Z delayed) = Some (stats 2 2).
Proof.
  destruct (AggregateGradients_async_delay Z 4 int_reduce 0%Z Z Z.add 0%Z
              (alone false true) (answering (stats 4 4) [5; 5; 5; 5]%Z)
              (fresh 2 1 false true) (one_gradient 0 [1; 0; 0; 1]%Z) (stats 1 1) true
              (one_gradient 0 [2; 0; 0; 2]%Z) (stats 2 2) dispatched delayed
              ltac:(by vm_compute) eq_refl ltac:(apply NoDup_singleton) eq_refl
              dispatched_Ok ltac:(by vm_compute) delayed_Ok)
    as (st & a2 & G & H & _ & _ & _ & _ & Hh).
  split; [by vm_compute|]. split; [by vm_compute|]. split; [by vm_compute|]. exact Hh.
Defined.

(** Rank 1 of two in async mode, initialized and with no task pending. *)
Definition async_ready : SimpleDistGradAggregator Z Z :=
  the_state (ResetState Z 4 0%Z Z 0%Z true (with_nccl false (fresh 2 1 false true))
               (one_gradient 0 [1; 0; 0; 1]%Z) 1 true)
            (fresh 2 1 false true).

Definition reset_async : Returned Z Z :=
  the_state
    (AggregateGradients Z 4 int_reduce 0%Z Z Z.add 0%Z (alone false true)
       async_ready (one_gradient 0 [3; 3; 3; 3]%Z) (stats 2 2) true)
    dispatched.

Lemma reset_async_Ok :
  AggregateGradients Z 4 int_reduce 0%Z Z Z.add 0%Z (alone false true)
    async_ready (one_gradient 0 [3; 3; 3; 3]%Z) (stats 2 2) true
  = Ok reset_async.
Proof. vm_compute; reflexivity. Qed.

Lemma AggregateGradients_reset_zeroes_witness :
  ret_value Z Z reset_async = true
  ∧ (ret_gradients Z Z reset_async).*1 = [100]
  ∧ Forall (λ pg, Data Z pg.2 = replicate (length (Data Z pg.2)) 0%Z)
      (ret_gradients Z Z reset_async)
  ∧ (∃ h, m_bufferedGradHeader Z Z async_ready = Some h
          ∧ ret_header Z Z reset_async = Clear Z 0%Z h)
  ∧ is_Some (m_pendingAsyncAggregation Z Z (ret_agg Z Z reset_async))
  ∧ m_bufferedGradHeader Z Z (ret_agg Z Z reset_async) = Some (stats 2 2).
Proof.
  apply (AggregateGradients_reset_zeroes Z 4 int_reduce 0%Z Z Z.add 0%Z (alone false true)
           async_ready (one_gradient 0 [3; 3; 3; 3]%Z) (stats 2 2) reset_async).
  - by vm_compute.
  - by vm_compute.
  - by vm_compute.
  - by vm_compute.
  - apply NoDup_singleton.
  - apply reset_async_Ok.
Defined.

(** A gradient that the first call did not see has no shadow. *)
Lemma AggregateGradients_unregistered_witness :
  AggregateGradients Z 4 int_reduce 0%Z Z Z.add 0%Z (alone false true)
    async_ready [(300, dense 2 2 0 [3; 3; 3; 3]%Z)] (stats 2 2) false
  = Throw (LogicError
             "No buffered gradient matrix found corresponding to a gradient matrix to be aggregated!").
Proof.
  apply (AggregateGradients_unregistered Z 4 int_reduce 0%Z Z Z.add 0%Z).
  - by vm_compute.
  - by vm_compute.
  - by vm_compute.
  - by vm_compute.
  - apply NoDup_singleton.
  - exists (300, dense 2 2 0 [3; 3; 3; 3]%Z). split; [by apply list_elem_of_singleton|].
    intros b Hb. by vm_compute in Hb.
Defined.

(** ** The pipeline on the main rank *)

(** An environment whose peers hand [h] under [tag] to [Isend] and
    contribute [d k] to the [k]-th all-reduce. *)
Definition sending (tag : Z) (h : DistGradHeader Z) (d : nat → list Z) : Env Z Z :=
  {| env_fabric := {| peer_send := λ _, Some (tag, h); peer_buffer := λ _ k, d k;
                      completion_order := []; bcast_header := λ _, None |};
     env_nccl_supported := false; env_buffer_alloc_ok := true |}.

Definition peer_of_two : Env Z Z :=
  sending 2 (stats 5 2) (λ k, match k with O => [5; 6; 7; 8]%Z | _ => replicate 9 1%Z end).

(** The first call of rank 0 of two in sync mode. *)
Definition first_sync : Returned Z Z :=
  the_state
    (AggregateGradients Z 4 int_reduce 0%Z Z Z.add 0%Z peer_of_two
       (fresh 2 0 false false) two_gradients (stats 10 1) false)
    dispatched.

Lemma first_sync_Ok :
  AggregateGradients Z 4 int_reduce 0%Z Z Z.add 0%Z peer_of_two
    (fresh 2 0 false false) two_gradients (stats 10 1) false
  = Ok first_sync.
Proof. vm_compute; reflexivity. Qed.

Lemma AggregateGradients_receive_headers_witness :
  length (m_recvHeaders Z Z (ret_agg Z Z first_sync)) = 1%nat
  ∧ m_mpi Z Z (ret_agg Z Z first_sync) = rank_mpi 2 0 false
  ∧ m_initialized Z Z (ret_agg Z Z first_sync) = true.
Proof.
  destruct (AggregateGradients_receive_headers Z 4 int_reduce 0%Z Z Z.add 0%Z peer_of_two
              (fresh 2 0 false false) two_gradients (stats 10 1) false first_sync
              eq_refl first_sync_Ok) as (H1 & H2 & H3).
  split; [|split].
  - rewrite H1. by vm_compute.
  - exact H2.
  - apply H3. by vm_compute.
Defined.

(** The pipeline on the initialized rank 0 of two. *)
Definition piped
  : SimpleDistGradAggregator Z Z * list (Matrix Z) * DistGradHeader Z * list (Call Z Z) :=
  the_state
    (AggregateGradientsImpl Z int_reduce 0%Z Z Z.add (env_fabric Z Z peer_of_two)
       (initialized true) (two_gradients.*2) (stats 10 1) false)
    (initialized true, [], stats 0 0, []).

Lemma piped_Ok :
  AggregateGradientsImpl Z int_reduce 0%Z Z Z.add (env_fabric Z Z peer_of_two)
    (initialized true) (two_gradients.*2) (stats 10 1) false
  = Ok (piped.1.1.1, piped.1.1.2, piped.1.2, piped.2).
Proof. vm_compute; reflexivity. Qed.

Lemma AggregateGradientsImpl_keeps_witness :
  preserved Z Z (initialized true) piped.1.1.1
  ∧ Forall2 (same_shape Z) (two_gradients.*2) piped.1.1.2.
Proof.
  exact (AggregateGradientsImpl_keeps Z int_reduce 0%Z Z Z.add 0%Z
           (env_fabric Z Z peer_of_two) (initialized true) (two_gradients.*2) (stats 10 1)
           false _ _ _ _ piped_Ok).
Defined.

(** ** AsyncAggregateGradHeader *)

(** The main rank of two passes a header of three samples, and its peer
    sends under the tag three. *)
Lemma AsyncAggregateGradHeader_returns_witness :
  ∃ a' t,
    AsyncAggregateGradHeader Z Z Z.add 0%Z
      {| env_fabric := header_peer; env_nccl_supported := false;
         env_buffer_alloc_ok := true |}
      (fresh 2 0 false false) (stats 3 1)
    = Ok (true, a', stats 6 3, t).
Proof.
  destruct (AsyncAggregateGradHeader_returns Z Z Z.add 0%Z
              {| env_fabric := header_peer; env_nccl_supported := false;
                 env_buffer_alloc_ok := true |}
              (fresh 2 0 false false) (stats 3 1) (λ _, stats 3 2) (stats 0 0)
              ltac:(by vm_compute) ltac:(intros _ j _; reflexivity)
              ltac:(intros H; by vm_compute in H))
    as (_ & a' & t & E).
  exists a', t. exact E.
Defined.

(** The same peer, and a main rank whose header has four samples. *)
Lemma AsyncAggregateGradHeader_blocks_witness :
  AsyncAggregateGradHeader Z Z Z.add 0%Z
    {| env_fabric := header_peer; env_nccl_supported := false;
       env_buffer_alloc_ok := true |}
    (fresh 2 0 false false) (stats 4 1)
  = Throw (Deadlock "MPI_Waitany").
Proof.
  apply (AsyncAggregateGradHeader_blocks Z Z Z.add 0%Z).
  - by vm_compute.
  - by vm_compute.
  - exists 0%nat. split; [vm_compute; lia|].
    intros tag h Hs. vm_compute in Hs. injection Hs as <- _. by vm_compute.
Defined.

(** ** The per-node aggregation over MPI *)

Lemma AsyncAggreagateGradientsImpl_reduces_witness :
  AsyncAggreagateGradientsImpl Z int_reduce 0%Z Z (rank_mpi 2 0 false) (peer_with [2]%Z)
    [dense 1 1 0 [1]%Z; dense 1 1 0 [5]%Z] []
  = Ok ([dense 1 1 0 [3]%Z; dense 1 1 0 [7]%Z],
        [call_AllReduce Z Z [1]%Z MPI_SUM; call_AllReduce Z Z [5]%Z MPI_SUM]).
Proof.
  exact (AsyncAggreagateGradientsImpl_reduces Z int_reduce 0%Z Z (rank_mpi 2 0 false)
           (peer_with [2]%Z) [dense 1 1 0 [1]%Z; dense 1 1 0 [5]%Z] []
           ltac:(repeat constructor)).
Defined.

Lemma AsyncAggreagateGradientsImpl_sparse_witness :
  AsyncAggreagateGradientsImpl Z int_reduce 0%Z Z (rank_mpi 2 0 false) (peer_with [2]%Z)
    [dense 1 1 0 [1]%Z; sparse 1 1 0] []
  = Throw (RuntimeError
             "Gradient aggregation for sparse gradient matrices is currently unsupported!").
Proof.
  apply (AsyncAggreagateGradientsImpl_sparse Z int_reduce 0%Z Z).
  exists (sparse 1 1 0). split; [|done]. apply list_elem_of_In. right. by left.
Defined.

(** A learnable node whose gradient has no column yet, and a node that
    needs no gradient and is distributed. *)
Definition learnable : ComputationNode Z :=
  {| NeedsGradient := true; IsParameterUpdateRequired := true; m_distribute := false;
     Value := dense 1 1 0 [9]%Z; Gradient := dense 1 0 0 [] |}.

Definition distributed : ComputationNode Z :=
  {| NeedsGradient := false; IsParameterUpdateRequired := true; m_distribute := true;
     Value := dense 1 1 0 [9]%Z; Gradient := dense 1 1 0 [4]%Z |}.

Definition network : gmap N (ComputationNode Z) := {[ 10 := learnable; 20 := distributed ]}.

(** [Resize] leaves zeros. *)
Definition zeros (rows cols : N) : list Z := replicate (N.to_nat (rows * cols)) 0%Z.


Lemma BackpropAsyncMpiThread_spins_witness :
  BackpropAsyncMpiThread Z int_reduce 0%Z Z zeros 5 (rank_mpi 2 0 false) (peer_with [2]%Z)
    false [10; 20] (network, [])
  ≠ Some (Ok ([], (network, []))).
Proof.
  apply (BackpropAsyncMpiThread_spins Z int_reduce 0%Z Z). by vm_compute.
Defined.

Lemma AsyncAggreagateGradients_enqueues_witness :
  foldl (λ r p, do q <- r; AsyncAggreagateGradients Z (rank_mpi 2 0 false) network q p)
        (Ok []) [10; 20]
  = Ok [10].
Proof.
  exact (AsyncAggreagateGradients_enqueues Z (rank_mpi 2 0 false) network [] [10; 20]
           [learnable; distributed] ltac:(repeat constructor)).
Defined.

(** ** DistributedCheck *)

Lemma DistributedCheck_agrees_witness :
  ∃ same, DistributedCheck Z Z (fresh 2 0 false false) (λ _, 64) 64 2 = Ok same
    ∧ (same = true ↔
       ∀ i x, gathered_sizes Z Z (fresh 2 0 false false) (λ _, 64) 64 !! i = Some x →
              gathered_sizes Z Z (fresh 2 0 false false) (λ _, 64) 64 !! 0%nat = Some x).
Proof.
  exact (DistributedCheck_agrees Z Z (fresh 2 0 false false) (λ _, 64) 64
           ltac:(by vm_compute)).
Defined.

Lemma DistributedCheck_processNum_witness :
  DistributedCheck Z Z (fresh 2 0 false false) (λ _, 64) 64 1 = Throw (Fault "gatherBuffer")
  ∧ DistributedCheck Z Z (fresh 2 0 false false) (λ _, 64) 64 3
    = Throw (Fault "gatherBuffer[i]").
Proof.
  split.
  - apply (DistributedCheck_processNum Z Z (fresh 2 0 false false) (λ _, 64) 64 1);
      by vm_compute.
  - apply (DistributedCheck_processNum Z Z (fresh 2 0 false false) (λ _, 64) 64 3).
    + by vm_compute.
    + by vm_compute.
    + intros [|[|i]] x Hx; vm_compute in Hx; by simplify_eq.
Defined.

(** ** DistributedInit, DistributedAllGather and DistributedAllReduce *)

(** Rank 0 of two after [DistributedInit] for the GPU 0 with buffers of
    six elements. *)
Definition distributed_ready : SimpleDistGradAggregator Z Z :=
  the_state (DistributedInit Z 0%Z Z (alone false true) (fresh 2 0 false false) 0 6)
            (fresh 2 0 false false).

Lemma distributed_ready_Ok :
  DistributedInit Z 0%Z Z (alone false true) (fresh 2 0 false false) 0 6
  = Ok distributed_ready.
Proof. vm_compute; reflexivity. Qed.

Lemma DistributedAllGather_after_init_witness :
  Data Z (ga_matrix Z Z
            (DistributedAllGather Z Z (λ _, [7; 8]%Z) distributed_ready
               (dense 1 2 0 [1; 2]%Z) (dense 1 4 0 [9; 9; 9; 9]%Z) 2))
  = [1; 2; 7; 8]%Z.
Proof.
  destruct (DistributedAllGather_after_init Z 0%Z Z (alone false true) (λ _, [7; 8]%Z)
              (fresh 2 0 false false) distributed_ready
              (dense 1 2 0 [1; 2]%Z) (dense 1 4 0 [9; 9; 9; 9]%Z) 2 6
              ltac:(by vm_compute) distributed_ready_Ok ltac:(vm_compute; lia)
              ltac:(intros s; vm_compute; lia) eq_refl eq_refl ltac:(by vm_compute))
    as (nccl & Hn & H).
  vm_compute in Hn. injection Hn as <-. exact (proj2 H).
Defined.

(** A gathered matrix of six elements for four that are gathered: from
    the GPU the last two come from the host buffer, from the CPU they
    stay. *)
Lemma DistributedAllGather_tail_witness :
  Data Z (ga_matrix Z Z
            (DistributedAllGather Z Z (λ _, [7; 8]%Z) distributed_ready
               (dense 1 2 0 [1; 2]%Z) (dense 1 6 0 (replicate 6 9%Z)) 2))
  = [1; 2; 7; 8; 0; 0]%Z
  ∧ Data Z (ga_matrix Z Z
              (DistributedAllGather Z Z (λ _, [7; 8]%Z) distributed_ready
                 (dense 1 2 (-1) [1; 2]%Z) (dense 1 6 (-1) (replicate 6 9%Z)) 2))
    = [1; 2; 7; 8; 9; 9]%Z.
Proof.
  split.
  - refine (proj1 (proj2 (proj2
      (DistributedAllGather_tail Z Z (λ _, [7; 8]%Z) distributed_ready
         (dense 1 2 0 [1; 2]%Z) (dense 1 6 0 (replicate 6 9%Z)) 2 {| IsSupported := false |}
         eq_refl eq_refl ltac:(vm_compute; lia) eq_refl ltac:(vm_compute; lia))
      eq_refl (replicate 6 0%Z) (replicate 6 0%Z) eq_refl eq_refl _ _)));
      vm_compute; lia.
  - exact (proj2 (proj1
      (DistributedAllGather_tail Z Z (λ _, [7; 8]%Z) distributed_ready
         (dense 1 2 (-1) [1; 2]%Z) (dense 1 6 (-1) (replicate 6 9%Z)) 2
         {| IsSupported := false |}
         eq_refl eq_refl ltac:(vm_compute; lia) eq_refl ltac:(vm_compute; lia))
      eq_refl)).
Defined.

(** A single rank. *)
Lemma single_rank_distributed_faults_witness :
  DistributedInit Z 0%Z Z (alone false true) (fresh 1 0 false false) 0 6
  = Ok (fresh 1 0 false false)
  ∧ dr_thrown Z Z (DistributedAllReduce Z int_reduce Z (silent Z Z) (fresh 1 0 false false)
                     (dense 1 1 0 [1]%Z) MPI_SUM)
    = Some (Fault "m_nccl")
  ∧ ga_thrown Z Z (DistributedAllGather Z Z (λ _, []) (fresh 1 0 false false)
                     (dense 1 1 0 [1]%Z) (dense 1 1 0 [0]%Z) 1)
    = Some (Fault "m_nccl").
Proof.
  destruct (single_rank_distributed_faults Z 4 int_reduce 0%Z Z Z.add 0%Z (alone false true)
              (silent Z Z) (λ _, []) (fresh 1 0 false false) eq_refl eq_refl)
    as (_ & H2 & H3 & H4).
  split; [apply H2|]. split; [apply H3 | apply H4].
Defined.

